(** * download_pre_v1_data: thawing and downloading archived frames

    A shallow embedding of [download_pre_v1_data.py].  Python strings are
    [string], dictionaries with string keys are [gmap string _], Python
    integers are [Z], and the calls to the outside world (the search index,
    the object store, the local host) are answered by oracles that see the
    whole interaction so far and are recorded in a trace.

    The file has three parts: the embedding of the program, the vocabulary
    and the test fixtures of the statements, and the lemmas and theorems. *)

From Stdlib Require Import ZArith Ascii String DecimalString.
From stdpp Require Import base list gmap strings.

(** ** Python string primitives *)

Module PyStr.

(** [s.startswith(p)] *)
Fixpoint startswith (p s : string) : bool :=
  match p, s with
  | EmptyString, _ => true
  | String a p', String b s' => if Ascii.eqb a b then startswith p' s' else false
  | String _ _, EmptyString => false
  end.

(** [p in s] for strings: some suffix of [s] starts with [p]. *)
Fixpoint contains (p s : string) : bool :=
  startswith p s ||
  match s with
  | EmptyString => false
  | String _ s' => contains p s'
  end.

(** [c in s] for a single character. *)
Fixpoint has_char (c : ascii) (s : string) : bool :=
  match s with
  | EmptyString => false
  | String b s' => Ascii.eqb c b || has_char c s'
  end.

(** [s[n:]] for [n >= 0] *)
Fixpoint drop (n : nat) (s : string) : string :=
  match n, s with
  | O, _ => s
  | S _, EmptyString => EmptyString
  | S n', String _ s' => drop n' s'
  end.

(** [s[:n]] for [n >= 0] *)
Fixpoint take (n : nat) (s : string) : string :=
  match n, s with
  | O, _ => EmptyString
  | S _, EmptyString => EmptyString
  | S n', String c s' => String c (take n' s')
  end.

(** [s.endswith(p)] *)
Definition endswith (p s : string) : bool :=
  String.eqb (drop (String.length s - String.length p) s) p
  && (String.length p <=? String.length s)%nat.

(** [s.replace(old, new)] for a non-empty [old]: scan from the left; at an
    occurrence of [old] emit [new] and jump over the occurrence, otherwise
    copy one character.  [skip] counts the characters of the occurrence
    still to jump over. *)
Fixpoint replace_from (old new : string) (skip : nat) (s : string) : string :=
  match s with
  | EmptyString => EmptyString
  | String c s' =>
      match skip with
      | S k => replace_from old new k s'
      | O =>
          if startswith old s
          then new +:+ replace_from old new (String.length old - 1) s'
          else String c (replace_from old new 0 s')
      end
  end.

Definition replace (old new s : string) : string := replace_from old new 0 s.

(** [s.split(sep)] for a one-character separator; [cur] is the segment
    being read.  The result always has at least one segment. *)
Fixpoint split_from (sep : ascii) (cur s : string) : list string :=
  match s with
  | EmptyString => [cur]
  | String c s' =>
      if Ascii.eqb c sep then cur :: split_from sep EmptyString s'
      else split_from sep (cur +:+ String c EmptyString) s'
  end.

Definition split (sep : ascii) (s : string) : list string :=
  split_from sep EmptyString s.

(** [n * s] : a non-positive count gives the empty string. *)
Fixpoint repeat_nat (s : string) (n : nat) : string :=
  match n with
  | O => EmptyString
  | S n' => s +:+ repeat_nat s n'
  end.

Definition repeat (n : Z) (s : string) : string := repeat_nat s (Z.to_nat n).

(** [len(s)] *)
Definition len (s : string) : Z := Z.of_nat (String.length s).

(** [s.rfind(c) + 1] for a one-character [c]: the length of the longest
    prefix ending in [c], 0 when [c] does not occur. *)
Fixpoint after_last (c : ascii) (s : string) : nat :=
  match s with
  | EmptyString => 0
  | String b s' =>
      if has_char c s' then S (after_last c s')
      else if Ascii.eqb b c then 1 else 0
  end.

(** [s.rstrip(c)] for a one-character [c] *)
Fixpoint rstrip (c : ascii) (s : string) : string :=
  match s with
  | EmptyString => EmptyString
  | String b s' =>
      match rstrip c s' with
      | EmptyString => if Ascii.eqb b c then EmptyString else String b EmptyString
      | r => String b r
      end
  end.

End PyStr.

(** ** Exceptions, results and the interaction trace *)

(** The Python exceptions the program can meet.  [Raised info] is an
    exception raised inside a call to an external service; [info] is the
    text of [str(sys.exc_info())] for it. *)
Inductive exn :=
| KeyError (key : string)
| IndexError
| AttributeError
| ValueError
| TypeError
| Raised (exc_info : string).

Inductive result (A : Type) :=
| Ok (a : A)
| Err (e : exn).
Arguments Ok {A} a.
Arguments Err {A} e.

#[global] Instance result_ret : MRet result := @Ok.
#[global] Instance result_bind : MBind result := λ A B f r,
  match r with
  | Ok a => f a
  | Err e => Err e
  end.

(** What an external call gives back: a value, or an exception whose
    [str(sys.exc_info())] is [exc_info]. *)
Inductive reply (A : Type) :=
| Returned (a : A)
| Failed (exc_info : string).
Arguments Returned {A} a.
Arguments Failed {A} exc_info.

(** The body of a search request: the two query shapes the program builds. *)
Inductive query :=
| MatchPhraseQuery (field value : string)
| FunctionScoreQuery (must : list (string * string))
    (decay_field origin scale : string) (decay : Z * Z)
    (boost_mode : string) (size : Z).

Record datetime := {
  year : Z; month : Z; day : Z;
  hour : Z; minute : Z; second : Z; microsecond : Z }.

(** [response['hits']['hits']]: [None], or the list of the hits' [_source]
    dictionaries. *)
Abbreviation hits := (option (list (gmap string string))).

Inductive event :=
| EvSearch (index : string) (body : query) (response : reply hits)
| EvPrint (line : string)
| EvRestore (bucket key : string) (days : Z) (tier : string) (outcome : reply unit)
| EvHead (bucket key : string) (response : reply (gmap string string))
| EvSleep (seconds : Z)
| EvMakedirs (path : string) (outcome : reply unit)
| EvDownload (bucket key path : string) (outcome : reply unit).

(** The external collaborators.  Each answer may depend on everything that
    has happened so far. *)
Record OpenSearch := {
  search : list event → string → query → reply hits }.

Record S3Client := {
  restore_object : list event → string → string → Z → string → reply unit;
  head_object : list event → string → string → reply (gmap string string);
  download_file : list event → string → string → string → reply unit }.

Record Host := {
  now : list event → datetime;
  makedirs : list event → string → reply unit }.

(** The program state: the trace of external interactions, oldest first,
    and the mutable key sets, by reference.  A Python set is kept as the
    list of its members in iteration order. *)
Record state := {
  trace : list event;
  heap : gmap nat (list string) }.

Definition M (A : Type) : Type := state → result A * state.

#[global] Instance M_ret : MRet M := λ A a st, (Ok a, st).
#[global] Instance M_bind : MBind M := λ A B f m st,
  match m st with
  | (Ok a, st') => f a st'
  | (Err e, st') => (Err e, st')
  end.

Definition raise {A} (e : exn) : M A := λ st, (Err e, st).

Definition lift {A} (r : result A) : M A := λ st, (r, st).

Definition emit (ev : event) : M unit :=
  λ st, (Ok tt, {| trace := trace st ++ [ev]; heap := heap st |}).

Definition history : M (list event) := λ st, (Ok (trace st), st).

(** An external call whose exception the caller may catch. *)
Definition try_call {A} (answer : list event → reply A) (ev : reply A → event)
  : M (reply A) :=
  h ← history; let r := answer h in emit (ev r);; mret r.

(** An external call whose exception propagates. *)
Definition call {A} (answer : list event → reply A) (ev : reply A → event) : M A :=
  r ← try_call answer ev;
  match r with
  | Returned a => mret a
  | Failed info => raise (Raised info)
  end.

Definition print (line : string) : M unit := emit (EvPrint line).

(** [d[key]] *)
Definition getitem (d : gmap string string) (key : string) : result string :=
  match d !! key with
  | Some v => Ok v
  | None => Err (KeyError key)
  end.

(** [l[i]] for [i >= 0] *)
Definition index {A} (l : list A) (i : nat) : result A :=
  match l !! i with
  | Some x => Ok x
  | None => Err IndexError
  end.

(** Reading a set object, and [s -= set(d)]. *)
Definition deref (r : nat) : M (list string) := λ st,
  match heap st !! r with
  | Some ks => (Ok ks, st)
  | None => (Err TypeError, st)
  end.

Definition difference_update (r : nat) (d : list string) : M unit := λ st,
  match heap st !! r with
  | Some ks =>
      (Ok tt, {| trace := trace st; heap := <[r := list_difference ks d]> (heap st) |})
  | None => (Err TypeError, st)
  end.

(** ** [datetime.strptime] and [strftime]

    After CPython's [_strptime]: the format is turned into a regular
    expression, one group per directive, letters matched without regard to
    case; the first match in the expression's order of preference is
    taken, the whole text must have been consumed, and the fields must make
    a valid [datetime].  A parser here gives every way to read a prefix of
    the text, in that order of preference. *)

Module PyTime.

Definition is_digit (c : ascii) : bool :=
  let n := nat_of_ascii c in (48 <=? n)%nat && (n <=? 57)%nat.

Definition between (lo hi : ascii) (c : ascii) : bool :=
  let n := nat_of_ascii c in
  (nat_of_ascii lo <=? n)%nat && (n <=? nat_of_ascii hi)%nat.

Definition lower (c : ascii) : ascii :=
  let n := nat_of_ascii c in
  if (65 <=? n)%nat && (n <=? 90)%nat then ascii_of_nat (n + 32) else c.

(** One alternative of a group: a sequence of character classes. *)
Fixpoint match_classes (cs : list (ascii → bool)) (s : string)
  : option (string * string) :=
  match cs with
  | [] => Some (EmptyString, s)
  | cl :: cs' =>
      match s with
      | String c s' =>
          if cl c then
            match match_classes cs' s' with
            | Some (m, r) => Some (String c m, r)
            | None => None
            end
          else None
      | EmptyString => None
      end
  end.

Definition chr (a : ascii) : ascii → bool := Ascii.eqb a.

(** The groups of the directives, alternatives in the order of
    [_strptime.TimeRE]. *)
Definition directive (d : ascii) : option (list (list (ascii → bool))) :=
  if Ascii.eqb d "Y" then Some [[is_digit; is_digit; is_digit; is_digit]]
  else if Ascii.eqb d "m" then
    Some [[chr "1"; between "0" "2"]; [chr "0"; between "1" "9"]; [between "1" "9"]]
  else if Ascii.eqb d "d" then
    Some [[chr "3"; between "0" "1"]; [between "1" "2"; is_digit];
          [chr "0"; between "1" "9"]; [between "1" "9"]; [chr " "; between "1" "9"]]
  else if Ascii.eqb d "H" then
    Some [[chr "2"; between "0" "3"]; [between "0" "1"; is_digit]; [is_digit]]
  else if Ascii.eqb d "M" then
    Some [[between "0" "5"; is_digit]; [is_digit]]
  else if Ascii.eqb d "S" then
    Some [[chr "6"; between "0" "1"]; [between "0" "5"; is_digit]; [is_digit]]
  else if Ascii.eqb d "f" then
    Some [[is_digit; is_digit; is_digit; is_digit; is_digit; is_digit];
          [is_digit; is_digit; is_digit; is_digit; is_digit];
          [is_digit; is_digit; is_digit; is_digit];
          [is_digit; is_digit; is_digit];
          [is_digit; is_digit];
          [is_digit]]
  else None.

(** [int(text)] for a text of digits, after an optional blank. *)
Fixpoint int_from (acc : Z) (s : string) : Z :=
  match s with
  | EmptyString => acc
  | String c s' =>
      if is_digit c then int_from (10 * acc + Z.of_nat (nat_of_ascii c - 48)) s'
      else int_from acc s'
  end.

Definition int (s : string) : Z := int_from 0 s.

Definition set_field (d : ascii) (text : string) (dt : datetime) : datetime :=
  if Ascii.eqb d "Y" then
    {| year := int text; month := month dt; day := day dt; hour := hour dt;
       minute := minute dt; second := second dt; microsecond := microsecond dt |}
  else if Ascii.eqb d "m" then
    {| year := year dt; month := int text; day := day dt; hour := hour dt;
       minute := minute dt; second := second dt; microsecond := microsecond dt |}
  else if Ascii.eqb d "d" then
    {| year := year dt; month := month dt; day := int text; hour := hour dt;
       minute := minute dt; second := second dt; microsecond := microsecond dt |}
  else if Ascii.eqb d "H" then
    {| year := year dt; month := month dt; day := day dt; hour := int text;
       minute := minute dt; second := second dt; microsecond := microsecond dt |}
  else if Ascii.eqb d "M" then
    {| year := year dt; month := month dt; day := day dt; hour := hour dt;
       minute := int text; second := second dt; microsecond := microsecond dt |}
  else if Ascii.eqb d "S" then
    {| year := year dt; month := month dt; day := day dt; hour := hour dt;
       minute := minute dt; second := int text; microsecond := microsecond dt |}
  else
    (* %f: s += "0" * (6 - len(s)); fraction = int(s) *)
    {| year := year dt; month := month dt; day := day dt; hour := hour dt;
       minute := minute dt; second := second dt;
       microsecond := int (text +:+ PyStr.repeat (6 - PyStr.len text) "0") |}.

(** Every reading of a prefix of [s] against [fmt], best first. *)
Fixpoint readings (fmt : string) (dt : datetime) (s : string)
  : list (datetime * string) :=
  match fmt with
  | EmptyString => [(dt, s)]
  | String "%" (String d fmt') =>
      match directive d with
      | Some alts =>
          mjoin ((λ alt,
            match match_classes alt s with
            | Some (text, rest) => readings fmt' (set_field d text dt) rest
            | None => []
            end) <$> alts)
      | None => []
      end
  | String a fmt' =>
      match s with
      | String c s' =>
          if Ascii.eqb (lower a) (lower c) then readings fmt' dt s' else []
      | EmptyString => []
      end
  end.

Definition is_leap (y : Z) : bool :=
  ((y mod 4 =? 0) && negb (y mod 100 =? 0) || (y mod 400 =? 0))%Z.

Definition days_in_month (y m : Z) : Z :=
  if (m =? 2)%Z then (if is_leap y then 29 else 28)
  else if ((m =? 4) || (m =? 6) || (m =? 9) || (m =? 11))%Z then 30
  else 31.

(** The range checks of the [datetime] constructor. *)
Definition valid (dt : datetime) : bool :=
  ((1 <=? year dt) && (year dt <=? 9999) &&
   (1 <=? month dt) && (month dt <=? 12) &&
   (1 <=? day dt) && (day dt <=? days_in_month (year dt) (month dt)) &&
   (0 <=? hour dt) && (hour dt <=? 23) &&
   (0 <=? minute dt) && (minute dt <=? 59) &&
   (0 <=? second dt) && (second dt <=? 59) &&
   (0 <=? microsecond dt) && (microsecond dt <=? 999999))%Z.

(** The fields start from [_strptime]'s defaults. *)
Definition epoch : datetime :=
  {| year := 1900; month := 1; day := 1;
     hour := 0; minute := 0; second := 0; microsecond := 0 |}.

Definition strptime (s fmt : string) : result datetime :=
  match readings fmt epoch s with
  | (dt, EmptyString) :: _ => if valid dt then Ok dt else Err ValueError
  | _ => Err ValueError
  end.

(** A non-negative number in decimal, zero-padded to [width] digits.
    [%Y] is written with four digits, as the library documents it. *)
Definition zero_padded (width : nat) (n : Z) : string :=
  let s := NilEmpty.string_of_uint (N.to_uint (Z.to_N n)) in
  PyStr.repeat_nat "0" (width - String.length s) +:+ s.

Fixpoint strftime (fmt : string) (dt : datetime) : string :=
  match fmt with
  | EmptyString => EmptyString
  | String "%" (String d fmt') =>
      (if Ascii.eqb d "Y" then zero_padded 4 (year dt)
       else if Ascii.eqb d "m" then zero_padded 2 (month dt)
       else if Ascii.eqb d "d" then zero_padded 2 (day dt)
       else if Ascii.eqb d "H" then zero_padded 2 (hour dt)
       else if Ascii.eqb d "M" then zero_padded 2 (minute dt)
       else if Ascii.eqb d "S" then zero_padded 2 (second dt)
       else if Ascii.eqb d "f" then zero_padded 6 (microsecond dt)
       else String "%" (String d EmptyString))
      +:+ strftime fmt' dt
  | String a fmt' => String a (strftime fmt' dt)
  end.

End PyTime.

(** ** [os.path] (posixpath) *)

Module PyPath.

(** [os.path.join(a, b)] *)
Definition join (a b : string) : string :=
  if PyStr.startswith "/" b then b
  else if String.eqb a EmptyString || PyStr.endswith "/" a then a +:+ b
  else a +:+ "/" +:+ b.

(** [os.path.dirname(p)] *)
Definition dirname (p : string) : string :=
  let i := PyStr.after_last "/" p in
  let head := PyStr.take i p in
  if negb (String.eqb head EmptyString)
     && negb (String.eqb head (PyStr.repeat_nat "/" (String.length head)))
  then PyStr.rstrip "/" head else head.

(** [os.path.basename(p)] *)
Definition basename (p : string) : string :=
  PyStr.drop (PyStr.after_last "/" p) p.

End PyPath.

(** ** The program *)

Definition make_s3_prefix_from_filename (filename : string) : result string :=
  let site := PyStr.take 3 filename in
  instrument ← index (PyStr.split "-" filename) 1;
  dayobs ← index (PyStr.split "-" filename) 2;
  let compressed_filename :=
    PyStr.replace ".fits" ".fits.fz" (PyStr.replace ".fits.fz" ".fits" filename) in
  let prefix :=
    site +:+ "/" +:+ instrument +:+ "/" +:+ dayobs +:+ "/raw/" +:+ compressed_filename in
  mret prefix.

Definition call_search (search_host : OpenSearch) (index_name : string) (body : query)
  : M hits :=
  call (λ h, search search_host h index_name body) (EvSearch index_name body).

Definition get_frame_metadata (filename : string) (search_host : OpenSearch)
    (index_name : string) : M (option (gmap string string)) :=
  let query :=
    MatchPhraseQuery "filename"
      (PyStr.replace ".fz" EmptyString (PyStr.replace ".fits" EmptyString filename)) in
  response ← call_search search_host index_name query;
  match response with
  | None | Some [] => print filename;; mret None
  | Some (hit :: _) => mret (Some hit)
  end.

(** The text handed to the second [strptime] of [parse_date_obs]: the
    value of [date_obs_string] after the padding. *)
Definition padded_date_obs (date_obs_string : string) : string :=
  let date_fractional_seconds_list := PyStr.split "." date_obs_string in
  if (1 <? Z.of_nat (length date_fractional_seconds_list))%Z then
    date_obs_string +:+
      PyStr.repeat (6 - PyStr.len (List.last date_fractional_seconds_list EmptyString)) "0"
  else date_obs_string +:+ ".000000".

Definition parse_date_obs (date_obs_string : string) : result (option datetime) :=
  if String.eqb date_obs_string "N/A" then mret None
  else if negb (PyStr.contains "T" date_obs_string) then
    dt ← PyTime.strptime date_obs_string "%Y-%m-%d"; mret (Some dt)
  else
    dt ← PyTime.strptime (padded_date_obs date_obs_string) "%Y-%m-%dT%H:%M:%S.%f";
    mret (Some dt).

(** [[r['_source']['filename'] for r in hits if '00.fits' in r['_source']['filename']]] *)
Fixpoint final_filenames (results : list (gmap string string)) : result (list string) :=
  match results with
  | [] => mret []
  | r :: rest =>
      f ← getitem r "filename";
      if PyStr.contains "00.fits" f
      then fs ← final_filenames rest; mret (f :: fs)
      else final_filenames rest
  end.

(** [[make_s3_prefix_from_filename(f) for f in filenames]] *)
Fixpoint prefixes (filenames : list string) : result (list string) :=
  match filenames with
  | [] => mret []
  | f :: rest =>
      p ← make_s3_prefix_from_filename f;
      ps ← prefixes rest;
      mret (p :: ps)
  end.

(** [s[:-3]] *)
Definition drop_last3 (s : string) : string :=
  PyStr.take (String.length s - 3) s.

Definition get_nearest_calibration_frames (obstype : string) (n_frames : Z)
    (filename : string) (search_host : OpenSearch) (search_index : string)
  : M (list string) :=
  frame_metadata ← get_frame_metadata filename search_host search_index;
  match frame_metadata with
  | None => mret []
  | Some frame_metadata =>
      siteid ← lift (getitem frame_metadata "SITEID");
      instrume ← lift (getitem frame_metadata "INSTRUME");
      let match_filters :=
        [("OBSTYPE", obstype); ("SITEID", siteid); ("INSTRUME", instrume)] in
      match_filters ←
        (if String.eqb obstype "SKYFLAT"
         then band ← lift (getitem frame_metadata "FILTER");
              mret (match_filters ++ [("FILTER", band)])
         else mret match_filters);
      date_obs ← lift (getitem frame_metadata "DATE-OBS");
      input_date_obs ← lift (parse_date_obs date_obs);
      input_date_obs ←
        match input_date_obs with
        | Some dt =>
            mret (drop_last3 (PyTime.strftime "%Y-%m-%dT%H:%M:%S.%f" dt) +:+ "UTC")
        | None => raise AttributeError
        end;
      let query :=
        FunctionScoreQuery match_filters "DATE-OBS" input_date_obs "1h"
          (999, 1000)%Z "multiply" n_frames in
      response ← call_search search_host search_index query;
      results ← match response with
                | Some results => mret results
                | None => raise TypeError
                end;
      filenames ← lift (final_filenames results);
      lift (prefixes filenames)
  end.

(** The loop of [thaw_files]; [dead_references] is the list built so far. *)
Fixpoint thaw_sweep (object_keys : list string) (bucket_name : string) (s3 : S3Client)
    (thaw_mode : string) (dead_references : list string) : M (list string) :=
  match object_keys with
  | [] => mret dead_references
  | object_key :: rest =>
      r ← try_call (λ h, restore_object s3 h bucket_name object_key 1 thaw_mode)
                   (EvRestore bucket_name object_key 1 thaw_mode);
      match r with
      | Returned _ => thaw_sweep rest bucket_name s3 thaw_mode dead_references
      | Failed info =>
          if PyStr.contains "NoSuchKey" info then
            print ("Unable to thaw file " +:+ object_key +:+ ". No such key.");;
            thaw_sweep rest bucket_name s3 thaw_mode (dead_references ++ [object_key])
          else if negb (PyStr.contains "RestoreAlreadyInProgress" info) then
            raise (Raised info)
          else thaw_sweep rest bucket_name s3 thaw_mode dead_references
      end
  end.

(** [object_keys] is the reference to the caller's set. *)
Definition thaw_files (object_keys : nat) (bucket_name : string) (s3 : S3Client)
    (thaw_mode : string) : M unit :=
  keys ← deref object_keys;
  dead_references ← thaw_sweep keys bucket_name s3 thaw_mode [];
  difference_update object_keys dead_references.

(** [key in restored_objects] *)
Definition mem (key : string) (l : list string) : bool := bool_decide (key ∈ l).

(** The text [ongoing-request="false"]. *)
Definition ongoing_request_false : string :=
  "ongoing-request=" +:+ String (ascii_of_nat 34) "false" +:+ String (ascii_of_nat 34) EmptyString.

(** The test on a [head_object] response. *)
Definition thawed (response : gmap string string) : bool :=
  match response !! "Restore" with
  | Some v => PyStr.contains ongoing_request_false v
  | None => false
  end.

Section WithHost.

(** The local machine: its clock and its file system. *)
Variable host : Host.

(** One pass of the [for] loop of [wait_for_files_to_thaw]. *)
Fixpoint poll (object_keys : list string) (bucket_name : string) (s3 : S3Client)
    (restored_objects : list string) : M (list string) :=
  match object_keys with
  | [] => mret restored_objects
  | object_key :: rest =>
      if negb (mem object_key restored_objects) then
        response ← call (λ h, head_object s3 h bucket_name object_key)
                        (EvHead bucket_name object_key);
        if thawed response
        then poll rest bucket_name s3 (restored_objects ++ [object_key])
        else poll rest bucket_name s3 restored_objects
      else poll rest bucket_name s3 restored_objects
  end.

(** [str(n)] for an integer *)
Definition str (n : Z) : string := NilEmpty.string_of_int (Z.to_int n).

(** The [while] loop, unrolled at most [fuel] times; [None] when the loop
    is still running after [fuel] rounds. *)
Fixpoint wait_loop (fuel : nat) (object_keys : list string) (bucket_name : string)
    (s3 : S3Client) (restored_objects : list string) (st : state)
  : option (result unit * state) :=
  if (Z.of_nat (length restored_objects) <? Z.of_nat (length object_keys))%Z then
    match fuel with
    | O => None
    | S fuel' =>
        let now := PyTime.strftime "%Y-%m-%d %H:%M:%S" (now host (trace st)) in
        match
          (restored_objects ← poll object_keys bucket_name s3 restored_objects;
           print (now +:+ ": Waiting for files to thaw: " +:+
                  str (Z.of_nat (length object_keys)
                       - Z.of_nat (length restored_objects)) +:+
                  " left to be restored.");;
           emit (EvSleep 300);;
           mret restored_objects) st
        with
        | (Ok restored_objects, st') =>
            wait_loop fuel' object_keys bucket_name s3 restored_objects st'
        | (Err e, st') => Some (Err e, st')
        end
    end
  else Some (Ok tt, st).

Definition wait_for_files_to_thaw (fuel : nat) (object_keys : list string)
    (bucket_name : string) (s3 : S3Client) (st : state)
  : option (result unit * state) :=
  wait_loop fuel object_keys bucket_name s3 [] st.

Fixpoint download_thawed_files (object_keys : list string) (base_dir bucket_name : string)
    (s3 : S3Client) : M unit :=
  match object_keys with
  | [] => mret tt
  | object_key :: rest =>
      let dir := PyPath.join base_dir (PyPath.dirname object_key) in
      call (λ h, makedirs host h dir) (EvMakedirs dir);;
      let download_path := PyPath.join base_dir object_key in
      r ← try_call (λ h, download_file s3 h bucket_name object_key download_path)
                   (EvDownload bucket_name object_key download_path);
      match r with
      | Returned _ => print ("Downloaded " +:+ PyPath.basename object_key)
      | Failed _ => print ("Skipped " +:+ PyPath.basename object_key)
      end;;
      download_thawed_files rest base_dir bucket_name s3
  end.

(** The parsed command line. *)
Record Args := {
  bucket : string;
  frame_list : string;
  output_dir : string;
  opensearch_host : string;
  opensearch_index : string;
  aws_access_key : string;
  aws_secret_key : string;
  aws_region : string;
  dry_run : bool;
  thaw_mode : string }.

(** The script body.  [files_to_restore] is column [col1] of the frame
    list, [search_host] and [s3] are the clients the body creates. *)
Definition main (args : Args) (files_to_restore : list string)
    (search_host : OpenSearch) (s3 : S3Client) : M unit :=
  download_thawed_files files_to_restore (output_dir args) (bucket args) s3.

End WithHost.

(** ** Vocabulary of the statements *)

(** A frame name of the current archive layout, without its extension: a
    three-letter site code and a telescope code, then the instrument, the
    day of observation and the rest of the name (frame number and type),
    separated by hyphens. *)
Definition frame_name (site tel instrument dayobs rest : string) : string :=
  site +:+ tel +:+ "-" +:+ instrument +:+ "-" +:+ dayobs +:+ "-" +:+ rest.

(** The parts fit the convention: the site code has three letters, the
    first three segments hold no hyphen, and the name holds no dot. *)
Definition conventional (site tel instrument dayobs rest : string) : bool :=
  (String.length site =? 3)%nat
  && negb (PyStr.has_char "-" (site +:+ tel))
  && negb (PyStr.has_char "-" instrument)
  && negb (PyStr.has_char "-" dayobs)
  && negb (PyStr.has_char "." (frame_name site tel instrument dayobs rest)).

(** The phrase searched for: the expression of line 45. *)
Definition scrubbed (filename : string) : string :=
  PyStr.replace ".fz" EmptyString (PyStr.replace ".fits" EmptyString filename).

(** The state after the further events [evs]. *)
Definition logged (st : state) (evs : list event) : state :=
  {| trace := trace st ++ evs; heap := heap st |}.

(** The filters of the relevance query, from the target's metadata. *)
Definition filters_for (obstype : string) (meta : gmap string string)
    (must : list (string * string)) : Prop :=
  ∃ siteid instrume extra,
    meta !! "SITEID" = Some siteid ∧ meta !! "INSTRUME" = Some instrume
    ∧ must = [("OBSTYPE", obstype); ("SITEID", siteid); ("INSTRUME", instrume)] ++ extra
    ∧ (obstype = "SKYFLAT" →
       ∃ band, meta !! "FILTER" = Some band ∧ extra = [("FILTER", band)])
    ∧ (obstype ≠ "SKYFLAT" → extra = []).

(** An index honours the must-clauses when every hit of a relevance query
    carries, for each clause, exactly the clause's value in its field. *)
Definition honours_must (search_host : OpenSearch) : Prop :=
  ∀ h index_name must decay_field origin scale decay boost_mode size results,
    search search_host h index_name
      (FunctionScoreQuery must decay_field origin scale decay boost_mode size)
    = Returned (Some results) →
    ∀ hit field value,
      hit ∈ results → (field, value) ∈ must → hit !! field = Some value.

(** The two conditions [thaw_files] tests on a failed request. *)
Definition no_such_key (outcome : reply unit) : bool :=
  match outcome with
  | Failed info => PyStr.contains "NoSuchKey" info
  | Returned _ => false
  end.

Definition already_in_progress (outcome : reply unit) : bool :=
  match outcome with
  | Failed info => PyStr.contains "RestoreAlreadyInProgress" info
  | Returned _ => false
  end.

(** A failure that is neither. *)
Definition fatal (outcome : reply unit) : bool :=
  match outcome with
  | Failed _ => negb (no_such_key outcome) && negb (already_in_progress outcome)
  | Returned _ => false
  end.

(** The keys of the restore requests in a trace, in order; those whose
    request failed with [NoSuchKey]; whether some request failed fatally. *)
Fixpoint requested (evs : list event) : list string :=
  match evs with
  | [] => []
  | EvRestore _ key _ _ _ :: evs' => key :: requested evs'
  | _ :: evs' => requested evs'
  end.

Fixpoint dead_keys (evs : list event) : list string :=
  match evs with
  | [] => []
  | EvRestore _ key _ _ outcome :: evs' =>
      if no_such_key outcome then key :: dead_keys evs' else dead_keys evs'
  | _ :: evs' => dead_keys evs'
  end.

Fixpoint any_fatal (evs : list event) : bool :=
  match evs with
  | [] => false
  | EvRestore _ _ _ _ outcome :: evs' => fatal outcome || any_fatal evs'
  | _ :: evs' => any_fatal evs'
  end.

(** The events [thaw_files] may produce. *)
Definition unable_to_thaw (key : string) : string :=
  "Unable to thaw file " +:+ key +:+ ". No such key.".

Definition thaw_event (bucket_name thaw_mode : string) (ev : event) : Prop :=
  match ev with
  | EvRestore b _ days tier _ => b = bucket_name ∧ days = 1%Z ∧ tier = thaw_mode
  | EvPrint line => ∃ key, line = unable_to_thaw key
  | _ => False
  end.

(** Every restore outcome in [evs] is the store's answer at that point,
    [h] being what came before. *)
Fixpoint answered (s3 : S3Client) (h evs : list event) : Prop :=
  match evs with
  | [] => True
  | ev :: evs' =>
      match ev with
      | EvRestore b key days tier outcome =>
          outcome = restore_object s3 h b key days tier
      | _ => True
      end ∧ answered s3 (h ++ [ev]) evs'
  end.

(** What a sweep over [keys] does. *)
Definition sweep_outcome (bucket_name : string) (s3 : S3Client) (thaw_mode : string)
    (keys dead : list string) (h : list event) (res : result (list string))
    (evs : list event) : Prop :=
  Forall (thaw_event bucket_name thaw_mode) evs
  ∧ answered s3 h evs
  ∧ (∀ k, k ∈ dead_keys evs → EvPrint (unable_to_thaw k) ∈ evs)
  ∧ match res with
    | Ok dead' =>
        requested evs = keys ∧ any_fatal evs = false ∧ dead' = dead ++ dead_keys evs
    | Err e =>
        ∃ evs0 key info,
          evs = evs0 ++ [EvRestore bucket_name key 1 thaw_mode (Failed info)]
          ∧ fatal (Failed info) = true ∧ any_fatal evs0 = false ∧ e = Raised info
          ∧ ∃ n, requested evs = take n keys
    end.

(** A poll of [key] in [evs] showed the restore complete. *)
Definition seen_thawed (bucket_name key : string) (evs : list event) : Prop :=
  ∃ response, EvHead bucket_name key (Returned response) ∈ evs
              ∧ thawed response = true.

(** The line printed after a pass. *)
Definition waiting_line (host : Host) (h : list event) (left_over : Z) : string :=
  PyTime.strftime "%Y-%m-%d %H:%M:%S" (now host h) +:+
  ": Waiting for files to thaw: " +:+ str left_over +:+ " left to be restored.".

(** The downloader talks to the store and the file system only to create
    directories and fetch objects: it sends no restore request, polls no
    status and does not sleep. *)
Definition download_event (object_keys : list string) (ev : event) : Prop :=
  match ev with
  | EvMakedirs _ _ | EvPrint _ => True
  | EvDownload _ key _ _ => key ∈ object_keys
  | _ => False
  end.

(** ** Test fixtures

    A small index, a small object store and a host, for the concrete runs. *)

(** The document carries the clause's value in the clause's field. *)
Definition holds_in (doc : gmap string string) (clause : string * string) : bool :=
  bool_decide (doc !! clause.1 = Some clause.2).

(** An index over [docs] that answers a phrase query with the documents
    whose field contains the phrase, and a relevance query with the first
    [size] documents meeting every must-clause. *)
Definition index_of (docs : list (gmap string string)) : OpenSearch := {|
  search _ _ body :=
    match body with
    | MatchPhraseQuery field value =>
        Returned (Some (List.filter (λ doc,
          match doc !! field with
          | Some v => PyStr.contains value v
          | None => false
          end) docs))
    | FunctionScoreQuery must _ _ _ _ _ size =>
        Returned (Some (take (Z.to_nat size)
          (List.filter (λ doc, forallb (holds_in doc) must) docs)))
    end |}.

Definition frame_doc (filename siteid instrume band obstype date_obs : string)
  : gmap string string :=
  <["filename" := filename]> (<["SITEID" := siteid]> (<["INSTRUME" := instrume]>
    (<["FILTER" := band]> (<["OBSTYPE" := obstype]> (<["DATE-OBS" := date_obs]> ∅))))).

Definition night_docs : list (gmap string string) :=
  [ frame_doc "coj0m405-kb24-20200101-0001-e00.fits.fz" "coj" "kb24" "rp" "EXPOSE"
      "2020-01-01T10:30:00.5";
    frame_doc "coj0m405-kb24-20200101-0002-f00.fits.fz" "coj" "kb24" "rp" "SKYFLAT"
      "2020-01-01T08:00:00";
    frame_doc "coj0m405-kb24-20200101-0003-f91.fits.fz" "coj" "kb24" "rp" "SKYFLAT"
      "2020-01-01T08:05:00";
    frame_doc "coj0m405-kb24-20200101-0004-f00.fits.fz" "coj" "kb24" "gp" "SKYFLAT"
      "2020-01-01T08:10:00";
    frame_doc "ogg0m406-kb27-20200101-0009-x00.fits.fz" "ogg" "kb27" "rp" "EXPOSE"
      "N/A" ].

Definition start : state := {| trace := []; heap := ∅ |}.

Definition after_failed_lookup : state :=
  {| trace :=
       [EvSearch "fitsheaders"
          (MatchPhraseQuery "filename" "lsc1m005-fl15-20200101-0001-e00")
          (Returned (Some []));
        EvPrint "lsc1m005-fl15-20200101-0001-e00.fits"];
     heap := ∅ |}.

(** The sky flats nearest to the first frame of the test night. *)
Definition skyflat_run : result (list string) * state :=
  get_nearest_calibration_frames "SKYFLAT" 3 "coj0m405-kb24-20200101-0001-e00.fits"
    (index_of night_docs) "fitsheaders" start.

Definition no_such_key_info : string :=
  "(<class 'botocore.errorfactory.NoSuchKey'>, NoSuchKey('An error occurred (NoSuchKey) when calling the RestoreObject operation: The specified key does not exist.'), <traceback object>)".

Definition access_denied_info : string :=
  "(<class 'botocore.exceptions.ClientError'>, ClientError('An error occurred (AccessDenied) when calling the RestoreObject operation: Access Denied'), <traceback object>)".

Definition invalid_state_info : string :=
  "(<class 'botocore.exceptions.ClientError'>, ClientError('An error occurred (InvalidObjectState) when calling the GetObject operation: The operation is not valid for the object storage class'), <traceback object>)".

Definition not_found_info : string :=
  "(<class 'botocore.exceptions.ClientError'>, ClientError('An error occurred (404) when calling the HeadObject operation: Not Found'), <traceback object>)".

(** A store holding [objects], of which [denied] refuse a restore request
    and [restored] have a restored copy. *)
Definition store_of (objects denied restored : list string) : S3Client := {|
  restore_object _ _ key _ _ :=
    if mem key denied then Failed access_denied_info
    else if mem key objects then Returned tt
    else Failed no_such_key_info;
  head_object _ _ key :=
    if mem key objects then
      Returned (if mem key restored
                then {[ "Restore" := ongoing_request_false ]}
                else ∅)
    else Failed not_found_info;
  download_file _ _ key _ :=
    if mem key restored then Returned tt
    else if mem key objects then Failed invalid_state_info
    else Failed not_found_info |}.

Definition three_keys : list string :=
  ["coj/kb24/20200101/raw/coj0m405-kb24-20200101-0001-e00.fits.fz";
   "coj/kb24/20200101/raw/coj0m405-kb24-20200101-0002-e00.fits.fz";
   "coj/kb24/20200101/raw/coj0m405-kb24-20200101-0003-e00.fits.fz"].

(** The second of the three keys is not in the store. *)
Definition two_of_three : S3Client :=
  store_of ["coj/kb24/20200101/raw/coj0m405-kb24-20200101-0001-e00.fits.fz";
            "coj/kb24/20200101/raw/coj0m405-kb24-20200101-0003-e00.fits.fz"] [] [].

Definition holding (keys : list string) : state :=
  {| trace := []; heap := {[ 0%nat := keys ]} |}.

(** The first key is accepted, the second is not in the store, and the
    request for the third is refused. *)
Definition third_denied : S3Client :=
  store_of ["coj/kb24/20200101/raw/coj0m405-kb24-20200101-0001-e00.fits.fz";
            "coj/kb24/20200101/raw/coj0m405-kb24-20200101-0003-e00.fits.fz"]
           ["coj/kb24/20200101/raw/coj0m405-kb24-20200101-0003-e00.fits.fz"] [].

Definition denied_run : result unit * state :=
  thaw_files 0 "test-bucket" third_denied "Standard" (holding three_keys).

Definition quiet_host : Host := {|
  now _ := {| year := 2020; month := 1; day := 2;
              hour := 3; minute := 4; second := 5; microsecond := 0 |};
  makedirs _ _ := Returned tt |}.

Definition first_key : string :=
  "coj/kb24/20200101/raw/coj0m405-kb24-20200101-0001-00.fits.fz".

(** A store holding [first_key], already restored. *)
Definition restored_store : S3Client := store_of [first_key] [] [first_key].

Definition two_frames : list string :=
  ["coj0m405-kb24-20200101-0001-00.fits"; "coj0m405-kb24-20200101-0002-00.fits"].

Definition test_args : Args := {|
  bucket := "test-bucket";
  frame_list := "frames.txt";
  output_dir := "/data";
  opensearch_host := "https://opensearch.lco.global/";
  opensearch_index := "fitsheaders-prev1";
  aws_access_key := "key";
  aws_secret_key := "secret";
  aws_region := "us-west-2";
  dry_run := false;
  thaw_mode := "Standard" |}.

(** The archive holds both frames under their convention keys, neither of
    them restored. *)
Definition cold_archive : S3Client :=
  store_of ["coj/kb24/20200101/raw/coj0m405-kb24-20200101-0001-00.fits.fz";
            "coj/kb24/20200101/raw/coj0m405-kb24-20200101-0002-00.fits.fz"] [] [].

(** ** The scan of the bucket listing

    [get_s3_prefix_from_s3] reads the global client and the global
    arguments; [pages] is what the paginator of that client yields for the
    bucket, each page with its [Contents] when it has the key. *)

Record Page := {
  Contents : option (list (gmap string string)) }.

(** The inner loop: [object_keys.append(obj['Key'])] for the objects of
    one page. *)
Fixpoint page_keys (contents : list (gmap string string)) : result (list string) :=
  match contents with
  | [] => mret []
  | obj :: rest =>
      key ← getitem obj "Key";
      keys ← page_keys rest;
      mret (key :: keys)
  end.

(** The outer loop: the keys of all pages, in order. *)
Fixpoint listed_keys (pages : list Page) : result (list string) :=
  match pages with
  | [] => mret []
  | page :: rest =>
      match Contents page with
      | Some contents =>
          keys ← page_keys contents;
          more ← listed_keys rest;
          mret (keys ++ more)
      | None => Err (KeyError "Contents")
      end
  end.

(** The second loop: the first key that contains the filename. *)
Fixpoint first_containing (filename : string) (object_keys : list string)
  : option string :=
  match object_keys with
  | [] => None
  | key :: rest =>
      if PyStr.contains filename key then Some key
      else first_containing filename rest
  end.

Definition get_s3_prefix_from_s3 (pages : list Page) (filename : string)
  : result (option string) :=
  object_keys ← listed_keys pages;
  mret (first_containing filename object_keys).

(** ** Further vocabulary *)

(** The number of occurrences of a character. *)
Fixpoint count_char (c : ascii) (s : string) : nat :=
  match s with
  | EmptyString => 0
  | String b s' => (if Ascii.eqb b c then 1 else 0) + count_char c s'
  end.

(** An occurrence of [old] could begin in a text and end inside a
    following [s]: some proper, non-empty prefix of [old] is completed by
    the beginning of [s]. *)
Definition straddles (old s : string) : bool :=
  existsb (λ k, PyStr.startswith (PyStr.drop k old) s)
          (seq 1 (String.length old - 1)).

(** The fields [get_nearest_calibration_frames] reads from the target's
    record, in the order it reads them. *)
Definition fields_read (obstype : string) : list string :=
  ["SITEID"; "INSTRUME"] ++
  (if String.eqb obstype "SKYFLAT" then ["FILTER"] else []) ++ ["DATE-OBS"].

(** The filenames of the hits that carry [00.fits], in the order of the
    hits; a hit without a filename contributes nothing. *)
Definition final_names (results : list (gmap string string)) : list string :=
  List.filter (PyStr.contains "00.fits") (omap (λ hit, hit !! "filename") results).

(** The number of sleeps in a trace. *)
Fixpoint sleeps (evs : list event) : nat :=
  match evs with
  | [] => 0
  | EvSleep _ :: evs' => S (sleeps evs')
  | _ :: evs' => sleeps evs'
  end.

(** The keys polled in a trace, in order, and those of them whose poll
    showed the restore complete. *)
Fixpoint polled (evs : list event) : list string :=
  match evs with
  | [] => []
  | EvHead _ key _ :: evs' => key :: polled evs'
  | _ :: evs' => polled evs'
  end.

Fixpoint thawed_polls (evs : list event) : list string :=
  match evs with
  | [] => []
  | EvHead _ key (Returned response) :: evs' =>
      if thawed response then key :: thawed_polls evs' else thawed_polls evs'
  | _ :: evs' => thawed_polls evs'
  end.

(** Once a poll has shown a key restored, the key is not polled again. *)
Fixpoint polled_until_thawed (evs : list event) : Prop :=
  match evs with
  | [] => True
  | EvHead _ key (Returned response) :: evs' =>
      (thawed response = true → key ∉ polled evs') ∧ polled_until_thawed evs'
  | _ :: evs' => polled_until_thawed evs'
  end.

(** The events [wait_for_files_to_thaw] may produce on the keys [keys]. *)
Definition wait_event (bucket_name : string) (keys : list string) (ev : event)
  : Prop :=
  match ev with
  | EvHead b key _ => b = bucket_name ∧ key ∈ keys
  | EvPrint _ => True
  | EvSleep seconds => seconds = 300%Z
  | _ => False
  end.

(** What [download_thawed_files] does for one key, given the outcome of
    its download. *)
Definition download_steps (base_dir bucket_name key : string) (outcome : reply unit)
  : list event :=
  [EvMakedirs (PyPath.join base_dir (PyPath.dirname key)) (Returned tt);
   EvDownload bucket_name key (PyPath.join base_dir key) outcome;
   EvPrint (match outcome with
            | Returned _ => "Downloaded " +:+ PyPath.basename key
            | Failed _ => "Skipped " +:+ PyPath.basename key
            end)].

(** ** Further fixtures *)

(** A frame whose record lacks the filter. *)
Definition unfiltered_docs : list (gmap string string) :=
  [ delete "FILTER"
      (frame_doc "coj0m405-kb24-20200101-0001-e00.fits.fz" "coj" "kb24" "rp" "EXPOSE"
         "2020-01-01T10:30:00.5") ].

(** A store that has no object at all. *)
Definition empty_store : S3Client := store_of [] [] [].

(** A store whose objects all show a completed restore once the caller has
    slept twice, and the wait for one key on it. *)
Definition slow_store : S3Client := {|
  restore_object _ _ _ _ _ := Returned tt;
  head_object h _ _ :=
    Returned (if (2 <=? sleeps h)%nat
              then {[ "Restore" := ongoing_request_false ]}
              else ∅);
  download_file _ _ _ _ := Returned tt |}.

Definition slow_run : option (result unit * state) :=
  wait_for_files_to_thaw quiet_host 3 [first_key] "test-bucket" slow_store start.

(** What the runtime reports for a restore that is already under way, and a
    store in which every object is already being restored. *)
Definition in_progress_info : string :=
  "(<class 'botocore.exceptions.ClientError'>, ClientError('An error occurred (RestoreAlreadyInProgress) when calling the RestoreObject operation: Object restore is already in progress'), <traceback object>)".

Definition busy_store : S3Client := {|
  restore_object _ _ _ _ _ := Failed in_progress_info;
  head_object _ _ _ := Returned ∅;
  download_file _ _ _ _ := Failed invalid_state_info |}.

(** The first and third of the three keys are in the store, restored. *)
Definition two_of_three_restored : S3Client :=
  store_of ["coj/kb24/20200101/raw/coj0m405-kb24-20200101-0001-e00.fits.fz";
            "coj/kb24/20200101/raw/coj0m405-kb24-20200101-0003-e00.fits.fz"] []
           ["coj/kb24/20200101/raw/coj0m405-kb24-20200101-0001-e00.fits.fz";
            "coj/kb24/20200101/raw/coj0m405-kb24-20200101-0003-e00.fits.fz"].

(** What the runtime reports when a directory cannot be created, and a host
    on which none can. *)
Definition permission_info : string :=
  "(<class 'PermissionError'>, PermissionError(13, 'Permission denied'), <traceback object>)".

Definition readonly_host : Host := {|
  now _ := {| year := 2020; month := 1; day := 2;
              hour := 3; minute := 4; second := 5; microsecond := 0 |};
  makedirs _ _ := Failed permission_info |}.

(** The restore requests for the three keys on that store, followed by the
    wait on what is left of the set. *)
Definition thaw_then_wait_1 : result unit * state :=
  thaw_files 0 "test-bucket" two_of_three_restored "Standard" (holding three_keys).

Definition thaw_then_wait_2 : option (result unit * state) :=
  wait_for_files_to_thaw quiet_host 1
    ["coj/kb24/20200101/raw/coj0m405-kb24-20200101-0001-e00.fits.fz";
     "coj/kb24/20200101/raw/coj0m405-kb24-20200101-0003-e00.fits.fz"]
    "test-bucket" two_of_three_restored thaw_then_wait_1.2.

Definition thaw_then_wait_end : state :=
  match thaw_then_wait_2 with
  | Some (_, st) => st
  | None => start
  end.

(** ** The primitives on examples *)

Example replace_ex1 :
  PyStr.replace ".fits" ".fits.fz" (PyStr.replace ".fits.fz" ".fits" "a-b.fits.fz") = "a-b.fits.fz".
Proof. reflexivity. Qed.

Example split_ex1 : PyStr.split "-" "coj0m405-kb24-20200101-0001-00.fits" =
  ["coj0m405"; "kb24"; "20200101"; "0001"; "00.fits"].
Proof. reflexivity. Qed.

Example after_last_ex : PyStr.after_last "/" "a/b/c.fits" = 4%nat.
Proof. reflexivity. Qed.

Example strptime_ex1 :
  PyTime.strptime "2020-1-5" "%Y-%m-%d" =
  Ok {| year := 2020; month := 1; day := 5; hour := 0; minute := 0; second := 0;
        microsecond := 0 |}.
Proof. reflexivity. Qed.

Example strptime_ex2 : PyTime.strptime "2020-02-30" "%Y-%m-%d" = Err ValueError.
Proof. reflexivity. Qed.

Example strptime_ex3 : PyTime.strptime "2020-01-011" "%Y-%m-%d" = Err ValueError.
Proof. reflexivity. Qed.

Example strftime_ex1 :
  PyTime.strftime "%Y-%m-%dT%H:%M:%S.%f"
    {| year := 2020; month := 1; day := 5; hour := 10; minute := 30; second := 0;
       microsecond := 500000 |} = "2020-01-05T10:30:00.500000".
Proof. reflexivity. Qed.

Example dirname_ex : PyPath.dirname "coj/kb24/20200101/raw/a.fits.fz" = "coj/kb24/20200101/raw".
Proof. reflexivity. Qed.

Example dirname_ex2 : PyPath.dirname "a.fits" = EmptyString.
Proof. reflexivity. Qed.

Example join_ex : PyPath.join "/data" EmptyString = "/data/".
Proof. reflexivity. Qed.

(** ** Facts about the string primitives *)

Section StringFacts.

Import PyStr.

Lemma append_nil_l (t : string) : EmptyString +:+ t = t.
Proof. reflexivity. Qed.

Lemma append_cons (c : ascii) (s t : string) : String c s +:+ t = String c (s +:+ t).
Proof. reflexivity. Qed.

Ltac unfold_append := rewrite ?append_cons, ?append_nil_l in *.

Lemma append_nil_r (s : string) : s +:+ EmptyString = s.
Proof. induction s as [|c s IH]; unfold_append; [reflexivity | by rewrite IH]. Qed.

Lemma append_assoc (s t u : string) : (s +:+ t) +:+ u = s +:+ t +:+ u.
Proof. induction s as [|c s IH]; unfold_append; [reflexivity | by rewrite IH]. Qed.

Lemma length_append (s t : string) :
  String.length (s +:+ t) = (String.length s + String.length t)%nat.
Proof. induction s as [|c s IH]; unfold_append; simpl; [reflexivity | by rewrite IH]. Qed.

Lemma has_char_append (c : ascii) (s t : string) :
  has_char c (s +:+ t) = has_char c s || has_char c t.
Proof.
  induction s as [|b s IH]; unfold_append; simpl; [reflexivity |].
  rewrite IH. by destruct (Ascii.eqb c b).
Qed.

Lemma take_append (s t : string) : take (String.length s) (s +:+ t) = s.
Proof. induction s as [|c s IH]; unfold_append; simpl; [reflexivity | by rewrite IH]. Qed.

Lemma drop_append (s t : string) : drop (String.length s) (s +:+ t) = t.
Proof. induction s as [|c s IH]; unfold_append; simpl; [reflexivity | exact IH]. Qed.

Lemma endswith_append (s p : string) : endswith p (s +:+ p) = true.
Proof.
  unfold endswith. rewrite length_append.
  replace (String.length s + String.length p - String.length p)%nat
    with (String.length s) by lia.
  rewrite drop_append, String.eqb_refl. simpl.
  apply Nat.leb_le. lia.
Qed.

Lemma startswith_refl_append (p s : string) : startswith p (p +:+ s) = true.
Proof.
  induction p as [|c p IH]; unfold_append; simpl; [reflexivity |].
  by rewrite Ascii.eqb_refl.
Qed.

Lemma startswith_inv (p s : string) :
  startswith p s = true → ∃ t, s = p +:+ t.
Proof.
  revert s. induction p as [|a p IH]; intros s H; simpl in *.
  - by exists s.
  - destruct s as [|b s]; [done |].
    destruct (Ascii.eqb_spec a b) as [->|]; [| done].
    destruct (IH _ H) as [t ->]. by exists t.
Qed.

(** Jumping over [k] characters is dropping them. *)
Lemma replace_from_drop (old new : string) (k : nat) (s : string) :
  replace_from old new k s = replace_from old new 0 (drop k s).
Proof.
  revert k. induction s as [|c s IH]; intros [|k]; simpl; try reflexivity.
  apply IH.
Qed.

(** The two equations of the scan. *)
Lemma replace_hit (c : ascii) (r new s : string) :
  replace (String c r) new (String c r +:+ s) = new +:+ replace (String c r) new s.
Proof.
  unfold replace. rewrite (append_cons c r s). cbn [replace_from].
  rewrite <- (append_cons c r s), startswith_refl_append. f_equal.
  rewrite replace_from_drop. cbn [String.length].
  replace (S (String.length r) - 1)%nat with (String.length r) by lia.
  by rewrite drop_append.
Qed.

Lemma replace_miss (old new : string) (c : ascii) (s : string) :
  startswith old (String c s) = false →
  replace old new (String c s) = String c (replace old new s).
Proof. unfold replace. cbn [replace_from]. by intros ->. Qed.

(** Text without the first character of [old] is copied unchanged. *)
Lemma replace_clean_prefix (c : ascii) (r new x y : string) :
  has_char c x = false →
  replace (String c r) new (x +:+ y) = x +:+ replace (String c r) new y.
Proof.
  induction x as [|a x IH]; intros Hx; [reflexivity |].
  simpl in Hx. apply orb_false_iff in Hx as [Hca Hx].
  rewrite !append_cons, replace_miss.
  - by rewrite IH.
  - simpl. by rewrite Hca.
Qed.

(** An occurrence of [r] that would run into a following [c] lies before
    it, when [c] does not occur in [r]. *)
Lemma startswith_before (c : ascii) (r x w : string) :
  has_char c r = false →
  startswith r (x +:+ String c w) = true → startswith r x = true.
Proof.
  revert x. induction r as [|b r IH]; intros x Hr H; [reflexivity |].
  simpl in Hr. apply orb_false_iff in Hr as [Hcb Hr].
  destruct x as [|a x]; unfold_append; simpl in *.
  - rewrite Ascii.eqb_sym, Hcb in H. done.
  - destruct (Ascii.eqb b a); [eauto | done].
Qed.

(** When the first character of [old] occurs nowhere else in [old], the
    scan of [x] is not disturbed by an occurrence of [old] that follows. *)
Lemma replace_then_hit (c : ascii) (r new : string) (x y : string) :
  has_char c r = false →
  replace (String c r) new (x +:+ String c r +:+ y)
  = replace (String c r) new x +:+ new +:+ replace (String c r) new y.
Proof.
  intros Hr. remember (String.length x) as n eqn:Hn.
  revert x Hn. induction (lt_wf n) as [n _ IH]; intros x ->.
  destruct x as [|a x].
  - rewrite append_nil_l. by rewrite replace_hit.
  - destruct (startswith (String c r) (String a x)) eqn:Hs.
    + destruct (startswith_inv _ _ Hs) as [t Ht]. rewrite Ht.
      rewrite append_assoc, !replace_hit, append_assoc. f_equal.
      apply (IH (String.length t)); [| reflexivity].
      rewrite Ht, length_append. simpl. lia.
    + rewrite (replace_miss _ _ _ _ Hs). rewrite !append_cons.
      rewrite replace_miss.
      * f_equal. apply (IH (String.length x)); [simpl; lia | reflexivity].
      * simpl in *. destruct (Ascii.eqb c a); [| done].
        destruct (startswith r (x +:+ String c r +:+ y)) eqn:Hs'; [| done].
        rewrite append_cons in Hs'.
        apply startswith_before in Hs'; [congruence | done].
Qed.

(** A separator-free segment followed by the separator is one segment. *)
Lemma split_from_segment (sep : ascii) (cur x y : string) :
  has_char sep x = false →
  split_from sep cur (x +:+ String sep y)
  = (cur +:+ x) :: split_from sep EmptyString y.
Proof.
  revert cur. induction x as [|a x IH]; intros cur Hx.
  - rewrite append_nil_l. simpl. by rewrite Ascii.eqb_refl, append_nil_r.
  - simpl in Hx. apply orb_false_iff in Hx as [Ha Hx].
    rewrite append_cons. cbn [split_from]. rewrite Ascii.eqb_sym, Ha.
    rewrite IH by done. by rewrite append_assoc.
Qed.

Lemma split_segment (sep : ascii) (x y : string) :
  has_char sep x = false →
  split sep (x +:+ String sep y) = x :: split sep y.
Proof. intros Hx. unfold split. by rewrite split_from_segment. Qed.

End StringFacts.

(** ** Keys by the naming convention *)

Lemma make_s3_prefix_from_filename_segments
    (site tel instrument dayobs rest ext : string) :
  String.length site = 3%nat →
  PyStr.has_char "-" (site +:+ tel) = false →
  PyStr.has_char "-" instrument = false →
  PyStr.has_char "-" dayobs = false →
  let filename := frame_name site tel instrument dayobs rest +:+ ext in
  make_s3_prefix_from_filename filename
  = Ok (site +:+ "/" +:+ instrument +:+ "/" +:+ dayobs +:+ "/raw/" +:+
        PyStr.replace ".fits" ".fits.fz" (PyStr.replace ".fits.fz" ".fits" filename)).
Proof.
  intros Hlen Hsite Hinst Hday filename.
  assert (Hsplit : ∃ more,
    PyStr.split "-" filename = (site +:+ tel) :: instrument :: dayobs :: more).
  { exists (PyStr.split "-" (rest +:+ ext)). subst filename. unfold frame_name.
    rewrite !append_assoc, <- (append_assoc site tel).
    rewrite !(append_cons "-" EmptyString), !append_nil_l.
    by rewrite !split_segment. }
  destruct Hsplit as [more Hsplit].
  assert (Htake : PyStr.take 3 filename = site).
  { subst filename. unfold frame_name. rewrite !append_assoc, <- Hlen.
    apply take_append. }
  unfold make_s3_prefix_from_filename. rewrite Hsplit, Htake. reflexivity.
Qed.

(** C6: for every name of the convention, the key is
    [site/instrument/dayobs/raw/name.fits.fz], it ends in [.fits.fz], and
    it is the same for the [.fits] and the [.fits.fz] spelling of the name. *)
Theorem make_s3_prefix_from_filename_convention
    (site tel instrument dayobs rest : string) :
  conventional site tel instrument dayobs rest = true →
  let base := frame_name site tel instrument dayobs rest in
  let key := site +:+ "/" +:+ instrument +:+ "/" +:+ dayobs +:+ "/raw/" +:+
             base +:+ ".fits.fz" in
  make_s3_prefix_from_filename (base +:+ ".fits") = Ok key
  ∧ make_s3_prefix_from_filename (base +:+ ".fits.fz") = Ok key
  ∧ PyStr.endswith ".fits.fz" key = true.
Proof.
  intros H base key. unfold conventional in H.
  repeat (apply andb_true_iff in H as [H ?]).
  repeat match goal with
         | Hn : negb _ = true |- _ => apply negb_true_iff in Hn
         end.
  apply Nat.eqb_eq in H. fold base in H0.
  assert (Hfits : PyStr.replace ".fits" ".fits.fz"
                    (PyStr.replace ".fits.fz" ".fits" (base +:+ ".fits"))
                  = base +:+ ".fits.fz").
  { rewrite (replace_clean_prefix "." "fits.fz" ".fits" base ".fits") by done.
    change (PyStr.replace ".fits.fz" ".fits" ".fits") with ".fits".
    by rewrite (replace_clean_prefix "." "fits" ".fits.fz" base ".fits"). }
  assert (Hfz : PyStr.replace ".fits" ".fits.fz"
                  (PyStr.replace ".fits.fz" ".fits" (base +:+ ".fits.fz"))
                = base +:+ ".fits.fz").
  { rewrite (replace_clean_prefix "." "fits.fz" ".fits" base ".fits.fz") by done.
    change (PyStr.replace ".fits.fz" ".fits" ".fits.fz") with ".fits".
    by rewrite (replace_clean_prefix "." "fits" ".fits.fz" base ".fits"). }
  split; [| split].
  - subst base.
    rewrite make_s3_prefix_from_filename_segments by done. by rewrite Hfits.
  - subst base.
    rewrite make_s3_prefix_from_filename_segments by done. by rewrite Hfz.
  - subst key. rewrite <- !append_assoc. apply endswith_append.
Qed.

Lemma make_s3_prefix_from_filename_convention_witness :
  make_s3_prefix_from_filename "coj0m405-kb24-20200101-0001-00.fits"
  = Ok "coj/kb24/20200101/raw/coj0m405-kb24-20200101-0001-00.fits.fz"
  ∧ make_s3_prefix_from_filename "coj0m405-kb24-20200101-0001-00.fits.fz"
  = Ok "coj/kb24/20200101/raw/coj0m405-kb24-20200101-0001-00.fits.fz"
  ∧ PyStr.endswith ".fits.fz"
      "coj/kb24/20200101/raw/coj0m405-kb24-20200101-0001-00.fits.fz" = true.
Proof.
  exact (make_s3_prefix_from_filename_convention
           "coj" "0m405" "kb24" "20200101" "0001-00" eq_refl).
Defined.

(** ** Metadata lookup *)

Lemma scrubbed_fits (x : string) : scrubbed (x +:+ ".fits") = scrubbed x.
Proof.
  unfold scrubbed.
  rewrite <- (append_nil_r (x +:+ ".fits")), append_assoc.
  rewrite (replace_then_hit "." "fits" EmptyString x EmptyString eq_refl).
  change (PyStr.replace ".fits" EmptyString EmptyString) with EmptyString.
  by rewrite !append_nil_r.
Qed.

Lemma scrubbed_fits_fz (x : string) : scrubbed (x +:+ ".fits.fz") = scrubbed x.
Proof.
  unfold scrubbed.
  change (x +:+ ".fits.fz") with (x +:+ ".fits" +:+ ".fz").
  rewrite (replace_then_hit "." "fits" EmptyString x ".fz" eq_refl).
  change (PyStr.replace ".fits" EmptyString ".fz") with ".fz".
  rewrite append_nil_l.
  rewrite <- (append_nil_r (_ +:+ ".fz")), append_assoc.
  rewrite (replace_then_hit "." "fz" EmptyString _ EmptyString eq_refl).
  change (PyStr.replace ".fz" EmptyString EmptyString) with EmptyString.
  by rewrite !append_nil_r.
Qed.

(** What one lookup does, by the answer of the index. *)
Lemma get_frame_metadata_run (filename : string) (search_host : OpenSearch)
    (index_name : string) (st : state) :
  let q := MatchPhraseQuery "filename" (scrubbed filename) in
  let r := search search_host (trace st) index_name q in
  get_frame_metadata filename search_host index_name st =
  match r with
  | Returned (Some (hit :: _)) => (Ok (Some hit), logged st [EvSearch index_name q r])
  | Returned _ => (Ok None, logged st [EvSearch index_name q r; EvPrint filename])
  | Failed info => (Err (Raised info), logged st [EvSearch index_name q r])
  end.
Proof.
  intros q r. unfold get_frame_metadata. fold (scrubbed filename). fold q.
  unfold call_search, call, try_call, history, emit, print, emit, logged.
  unfold mbind, M_bind, mret, M_ret, raise. cbn [trace heap]. fold r.
  destruct r as [[[|hit more]|]|info]; cbn [trace heap];
    rewrite <- ?app_assoc; reflexivity.
Qed.

(** C7: for every base name [x], the lookups of [x], [x.fits] and
    [x.fits.fz] send the same query, the phrase being the scrubbed [x]; from
    the same state the three calls return the same result, which is the
    first hit when there is one; with no hit the result is [None] and the
    filename given is printed. *)
Theorem get_frame_metadata_extension_agnostic (x : string) (search_host : OpenSearch)
    (index_name : string) (st : state) :
  let q := MatchPhraseQuery "filename" (scrubbed x) in
  let r := search search_host (trace st) index_name q in
  ∃ res : result (option (gmap string string)),
    (∀ hit more, r = Returned (Some (hit :: more)) → res = Ok (Some hit))
    ∧ (r = Returned None ∨ r = Returned (Some []) → res = Ok None)
    ∧ ∀ filename, filename ∈ [x +:+ ".fits"; x +:+ ".fits.fz"; x] →
        ∃ st', get_frame_metadata filename search_host index_name st = (res, st')
          ∧ heap st' = heap st
          ∧ (∃ more, trace st' = trace st ++ EvSearch index_name q r :: more)
          ∧ (r = Returned None ∨ r = Returned (Some []) →
             trace st' = trace st ++ [EvSearch index_name q r; EvPrint filename]).
Proof.
  intros q r.
  exists (match r with
          | Returned (Some (hit :: _)) => Ok (Some hit)
          | Returned _ => Ok None
          | Failed info => Err (Raised info)
          end).
  split; [by intros hit more -> |].
  split; [by intros [-> | ->] |].
  intros filename Hin.
  assert (Hq : scrubbed filename = scrubbed x).
  { apply elem_of_cons in Hin as [-> | Hin]; [apply scrubbed_fits |].
    apply elem_of_cons in Hin as [-> | Hin]; [apply scrubbed_fits_fz |].
    apply list_elem_of_singleton in Hin as ->. reflexivity. }
  rewrite get_frame_metadata_run, Hq. fold q r.
  destruct r as [[[|hit more]|]|info] eqn:Hr; eexists;
    (split; [reflexivity |]); (split; [reflexivity |]); split;
    try (by eexists; cbn [logged trace]);
    try (by intros [? | ?]).
Qed.

(** ** Date parsing *)

(** C5: the four readings of [DATE-OBS]: a date alone is midnight with no
    fraction; a time without fraction is padded with [.000000]; a fraction
    of one digit is padded to six, [.5] being 500000 microseconds; [N/A]
    is no timestamp. *)
Theorem parse_date_obs_examples :
  parse_date_obs "2020-01-01"
  = Ok (Some {| year := 2020; month := 1; day := 1;
                hour := 0; minute := 0; second := 0; microsecond := 0 |})
  ∧ padded_date_obs "2020-01-01T10:30:00" = "2020-01-01T10:30:00.000000"
  ∧ parse_date_obs "2020-01-01T10:30:00"
    = Ok (Some {| year := 2020; month := 1; day := 1;
                  hour := 10; minute := 30; second := 0; microsecond := 0 |})
  ∧ padded_date_obs "2020-01-01T10:30:00.5" = "2020-01-01T10:30:00.500000"
  ∧ parse_date_obs "2020-01-01T10:30:00.5"
    = Ok (Some {| year := 2020; month := 1; day := 1;
                  hour := 10; minute := 30; second := 0; microsecond := 500000 |})
  ∧ parse_date_obs "N/A" = Ok None.
Proof. repeat split; vm_compute; reflexivity. Qed.

(** ** Calibration frames *)

Lemma final_filenames_spec (results : list (gmap string string)) (fs : list string) :
  final_filenames results = Ok fs →
  ∀ f, f ∈ fs →
    ∃ hit, hit ∈ results ∧ hit !! "filename" = Some f
           ∧ PyStr.contains "00.fits" f = true.
Proof.
  revert fs. induction results as [|r rest IH]; intros fs H f Hf.
  - injection H as <-. by apply elem_of_nil in Hf.
  - cbn [final_filenames] in H. unfold getitem in H.
    destruct (r !! "filename") as [g|] eqn:Hg; [| done].
    cbn [mbind result_bind] in H.
    destruct (PyStr.contains "00.fits" g) eqn:Hc.
    + destruct (final_filenames rest) as [fs'|] eqn:Hrest; [| done].
      injection H as <-.
      apply elem_of_cons in Hf as [-> | Hf].
      * exists r. split; [apply list_elem_of_here | done].
      * destruct (IH fs' eq_refl f Hf) as (hit & ? & ? & ?).
        exists hit. split; [by apply list_elem_of_further | done].
    + destruct (IH fs H f Hf) as (hit & ? & ? & ?).
      exists hit. split; [by apply list_elem_of_further | done].
Qed.

Lemma prefixes_spec (filenames keys : list string) :
  prefixes filenames = Ok keys →
  ∀ key, key ∈ keys →
    ∃ f, f ∈ filenames ∧ make_s3_prefix_from_filename f = Ok key.
Proof.
  revert keys. induction filenames as [|f rest IH]; intros keys H key Hk.
  - injection H as <-. by apply elem_of_nil in Hk.
  - cbn [prefixes] in H.
    destruct (make_s3_prefix_from_filename f) as [p|] eqn:Hp; [| done].
    cbn [mbind result_bind] in H.
    destruct (prefixes rest) as [ps|] eqn:Hps; [| done].
    injection H as <-.
    apply elem_of_cons in Hk as [-> | Hk].
    + exists f. split; [apply list_elem_of_here | done].
    + destruct (IH ps eq_refl key Hk) as (g & ? & ?).
      exists g. split; [by apply list_elem_of_further | done].
Qed.

(** Reading a normal return of a monadic computation backwards. *)
Lemma bind_Ok_inv {A B} (m : M A) (f : A → M B) (st st' : state) (b : B) :
  (m ≫= f) st = (Ok b, st') →
  ∃ a st1, m st = (Ok a, st1) ∧ f a st1 = (Ok b, st').
Proof.
  unfold mbind, M_bind. destruct (m st) as [[a|e] st1]; [| done].
  intros H. by exists a, st1.
Qed.

Lemma lift_Ok_inv {A} (r : result A) (st st' : state) (a : A) :
  lift r st = (Ok a, st') → r = Ok a ∧ st' = st.
Proof. unfold lift. by intros [= -> ->]. Qed.

Lemma mret_Ok_inv {A} (x a : A) (st st' : state) :
  (mret x : M A) st = (Ok a, st') → a = x ∧ st' = st.
Proof. unfold mret, M_ret. by intros [= -> ->]. Qed.

Lemma getitem_Ok_inv (d : gmap string string) (key v : string) :
  getitem d key = Ok v → d !! key = Some v.
Proof. unfold getitem. destruct (d !! key); [by intros [= ->] | done]. Qed.

Lemma call_search_run (search_host : OpenSearch) (index_name : string) (q : query)
    (st : state) :
  call_search search_host index_name q st =
  let r := search search_host (trace st) index_name q in
  (match r with Returned hs => Ok hs | Failed info => Err (Raised info) end,
   logged st [EvSearch index_name q r]).
Proof.
  unfold call_search, call, try_call, history, emit, logged.
  unfold mbind, M_bind, mret, M_ret, raise. cbn [trace heap].
  by destruct (search search_host (trace st) index_name q).
Qed.

(** A normal return of [get_nearest_calibration_frames], read backwards. *)
Lemma get_nearest_calibration_frames_inv (obstype : string) (n_frames : Z)
    (filename : string) (search_host : OpenSearch) (search_index : string)
    (st st' : state) (keys : list string) :
  get_nearest_calibration_frames obstype n_frames filename search_host search_index st
  = (Ok keys, st') →
  (get_frame_metadata filename search_host search_index st = (Ok None, st')
   ∧ keys = [])
  ∨ ∃ meta st1 must origin results filenames,
      get_frame_metadata filename search_host search_index st = (Ok (Some meta), st1)
      ∧ filters_for obstype meta must
      ∧ (let q := FunctionScoreQuery must "DATE-OBS" origin "1h" (999, 1000)%Z
                    "multiply" n_frames in
         search search_host (trace st1) search_index q = Returned (Some results)
         ∧ st' = logged st1 [EvSearch search_index q (Returned (Some results))])
      ∧ final_filenames results = Ok filenames
      ∧ prefixes filenames = Ok keys.
Proof.
  unfold get_nearest_calibration_frames. intros H.
  apply bind_Ok_inv in H as ([meta|] & st1 & Hmeta & H).
  2: { apply mret_Ok_inv in H as [-> ->]. by left. }
  right.
  apply bind_Ok_inv in H as (siteid & s1 & Hsite & H).
  apply lift_Ok_inv in Hsite as [Hsite%getitem_Ok_inv ->].
  apply bind_Ok_inv in H as (instrume & s1 & Hinst & H).
  apply lift_Ok_inv in Hinst as [Hinst%getitem_Ok_inv ->].
  apply bind_Ok_inv in H as (must & s1 & Hmust & H).
  assert (Hfor : filters_for obstype meta must ∧ s1 = st1).
  { destruct (String.eqb_spec obstype "SKYFLAT") as [Hsky | Hsky].
    - apply bind_Ok_inv in Hmust as (band & s2 & Hband & Hmust).
      apply lift_Ok_inv in Hband as [Hband%getitem_Ok_inv ->].
      apply mret_Ok_inv in Hmust as [-> ->]. split; [| done].
      exists siteid, instrume, [("FILTER", band)].
      repeat split; try done. intros _. by exists band.
    - apply mret_Ok_inv in Hmust as [-> ->]. split; [| done].
      exists siteid, instrume, []. rewrite app_nil_r. repeat split; done. }
  destruct Hfor as [Hfor ->].
  apply bind_Ok_inv in H as (date_obs & s1 & Hdate & H).
  apply lift_Ok_inv in Hdate as [_ ->].
  apply bind_Ok_inv in H as (parsed & s1 & Hparsed & H).
  apply lift_Ok_inv in Hparsed as [_ ->].
  apply bind_Ok_inv in H as (origin & s1 & Horigin & H).
  assert (s1 = st1) as ->.
  { destruct parsed; [by apply mret_Ok_inv in Horigin as [_ ->] | done]. }
  apply bind_Ok_inv in H as (response & s1 & Hsearch & H).
  rewrite call_search_run in Hsearch. cbv zeta in Hsearch.
  destruct (search search_host (trace st1) search_index _)
    as [hs|info] eqn:Hanswer; [| done].
  injection Hsearch as -> <-.
  apply bind_Ok_inv in H as (results & s1 & Hresults & H).
  destruct response as [results'|]; [| done].
  apply mret_Ok_inv in Hresults as [-> ->].
  apply bind_Ok_inv in H as (filenames & s1 & Hff & H).
  apply lift_Ok_inv in Hff as [Hff ->].
  apply lift_Ok_inv in H as [Hpre ->].
  exists meta, st1, must, origin, results', filenames.
  repeat split; done.
Qed.

Lemma index_of_honours_must (docs : list (gmap string string)) :
  honours_must (index_of docs).
Proof.
  intros h index_name must ? ? ? ? ? size results [= <-] hit field value Hhit Hin.
  apply elem_of_take in Hhit as (i & Hhit & _).
  apply list_elem_of_lookup_2, list_elem_of_In, filter_In in Hhit as [_ Hall].
  rewrite forallb_forall in Hall.
  apply list_elem_of_In, Hall in Hin.
  unfold holds_in in Hin. by apply bool_decide_eq_true in Hin.
Qed.

(** C8: when the lookup of the target frame finds no record, the result is
    the empty list, and the lookup query and the printed filename are all
    that happened: no relevance query was sent. *)
Theorem get_nearest_calibration_frames_no_metadata (obstype : string) (n_frames : Z)
    (filename : string) (search_host : OpenSearch) (search_index : string)
    (st st1 : state) :
  get_frame_metadata filename search_host search_index st = (Ok None, st1) →
  get_nearest_calibration_frames obstype n_frames filename search_host search_index st
  = (Ok [], st1)
  ∧ ∃ r, trace st1 = trace st ++
           [EvSearch search_index (MatchPhraseQuery "filename" (scrubbed filename)) r;
            EvPrint filename].
Proof.
  intros Hmeta. split.
  - unfold get_nearest_calibration_frames, mbind, M_bind. by rewrite Hmeta.
  - rewrite get_frame_metadata_run in Hmeta. cbv zeta in Hmeta.
    destruct (search search_host (trace st) search_index _)
      as [[[|hit more]|]|info] eqn:Hr; try done;
      injection Hmeta as <-; by eexists.
Qed.

Lemma get_nearest_calibration_frames_no_metadata_witness :
  get_nearest_calibration_frames "BIAS" 3 "lsc1m005-fl15-20200101-0001-e00.fits"
    (index_of night_docs) "fitsheaders" start
  = (Ok [], after_failed_lookup)
  ∧ ∃ r, trace after_failed_lookup = trace start ++
           [EvSearch "fitsheaders"
              (MatchPhraseQuery "filename"
                 (scrubbed "lsc1m005-fl15-20200101-0001-e00.fits")) r;
            EvPrint "lsc1m005-fl15-20200101-0001-e00.fits"].
Proof.
  apply (get_nearest_calibration_frames_no_metadata "BIAS" 3
           "lsc1m005-fl15-20200101-0001-e00.fits" (index_of night_docs)
           "fitsheaders" start after_failed_lookup).
  vm_compute. reflexivity.
Defined.

(** C4: every key returned comes from a hit of the relevance query whose
    filename contains [00.fits], whatever the index answers; the query
    carries the observation type asked for and the site and instrument of
    the target frame, and a filter clause exactly when the type is
    [SKYFLAT]; and when the index honours the must-clauses, that hit has the
    observation type asked for and the site and instrument of the target
    frame, and the target's filter when the type is [SKYFLAT]. *)
Theorem get_nearest_calibration_frames_results (obstype : string) (n_frames : Z)
    (filename : string) (search_host : OpenSearch) (search_index : string)
    (st st' : state) (keys : list string) :
  get_nearest_calibration_frames obstype n_frames filename search_host search_index st
  = (Ok keys, st') →
  ∀ key, key ∈ keys →
    ∃ meta st1 must origin results hit f,
      get_frame_metadata filename search_host search_index st = (Ok (Some meta), st1)
      ∧ trace st' = trace st1 ++
          [EvSearch search_index
             (FunctionScoreQuery must "DATE-OBS" origin "1h" (999, 1000)%Z
                "multiply" n_frames)
             (Returned (Some results))]
      ∧ filters_for obstype meta must
      ∧ ((∃ band, ("FILTER", band) ∈ must) ↔ obstype = "SKYFLAT")
      ∧ hit ∈ results
      ∧ hit !! "filename" = Some f
      ∧ PyStr.contains "00.fits" f = true
      ∧ make_s3_prefix_from_filename f = Ok key
      ∧ (honours_must search_host →
         hit !! "OBSTYPE" = Some obstype
         ∧ hit !! "SITEID" = meta !! "SITEID"
         ∧ hit !! "INSTRUME" = meta !! "INSTRUME"
         ∧ (obstype = "SKYFLAT" → hit !! "FILTER" = meta !! "FILTER")).
Proof.
  intros Hrun key Hkey.
  apply get_nearest_calibration_frames_inv in Hrun
    as [[_ ->] | (meta & st1 & must & origin & results & filenames
                  & Hmeta & Hfor & [Hsearch ->] & Hff & Hpre)].
  { by apply elem_of_nil in Hkey. }
  destruct (prefixes_spec _ _ Hpre key Hkey) as (f & Hf & Hmake).
  destruct (final_filenames_spec _ _ Hff f Hf) as (hit & Hhit & Hname & H00).
  pose proof Hfor as (siteid & instrume & extra & Hsite & Hinst & -> & Hsky & Hnot).
  eexists meta, st1, _, origin, results, hit, f.
  split_and!; try done.
  - split.
    + intros [band Hband].
      destruct (decide (obstype = "SKYFLAT")) as [| Hne]; [done |].
      rewrite (Hnot Hne), app_nil_r in Hband.
      repeat (apply elem_of_cons in Hband as [Heq | Hband]; [discriminate Heq |]).
      by apply elem_of_nil in Hband.
    + intros Heq. destruct (Hsky Heq) as (band & _ & ->).
      exists band. apply list_elem_of_In, in_or_app. right. by left.
  - intros Hhonest.
    pose proof (Hhonest _ _ _ _ _ _ _ _ _ _ Hsearch hit) as Hclause.
    split_and!.
    + apply Hclause; [done |]. apply list_elem_of_here.
    + rewrite Hsite. apply Hclause; [done |].
      apply list_elem_of_further, list_elem_of_here.
    + rewrite Hinst. apply Hclause; [done |].
      do 2 apply list_elem_of_further. apply list_elem_of_here.
    + intros Heq. destruct (Hsky Heq) as (band & -> & ->).
      apply Hclause; [done |].
      do 3 apply list_elem_of_further. apply list_elem_of_here.
Qed.

Example skyflat_run_keys :
  skyflat_run.1 = Ok ["coj/kb24/20200101/raw/coj0m405-kb24-20200101-0002-f00.fits.fz"].
Proof. vm_compute. reflexivity. Qed.

Lemma get_nearest_calibration_frames_results_witness :
  ∃ meta st1 must origin results hit f,
    get_frame_metadata "coj0m405-kb24-20200101-0001-e00.fits" (index_of night_docs)
      "fitsheaders" start = (Ok (Some meta), st1)
    ∧ trace skyflat_run.2 = trace st1 ++
        [EvSearch "fitsheaders"
           (FunctionScoreQuery must "DATE-OBS" origin "1h" (999, 1000)%Z
              "multiply" 3)
           (Returned (Some results))]
    ∧ filters_for "SKYFLAT" meta must
    ∧ ((∃ band, ("FILTER", band) ∈ must) ↔ "SKYFLAT" = "SKYFLAT")
    ∧ hit ∈ results
    ∧ hit !! "filename" = Some f
    ∧ PyStr.contains "00.fits" f = true
    ∧ make_s3_prefix_from_filename f
      = Ok "coj/kb24/20200101/raw/coj0m405-kb24-20200101-0002-f00.fits.fz"
    ∧ hit !! "OBSTYPE" = Some "SKYFLAT"
    ∧ hit !! "SITEID" = meta !! "SITEID"
    ∧ hit !! "INSTRUME" = meta !! "INSTRUME"
    ∧ ("SKYFLAT" = "SKYFLAT" → hit !! "FILTER" = meta !! "FILTER").
Proof.
  destruct (get_nearest_calibration_frames_results "SKYFLAT" 3
              "coj0m405-kb24-20200101-0001-e00.fits" (index_of night_docs)
              "fitsheaders" start skyflat_run.2
              ["coj/kb24/20200101/raw/coj0m405-kb24-20200101-0002-f00.fits.fz"])
    with (key := "coj/kb24/20200101/raw/coj0m405-kb24-20200101-0002-f00.fits.fz")
    as (meta & st1 & must & origin & results & hit & f & Hmeta & Htrace & Hfor
        & Hband & Hhit & Hname & H00 & Hkey & Hmust).
  - vm_compute. reflexivity.
  - apply list_elem_of_here.
  - destruct (Hmust (index_of_honours_must night_docs))
      as (Hobstype & Hsite & Hinst & Hfilter).
    exists meta, st1, must, origin, results, hit, f.
    split_and!; assumption.
Defined.

(** C9, at its failing input: the record of the target frame has
    [DATE-OBS = N/A]; the lookup returns it, [parse_date_obs] gives no
    timestamp, and formatting it raises [AttributeError]. *)
Theorem get_nearest_calibration_frames_no_timestamp :
  (get_frame_metadata "ogg0m406-kb27-20200101-0009-x00.fits" (index_of night_docs)
     "fitsheaders" start).1
  = Ok (Some (frame_doc "ogg0m406-kb27-20200101-0009-x00.fits.fz" "ogg" "kb27" "rp"
                "EXPOSE" "N/A"))
  ∧ parse_date_obs "N/A" = Ok None
  ∧ (get_nearest_calibration_frames "BIAS" 3 "ogg0m406-kb27-20200101-0009-x00.fits"
       (index_of night_docs) "fitsheaders" start).1
    = Err AttributeError.
Proof. split_and!; vm_compute; reflexivity. Qed.

(** ** Restore requests *)

Lemma bind_run {A B} (m : M A) (f : A → M B) (st : state) :
  (m ≫= f) st =
  match m st with
  | (Ok a, st1) => f a st1
  | (Err e, st1) => (Err e, st1)
  end.
Proof. reflexivity. Qed.

Lemma try_call_run {A} (answer : list event → reply A) (ev : reply A → event)
    (st : state) :
  try_call answer ev st = (Ok (answer (trace st)), logged st [ev (answer (trace st))]).
Proof. reflexivity. Qed.

Lemma print_run (line : string) (st : state) :
  print line st = (Ok tt, logged st [EvPrint line]).
Proof. reflexivity. Qed.

Lemma logged_nil (st : state) : logged st [] = st.
Proof. destruct st. unfold logged. cbn. by rewrite app_nil_r. Qed.

Lemma logged_logged (st : state) (a b : list event) :
  logged (logged st a) b = logged st (a ++ b).
Proof. unfold logged. cbn. by rewrite app_assoc. Qed.

Lemma requested_app (a b : list event) : requested (a ++ b) = requested a ++ requested b.
Proof.
  induction a as [|[] a IH]; cbn [requested app]; try done. by rewrite IH.
Qed.

Lemma any_fatal_app (a b : list event) : any_fatal (a ++ b) = any_fatal a || any_fatal b.
Proof.
  induction a as [|[] a IH]; cbn [any_fatal app]; try done.
  by rewrite IH, orb_assoc.
Qed.

(** One more request in front of a sweep of the remaining keys. *)
Lemma sweep_outcome_cons (bucket_name : string) (s3 : S3Client) (thaw_mode : string)
    (key : string) (rest dead : list string) (h : list event)
    (res : result (list string)) (evs : list event) :
  let o := restore_object s3 h bucket_name key 1 thaw_mode in
  let pre := EvRestore bucket_name key 1 thaw_mode o ::
             (if no_such_key o then [EvPrint (unable_to_thaw key)] else []) in
  fatal o = false →
  sweep_outcome bucket_name s3 thaw_mode rest
    (if no_such_key o then dead ++ [key] else dead) (h ++ pre) res evs →
  sweep_outcome bucket_name s3 thaw_mode (key :: rest) dead h res (pre ++ evs).
Proof.
  intros o pre Hfatal (Hshape & Hans & Hlog & Hres).
  assert (Hreq : requested (pre ++ evs) = key :: requested evs).
  { subst pre. by destruct (no_such_key o). }
  assert (Hfat : any_fatal (pre ++ evs) = any_fatal evs).
  { subst pre. destruct (no_such_key o); cbn [any_fatal app]; by rewrite Hfatal. }
  assert (Hdead : dead_keys (pre ++ evs)
                  = (if no_such_key o then [key] else []) ++ dead_keys evs).
  { subst pre. cbn [dead_keys app]. by destruct (no_such_key o). }
  split_and!.
  - apply Forall_app. split; [| done]. subst pre.
    destruct (no_such_key o); repeat constructor; by eexists.
  - subst pre. cbn [app answered]. split; [done |].
    destruct (no_such_key o); cbn [app answered]; [split; [done |] |];
      by rewrite <- ?app_assoc in *.
  - intros k. rewrite Hdead. intros Hk. apply elem_of_app in Hk as [Hk | Hk].
    + subst pre. destruct (no_such_key o); [| by apply elem_of_nil in Hk].
      apply list_elem_of_singleton in Hk as ->.
      apply list_elem_of_further, list_elem_of_here.
    + apply elem_of_app. right. by apply Hlog.
  - destruct res as [dead' | e].
    + destruct Hres as (Hr & Hf & ->). rewrite Hreq, Hfat, Hdead, Hr.
      split_and!; try done. destruct (no_such_key o); by rewrite <- ?app_assoc.
    + destruct Hres as (evs0 & k & info & -> & Hfi & Hf0 & -> & n & Hn).
      exists (pre ++ evs0), k, info. rewrite app_assoc. split_and!; try done.
      * rewrite any_fatal_app, Hf0, orb_false_r.
        subst pre. destruct (no_such_key o); cbn [any_fatal]; by rewrite Hfatal.
      * exists (S n). by rewrite <- app_assoc, Hreq, Hn.
Qed.

Lemma thaw_sweep_spec (bucket_name : string) (s3 : S3Client) (thaw_mode : string)
    (keys : list string) :
  ∀ dead st, ∃ res evs,
    thaw_sweep keys bucket_name s3 thaw_mode dead st = (res, logged st evs)
    ∧ sweep_outcome bucket_name s3 thaw_mode keys dead (trace st) res evs.
Proof.
  induction keys as [|key rest IH]; intros dead st.
  - exists (Ok dead), []. rewrite logged_nil. split; [done |].
    split_and!; try done.
    + intros k Hk. by apply elem_of_nil in Hk.
    + cbn [dead_keys]. by rewrite app_nil_r.
  - cbn [thaw_sweep]. rewrite bind_run, try_call_run.
    pose proof (sweep_outcome_cons bucket_name s3 thaw_mode key rest dead (trace st))
      as Hcons. cbv zeta in Hcons.
    destruct (restore_object s3 (trace st) bucket_name key 1 thaw_mode)
      as [[]|info] eqn:Ho.
    + destruct (IH dead (logged st [EvRestore bucket_name key 1 thaw_mode (Returned ())]))
        as (res & evs & Hrun & Hout).
      exists res, (EvRestore bucket_name key 1 thaw_mode (Returned ()) :: evs).
      rewrite Hrun, logged_logged. split; [done |].
      by apply (Hcons res evs).
    + destruct (PyStr.contains "NoSuchKey" info) eqn:Hdead.
      * rewrite bind_run, print_run, logged_logged.
        destruct (IH (dead ++ [key])
                    (logged st [EvRestore bucket_name key 1 thaw_mode (Failed info);
                                EvPrint (unable_to_thaw key)]))
          as (res & evs & Hrun & Hout).
        exists res, ([EvRestore bucket_name key 1 thaw_mode (Failed info);
                      EvPrint (unable_to_thaw key)] ++ evs).
        unfold unable_to_thaw in *. cbn [app] in *.
        rewrite Hrun, logged_logged. split; [done |].
        cbn [no_such_key] in Hcons. rewrite Hdead in Hcons.
        apply (Hcons res evs); [| done].
        cbn. by rewrite Hdead.
      * destruct (PyStr.contains "RestoreAlreadyInProgress" info) eqn:Hprog;
          cbn [negb].
        -- destruct (IH dead
                       (logged st [EvRestore bucket_name key 1 thaw_mode (Failed info)]))
             as (res & evs & Hrun & Hout).
           exists res, (EvRestore bucket_name key 1 thaw_mode (Failed info) :: evs).
           rewrite Hrun, logged_logged. split; [done |].
           cbn [no_such_key] in Hcons. rewrite Hdead in Hcons.
           apply (Hcons res evs); [| done].
           cbn. by rewrite Hdead, Hprog.
        -- exists (Err (Raised info)),
             [EvRestore bucket_name key 1 thaw_mode (Failed info)].
           split; [done |]. split_and!.
           ++ by repeat constructor.
           ++ by cbn.
           ++ cbn [dead_keys no_such_key]. rewrite Hdead.
              intros k Hk. by apply elem_of_nil in Hk.
           ++ exists [], key, info. split_and!; try done.
              ** cbn. by rewrite Hdead, Hprog.
              ** by exists 1%nat.
Qed.

Lemma thaw_files_run (object_keys : nat) (bucket_name : string) (s3 : S3Client)
    (thaw_mode : string) (st : state) (keys : list string) :
  heap st !! object_keys = Some keys →
  ∃ res evs,
    sweep_outcome bucket_name s3 thaw_mode keys [] (trace st) res evs
    ∧ thaw_files object_keys bucket_name s3 thaw_mode st =
      match res with
      | Ok dead =>
          (Ok tt, {| trace := trace st ++ evs;
                     heap := <[object_keys := list_difference keys dead]> (heap st) |})
      | Err e => (Err e, logged st evs)
      end.
Proof.
  intros Hkeys.
  destruct (thaw_sweep_spec bucket_name s3 thaw_mode keys [] st)
    as (res & evs & Hrun & Hout).
  exists res, evs. split; [done |].
  unfold thaw_files. rewrite bind_run. unfold deref at 1. rewrite Hkeys.
  rewrite bind_run, Hrun. destruct res as [dead | e]; [| done].
  unfold difference_update, logged. cbn [heap trace]. by rewrite Hkeys.
Qed.

Lemma any_fatal_elem (evs : list event) (b key : string) (days : Z) (tier : string)
    (outcome : reply unit) :
  EvRestore b key days tier outcome ∈ evs → fatal outcome = true →
  any_fatal evs = true.
Proof.
  intros Hin Hfatal. induction evs as [|ev evs IH]; [by apply elem_of_nil in Hin |].
  apply elem_of_cons in Hin as [<- | Hin].
  - cbn [any_fatal]. by rewrite Hfatal.
  - destruct ev; cbn [any_fatal]; rewrite ?IH by done; by rewrite ?orb_true_r.
Qed.

Lemma list_difference_ext (l k1 k2 : list string) :
  (∀ x, x ∈ l → (x ∈ k1 ↔ x ∈ k2)) →
  list_difference l k1 = list_difference l k2.
Proof.
  induction l as [|x l IH]; intros Hext; [done |].
  cbn [list_difference].
  rewrite IH by (intros y Hy; apply Hext; by apply list_elem_of_further).
  pose proof (Hext x (list_elem_of_here _ _)) as Hx.
  repeat case_decide; tauto.
Qed.

(** When one key is missing from the store and the others are accepted,
    no request is fatal and the missing key is the only dead one. *)
Lemma one_missing_key (bucket_name : string) (s3 : S3Client) (thaw_mode : string)
    (keys : list string) (missing info : string) (evs : list event) :
  PyStr.contains "NoSuchKey" info = true →
  (∀ h k, k ∈ keys →
     restore_object s3 h bucket_name k 1 thaw_mode
     = if decide (k = missing) then Failed info else Returned tt) →
  Forall (thaw_event bucket_name thaw_mode) evs →
  (∀ k, k ∈ requested evs → k ∈ keys) →
  ∀ h, answered s3 h evs →
    any_fatal evs = false
    ∧ ∀ k, k ∈ dead_keys evs ↔ k = missing ∧ k ∈ requested evs.
Proof.
  intros Hinfo Hstore Hshape. induction Hshape as [|ev evs Hev _ IH];
    intros Hreq h Hans.
  - split; [done |]. intros k. cbn. rewrite elem_of_nil. tauto.
  - destruct Hans as [Hone Hans].
    destruct ev as [| |b key days tier o| | | |]; cbn [requested] in Hreq;
      try (by apply (IH Hreq _ Hans)).
    destruct Hev as (-> & -> & ->).
    destruct (IH (λ k Hk, Hreq k (list_elem_of_further _ _ _ Hk)) _ Hans)
      as [Hfat Hdead].
    rewrite (Hstore h key (Hreq key (list_elem_of_here _ _))) in Hone.
    cbn [any_fatal dead_keys requested]. rewrite Hfat.
    destruct (decide (key = missing)) as [-> | Hne]; subst o.
    + cbn [fatal no_such_key]. rewrite Hinfo. split; [done |].
      intros k. rewrite !elem_of_cons, Hdead. tauto.
    + cbn [fatal no_such_key]. split; [done |].
      intros k. rewrite elem_of_cons, Hdead. intuition congruence.
Qed.

(** C3: [thaw_files] on the set [keys].  Requests go out for the keys in
    turn, each for one day at the chosen tier.  A request failing with
    [NoSuchKey] is logged and its key leaves the set; one failing with
    [RestoreAlreadyInProgress] is passed over; in both cases the sweep goes
    on, and when no other failure occurs every key has been requested.  Any
    other failure is raised at once: its request is the last event.  In
    particular, with one key missing from the store and the others
    accepted, the call returns, every key has been requested and exactly
    the missing key has left the set. *)
Theorem thaw_files_recovers (object_keys : nat) (bucket_name : string) (s3 : S3Client)
    (thaw_mode : string) (st : state) (keys : list string) :
  heap st !! object_keys = Some keys →
  ∃ res st' evs,
    thaw_files object_keys bucket_name s3 thaw_mode st = (res, st')
    ∧ trace st' = trace st ++ evs
    ∧ Forall (thaw_event bucket_name thaw_mode) evs
    ∧ answered s3 (trace st) evs
    ∧ (∃ n, requested evs = take n keys)
    ∧ (∀ k, k ∈ dead_keys evs → EvPrint (unable_to_thaw k) ∈ evs)
    ∧ (any_fatal evs = false →
       res = Ok tt ∧ requested evs = keys
       ∧ heap st' = <[object_keys := list_difference keys (dead_keys evs)]> (heap st))
    ∧ (any_fatal evs = true →
       ∃ evs0 key info,
         evs = evs0 ++ [EvRestore bucket_name key 1 thaw_mode (Failed info)]
         ∧ fatal (Failed info) = true ∧ any_fatal evs0 = false
         ∧ res = Err (Raised info))
    ∧ (∀ missing info,
         missing ∈ keys →
         PyStr.contains "NoSuchKey" info = true →
         (∀ h k, k ∈ keys →
            restore_object s3 h bucket_name k 1 thaw_mode
            = if decide (k = missing) then Failed info else Returned tt) →
         res = Ok tt ∧ requested evs = keys
         ∧ heap st' !! object_keys = Some (list_difference keys [missing])).
Proof.
  intros Hkeys.
  destruct (thaw_files_run object_keys bucket_name s3 thaw_mode st keys Hkeys)
    as (res & evs & (Hshape & Hans & Hlog & Hres) & Hrun).
  assert (Hprefix : ∃ n, requested evs = take n keys).
  { destruct res as [dead | e].
    - destruct Hres as (-> & _). exists (length keys). by rewrite take_ge.
    - by destruct Hres as (? & ? & ? & _ & _ & _ & _ & ?). }
  assert (Hclean : any_fatal evs = false →
    res = Ok (dead_keys evs) ∧ requested evs = keys).
  { intros Hfat. destruct res as [dead | e].
    - by destruct Hres as (-> & _ & ->).
    - destruct Hres as (evs0 & key & info & -> & Hfi & _).
      rewrite any_fatal_app in Hfat. cbn [any_fatal] in Hfat.
      rewrite Hfi, orb_true_r in Hfat. done. }
  assert (Hfatal : any_fatal evs = true →
    ∃ evs0 key info,
      evs = evs0 ++ [EvRestore bucket_name key 1 thaw_mode (Failed info)]
      ∧ fatal (Failed info) = true ∧ any_fatal evs0 = false
      ∧ res = Err (Raised info)).
  { intros Hfat. destruct res as [dead | e].
    - destruct Hres as (_ & Hno & _). congruence.
    - destruct Hres as (evs0 & key & info & -> & Hfi & Hf0 & -> & _).
      by exists evs0, key, info. }
  exists (match res with Ok _ => Ok tt | Err e => Err e end),
         (match res with
          | Ok dead =>
              {| trace := trace st ++ evs;
                 heap := <[object_keys := list_difference keys dead]> (heap st) |}
          | Err _ => logged st evs
          end), evs.
  split_and!; try done.
  - rewrite Hrun. by destruct res.
  - by destruct res.
  - intros Hfat. destruct (Hclean Hfat) as [-> ?]. done.
  - intros Hfat. destruct (Hfatal Hfat) as (evs0 & key & info & ? & ? & ? & ->).
    by exists evs0, key, info.
  - intros missing info Hin Hinfo Hstore.
    destruct Hprefix as [n Hn].
    destruct (one_missing_key bucket_name s3 thaw_mode keys missing info evs
                Hinfo Hstore Hshape) with (h := trace st) as [Hfat Hdead]; [| done |].
    { intros k Hk. rewrite Hn in Hk. by apply elem_of_take in Hk as (? & ?%list_elem_of_lookup_2 & _). }
    destruct (Hclean Hfat) as [-> Hreq]. split_and!; try done.
    cbn [heap]. rewrite lookup_insert_eq. f_equal.
    apply list_difference_ext. intros x Hx.
    rewrite Hdead, Hreq, list_elem_of_singleton. intuition congruence.
Qed.

Lemma thaw_files_recovers_witness :
  ∃ res st' evs,
    thaw_files 0 "test-bucket" two_of_three "Standard" (holding three_keys) = (res, st')
    ∧ trace st' = evs
    ∧ res = Ok tt
    ∧ requested evs = three_keys
    ∧ heap st' !! 0%nat
      = Some ["coj/kb24/20200101/raw/coj0m405-kb24-20200101-0001-e00.fits.fz";
              "coj/kb24/20200101/raw/coj0m405-kb24-20200101-0003-e00.fits.fz"].
Proof.
  assert (Hkeys : heap (holding three_keys) !! 0%nat = Some three_keys)
    by (vm_compute; reflexivity).
  destruct (thaw_files_recovers 0 "test-bucket" two_of_three "Standard"
              (holding three_keys) three_keys Hkeys)
    as (res & st' & evs & Hrun & Htrace & _ & _ & _ & _ & _ & _ & Hone).
  destruct (Hone "coj/kb24/20200101/raw/coj0m405-kb24-20200101-0002-e00.fits.fz"
              no_such_key_info) as (Hres & Hreq & Hheap).
  - apply list_elem_of_further, list_elem_of_here.
  - vm_compute. reflexivity.
  - intros h k Hk.
    repeat (apply elem_of_cons in Hk as [-> | Hk]; [vm_compute; reflexivity |]).
    by apply elem_of_nil in Hk.
  - exists res, st', evs. split_and!; done.
Defined.

(** C10: when a restore request of a call of [thaw_files] fails with an
    error that is neither [NoSuchKey] nor [RestoreAlreadyInProgress], the
    call raises that error, that request is its last event, and the key
    sets are as they were at entry, dead references found earlier in the
    sweep included. *)
Theorem thaw_files_fatal_keeps_keys (object_keys : nat) (bucket_name : string)
    (s3 : S3Client) (thaw_mode : string) (st st' : state) (res : result unit)
    (evs : list event) (key info : string) :
  thaw_files object_keys bucket_name s3 thaw_mode st = (res, st') →
  trace st' = trace st ++ evs →
  EvRestore bucket_name key 1 thaw_mode (Failed info) ∈ evs →
  fatal (Failed info) = true →
  res = Err (Raised info)
  ∧ heap st' = heap st
  ∧ last evs = Some (EvRestore bucket_name key 1 thaw_mode (Failed info)).
Proof.
  intros Hrun Htrace Hin Hfatal.
  destruct (heap st !! object_keys) as [keys|] eqn:Hkeys.
  - destruct (thaw_files_run object_keys bucket_name s3 thaw_mode st keys Hkeys)
      as (res0 & evs' & (_ & _ & _ & Hres) & Hrun').
    rewrite Hrun in Hrun'. destruct res0 as [dead | e].
    + injection Hrun' as -> ->. cbn [trace] in Htrace.
      apply app_inv_head in Htrace as <-.
      destruct Hres as (_ & Hno & _).
      by rewrite (any_fatal_elem _ _ _ _ _ _ Hin Hfatal) in Hno.
    + injection Hrun' as -> ->. cbn [logged trace] in Htrace.
      apply app_inv_head in Htrace as <-.
      destruct Hres as (evs0 & key' & info' & -> & _ & Hno & -> & _).
      apply elem_of_app in Hin as [Hin | Hin].
      { by rewrite (any_fatal_elem _ _ _ _ _ _ Hin Hfatal) in Hno. }
      apply list_elem_of_singleton in Hin. injection Hin as <- <-.
      split_and!; [done | done |]. by rewrite last_snoc.
  - unfold thaw_files in Hrun. rewrite bind_run in Hrun.
    unfold deref at 1 in Hrun. rewrite Hkeys in Hrun. injection Hrun as <- <-.
    rewrite <- (app_nil_r (trace st)) in Htrace at 1.
    apply app_inv_head in Htrace as <-. by apply elem_of_nil in Hin.
Qed.

Example denied_run_trace :
  trace denied_run.2 =
  [EvRestore "test-bucket"
     "coj/kb24/20200101/raw/coj0m405-kb24-20200101-0001-e00.fits.fz" 1 "Standard"
     (Returned tt);
   EvRestore "test-bucket"
     "coj/kb24/20200101/raw/coj0m405-kb24-20200101-0002-e00.fits.fz" 1 "Standard"
     (Failed no_such_key_info);
   EvPrint "Unable to thaw file coj/kb24/20200101/raw/coj0m405-kb24-20200101-0002-e00.fits.fz. No such key.";
   EvRestore "test-bucket"
     "coj/kb24/20200101/raw/coj0m405-kb24-20200101-0003-e00.fits.fz" 1 "Standard"
     (Failed access_denied_info)].
Proof. vm_compute. reflexivity. Qed.

Lemma thaw_files_fatal_keeps_keys_witness :
  denied_run.1 = Err (Raised access_denied_info)
  ∧ heap denied_run.2 = heap (holding three_keys)
  ∧ last (trace denied_run.2)
    = Some (EvRestore "test-bucket"
              "coj/kb24/20200101/raw/coj0m405-kb24-20200101-0003-e00.fits.fz" 1
              "Standard" (Failed access_denied_info)).
Proof.
  apply (thaw_files_fatal_keeps_keys 0 "test-bucket" third_denied "Standard"
           (holding three_keys) denied_run.2 denied_run.1 (trace denied_run.2)
           "coj/kb24/20200101/raw/coj0m405-kb24-20200101-0003-e00.fits.fz"
           access_denied_info).
  - unfold denied_run. by destruct (thaw_files _ _ _ _ _).
  - reflexivity.
  - rewrite denied_run_trace. do 3 apply list_elem_of_further. apply list_elem_of_here.
  - vm_compute. reflexivity.
Defined.

(** ** Waiting for the restored copies *)

Section Waiting.

Variable host : Host.
Variable s3 : S3Client.
Variable bucket_name : string.

Lemma seen_thawed_app_l (key : string) (a b : list event) :
  seen_thawed bucket_name key a → seen_thawed bucket_name key (a ++ b).
Proof. intros (r & ? & ?). exists r. split; [apply elem_of_app; by left | done]. Qed.

Lemma seen_thawed_app_r (key : string) (a b : list event) :
  seen_thawed bucket_name key b → seen_thawed bucket_name key (a ++ b).
Proof. intros (r & ? & ?). exists r. split; [apply elem_of_app; by right | done]. Qed.

Lemma call_head_run (key : string) (st : state) :
  call (λ h, head_object s3 h bucket_name key) (EvHead bucket_name key) st =
  let r := head_object s3 (trace st) bucket_name key in
  (match r with Returned a => Ok a | Failed info => Err (Raised info) end,
   logged st [EvHead bucket_name key r]).
Proof.
  unfold call. rewrite bind_run, try_call_run.
  by destruct (head_object s3 (trace st) bucket_name key).
Qed.

(** A pass that ends normally adds to the restored keys only polled keys
    whose response showed the restore complete, each once. *)
Lemma poll_inv (keys : list string) :
  ∀ restored restored' st st',
    poll keys bucket_name s3 restored st = (Ok restored', st') →
    ∃ evs, st' = logged st evs
      ∧ (NoDup restored → NoDup restored')
      ∧ ∀ k, k ∈ restored' → k ∈ restored ∨ (k ∈ keys ∧ seen_thawed bucket_name k evs).
Proof.
  induction keys as [|key rest IH]; intros restored restored' st st' Hrun.
  - injection Hrun as <- <-. exists []. rewrite logged_nil. auto.
  - cbn [poll] in Hrun. unfold mem in Hrun.
    destruct (bool_decide_reflect (key ∈ restored)) as [Hin | Hnotin];
      cbn [negb] in Hrun.
    + destruct (IH _ _ _ _ Hrun) as (evs & -> & Hnd & Hsub).
      exists evs. split_and!; try done.
      intros k Hk. destruct (Hsub k Hk) as [? | [? ?]]; [by left |].
      right. split; [by apply list_elem_of_further | done].
    + rewrite bind_run, call_head_run in Hrun. cbv zeta in Hrun.
      destruct (head_object s3 (trace st) bucket_name key) as [response|info]
        eqn:Hhead; [| done].
      destruct (thawed response) eqn:Hthawed.
      * destruct (IH _ _ _ _ Hrun) as (evs & -> & Hnd & Hsub).
        exists (EvHead bucket_name key (Returned response) :: evs).
        rewrite logged_logged. split_and!; try done.
        -- intros Hno. apply Hnd, NoDup_app. split_and!; try done.
           ++ intros x Hx ->%list_elem_of_singleton. done.
           ++ apply NoDup_singleton.
        -- intros k Hk. destruct (Hsub k Hk) as [Hold | [? Hseen]].
           ++ apply elem_of_app in Hold as [? | ->%list_elem_of_singleton];
                [by left |].
              right. split; [apply list_elem_of_here |].
              exists response. split; [apply list_elem_of_here | done].
           ++ right. split; [by apply list_elem_of_further |].
              by apply (seen_thawed_app_r k [_]).
      * destruct (IH _ _ _ _ Hrun) as (evs & -> & Hnd & Hsub).
        exists (EvHead bucket_name key (Returned response) :: evs).
        rewrite logged_logged. split_and!; try done.
        intros k Hk. destruct (Hsub k Hk) as [? | [? Hseen]]; [by left |].
        right. split; [by apply list_elem_of_further |].
        by apply (seen_thawed_app_r k [_]).
Qed.

(** One round of the [while] loop. *)
Lemma wait_loop_round (fuel : nat) (keys restored : list string) (st : state) :
  (length restored < length keys)%nat →
  wait_loop host (S fuel) keys bucket_name s3 restored st =
  match poll keys bucket_name s3 restored st with
  | (Ok restored', st1) =>
      wait_loop host fuel keys bucket_name s3 restored'
        (logged st1
           [EvPrint (waiting_line host (trace st)
                       (Z.of_nat (length keys) - Z.of_nat (length restored')));
            EvSleep 300])
  | (Err e, st1) => Some (Err e, st1)
  end.
Proof.
  intros Hlt. cbn [wait_loop].
  destruct (Z.ltb_spec (Z.of_nat (length restored)) (Z.of_nat (length keys)));
    [| lia].
  rewrite bind_run.
  destruct (poll keys bucket_name s3 restored st) as [[restored'|e] st1]; [| done].
  rewrite bind_run, print_run, bind_run. unfold emit at 1. cbn [trace heap logged].
  unfold mret, M_ret, waiting_line, logged. cbn [trace heap].
  by rewrite <- app_assoc.
Qed.

Lemma wait_loop_done (fuel : nat) (keys restored : list string) (st : state) :
  (length keys ≤ length restored)%nat →
  wait_loop host fuel keys bucket_name s3 restored st = Some (Ok tt, st).
Proof.
  intros Hle. destruct fuel; cbn [wait_loop];
    destruct (Z.ltb_spec (Z.of_nat (length restored)) (Z.of_nat (length keys)));
    done || lia.
Qed.

Lemma wait_loop_stuck (keys restored : list string) (st : state) :
  (length restored < length keys)%nat →
  wait_loop host 0 keys bucket_name s3 restored st = None.
Proof.
  intros Hlt. cbn [wait_loop].
  destruct (Z.ltb_spec (Z.of_nat (length restored)) (Z.of_nat (length keys)));
    done || lia.
Qed.

(** The loop ends normally only when every key has been seen restored. *)
Lemma wait_loop_inv (keys : list string) (fuel : nat) :
  ∀ restored st st',
    wait_loop host fuel keys bucket_name s3 restored st = Some (Ok tt, st') →
    NoDup restored → (∀ k, k ∈ restored → k ∈ keys) →
    ∃ evs, st' = logged st evs
           ∧ ∀ k, k ∈ keys → k ∈ restored ∨ seen_thawed bucket_name k evs.
Proof.
  induction fuel as [|fuel IH]; intros restored st st' Hrun Hnd Hsub.
  all: destruct (Nat.lt_ge_cases (length restored) (length keys)) as [Hlt | Hge].
  all: try (rewrite wait_loop_done in Hrun by done; injection Hrun as <-;
            exists []; rewrite logged_nil; split; [done |];
            intros k Hk; left;
            assert (Hperm : restored ≡ₚ keys)
              by (apply submseteq_length_Permutation;
                  [by apply NoDup_submseteq | done]);
            by rewrite Hperm).
  - by rewrite wait_loop_stuck in Hrun.
  - rewrite wait_loop_round in Hrun by done.
    destruct (poll keys bucket_name s3 restored st) as [[restored'|e] st1]
      eqn:Hpoll; [| done].
    destruct (poll_inv _ _ _ _ _ Hpoll) as (evs1 & -> & Hnd' & Hsub').
    rewrite logged_logged in Hrun.
    destruct (IH _ _ _ Hrun (Hnd' Hnd)) as (evs2 & -> & Hall).
    { intros k Hk. destruct (Hsub' k Hk) as [? | [? _]]; auto. }
    eexists. rewrite logged_logged. split; [done |].
    intros k Hk. destruct (Hall k Hk) as [Hin | Hseen].
    + destruct (Hsub' k Hin) as [? | [_ Hseen]]; [by left |].
      right. rewrite <- app_assoc. by apply seen_thawed_app_l.
    + right. by apply seen_thawed_app_r.
Qed.

End Waiting.

(** A pass over keys that all report a completed restore. *)
Lemma poll_all_thawed (s3 : S3Client) (bucket_name : string) (keys : list string) :
  ∀ restored st,
    NoDup (restored ++ keys) →
    (∀ h k, k ∈ keys →
       ∃ response, head_object s3 h bucket_name k = Returned response
                   ∧ thawed response = true) →
    ∃ polls,
      poll keys bucket_name s3 restored st = (Ok (restored ++ keys), logged st polls)
      ∧ Forall2 (λ k ev, ∃ response, ev = EvHead bucket_name k (Returned response)
                                     ∧ thawed response = true) keys polls.
Proof.
  induction keys as [|key rest IH]; intros restored st Hnd Hthawed.
  - exists []. rewrite logged_nil, app_nil_r. by split.
  - cbn [poll]. unfold mem.
    assert (Hfresh : key ∉ restored).
    { apply NoDup_app in Hnd as (_ & Hdisj & _). intros Hin.
      apply (Hdisj key Hin), list_elem_of_here. }
    rewrite bool_decide_eq_false_2 by done. cbn [negb].
    rewrite bind_run, call_head_run. cbv zeta.
    destruct (Hthawed (trace st) key (list_elem_of_here _ _))
      as (response & -> & Hresp).
    rewrite Hresp.
    destruct (IH (restored ++ [key])
                (logged st [EvHead bucket_name key (Returned response)]))
      as (polls & Hrun & Hpolls).
    { by rewrite <- app_assoc. }
    { intros h k Hk. apply Hthawed. by apply list_elem_of_further. }
    exists (EvHead bucket_name key (Returned response) :: polls).
    rewrite Hrun, logged_logged, <- app_assoc. split; [done |].
    constructor; [by exists response | done].
Qed.

(** C2, at its failing input: the one key of the set is already restored
    when the call is made; the call polls it once, prints that nothing is
    left to be restored, and still sleeps 300 seconds before it returns. *)
Lemma wait_for_files_to_thaw_sleeps_once :
  head_object restored_store [] "test-bucket" first_key
  = Returned {[ "Restore" := ongoing_request_false ]}
  ∧ thawed {[ "Restore" := ongoing_request_false ]} = true
  ∧ wait_for_files_to_thaw quiet_host 1 [first_key] "test-bucket" restored_store start
    = Some (Ok tt,
            {| trace :=
                 [EvHead "test-bucket" first_key
                    (Returned {[ "Restore" := ongoing_request_false ]});
                  EvPrint "2020-01-02 03:04:05: Waiting for files to thaw: 0 left to be restored.";
                  EvSleep 300];
               heap := ∅ |}).
Proof. split_and!; vm_compute; reflexivity. Qed.

(** The same on every non-empty set of distinct keys that all report
    restored already: one pass, each key polled once, the line of the pass
    with nothing left, and one sleep of 300 seconds after it. *)
Lemma wait_for_files_to_thaw_one_pass (host : Host) (s3 : S3Client)
    (bucket_name : string) (keys : list string) (st : state) (fuel : nat) :
  keys ≠ [] → NoDup keys →
  (∀ h k, k ∈ keys →
     ∃ response, head_object s3 h bucket_name k = Returned response
                 ∧ thawed response = true) →
  ∃ polls,
    wait_for_files_to_thaw host (S fuel) keys bucket_name s3 st
    = Some (Ok tt,
            logged st (polls ++ [EvPrint (waiting_line host (trace st) 0);
                                 EvSleep 300]))
    ∧ Forall2 (λ k ev, ∃ response, ev = EvHead bucket_name k (Returned response)
                                   ∧ thawed response = true) keys polls.
Proof.
  intros Hne Hnd Hthawed.
  destruct (poll_all_thawed s3 bucket_name keys [] st Hnd Hthawed)
    as (polls & Hpoll & Hpolls).
  exists polls. split; [| done].
  unfold wait_for_files_to_thaw. rewrite wait_loop_round.
  - rewrite Hpoll. cbn [app]. rewrite Z.sub_diag, logged_logged.
    apply wait_loop_done. done.
  - destruct keys; [done | cbn; lia].
Qed.

(** X22: [wait_for_files_to_thaw] returns normally only after every key
    of its list has been polled in its bucket and the poll has shown the
    restore complete and no longer in progress. *)
Theorem wait_for_files_to_thaw_returns (host : Host) (s3 : S3Client)
    (bucket_name : string) (keys : list string) (fuel : nat) (st st' : state) :
  wait_for_files_to_thaw host fuel keys bucket_name s3 st = Some (Ok tt, st') →
  ∃ evs, trace st' = trace st ++ evs
         ∧ ∀ k, k ∈ keys → seen_thawed bucket_name k evs.
Proof.
  intros Hrun. unfold wait_for_files_to_thaw in Hrun.
  destruct (wait_loop_inv host s3 bucket_name keys fuel [] st st' Hrun)
    as (evs & -> & Hall).
  - apply NoDup_nil_2.
  - intros k Hk. by apply elem_of_nil in Hk.
  - exists evs. split; [done |].
    intros k Hk. destruct (Hall k Hk) as [Hin | ?]; [| done].
    by apply elem_of_nil in Hin.
Qed.

Lemma wait_for_files_to_thaw_returns_witness :
  ∃ st' evs,
    slow_run = Some (Ok tt, st')
    ∧ trace st' = trace start ++ evs
    ∧ ∀ k, k ∈ [first_key] → seen_thawed "test-bucket" k evs.
Proof.
  destruct slow_run as [[[[]|e] st']|] eqn:Hrun;
    [| by vm_compute in Hrun | by vm_compute in Hrun].
  destruct (wait_for_files_to_thaw_returns quiet_host slow_store "test-bucket"
              [first_key] 3 start st' Hrun) as (evs & ? & ?).
  by exists st', evs.
Defined.

(** ** The script *)

Lemma download_thawed_files_events (host : Host) (s3 : S3Client)
    (base_dir bucket_name : string) (object_keys : list string) :
  ∀ st, ∃ res evs,
    download_thawed_files host object_keys base_dir bucket_name s3 st
    = (res, logged st evs)
    ∧ Forall (download_event object_keys) evs.
Proof.
  induction object_keys as [|key rest IH]; intros st.
  - exists (Ok tt), []. by rewrite logged_nil.
  - cbn [download_thawed_files]. rewrite bind_run. unfold call.
    rewrite bind_run, try_call_run.
    set (dir := PyPath.join base_dir (PyPath.dirname key)).
    destruct (makedirs host (trace st) dir) as [[]|info] eqn:Hmk.
    2: { exists (Err (Raised info)), [EvMakedirs dir (Failed info)].
         split; [done |]. by repeat constructor. }
    unfold mret at 1, M_ret at 1. rewrite bind_run, try_call_run, bind_run.
    set (path := PyPath.join base_dir key).
    set (st1 := logged st [EvMakedirs dir (Returned ())]).
    set (r := download_file s3 (trace st1) bucket_name key path).
    set (line := match r with
                 | Returned _ => "Downloaded " +:+ PyPath.basename key
                 | Failed _ => "Skipped " +:+ PyPath.basename key
                 end).
    assert (Hprint :
      (match r with
       | Returned _ => print ("Downloaded " +:+ PyPath.basename key)
       | Failed _ => print ("Skipped " +:+ PyPath.basename key)
       end) (logged st1 [EvDownload bucket_name key path r])
      = (Ok tt, logged st [EvMakedirs dir (Returned ());
                           EvDownload bucket_name key path r; EvPrint line])).
    { subst line st1. destruct r; rewrite print_run, !logged_logged; done. }
    rewrite Hprint.
    destruct (IH (logged st [EvMakedirs dir (Returned ());
                             EvDownload bucket_name key path r; EvPrint line]))
      as (res & evs & -> & Hevs).
    exists res, ([EvMakedirs dir (Returned ());
                  EvDownload bucket_name key path r; EvPrint line] ++ evs).
    rewrite logged_logged. split; [done |].
    apply Forall_app. split.
    + by repeat constructor.
    + eapply Forall_impl; [exact Hevs |].
      intros [] Hev; cbn in *; try done. by apply list_elem_of_further.
Qed.

(** C1, at its failing input: on the two-frame list the script resolves no
    key, sends no restore request and polls nothing; it asks for the two
    filenames as they are, as if they were object keys, and both downloads
    are skipped. *)
Theorem main_downloads_filenames_unresolved :
  prefixes two_frames
  = Ok ["coj/kb24/20200101/raw/coj0m405-kb24-20200101-0001-00.fits.fz";
        "coj/kb24/20200101/raw/coj0m405-kb24-20200101-0002-00.fits.fz"]
  ∧ main quiet_host test_args two_frames (index_of night_docs) cold_archive start
    = (Ok tt,
       {| trace :=
            [EvMakedirs "/data/" (Returned tt);
             EvDownload "test-bucket" "coj0m405-kb24-20200101-0001-00.fits"
               "/data/coj0m405-kb24-20200101-0001-00.fits" (Failed not_found_info);
             EvPrint "Skipped coj0m405-kb24-20200101-0001-00.fits";
             EvMakedirs "/data/" (Returned tt);
             EvDownload "test-bucket" "coj0m405-kb24-20200101-0002-00.fits"
               "/data/coj0m405-kb24-20200101-0002-00.fits" (Failed not_found_info);
             EvPrint "Skipped coj0m405-kb24-20200101-0002-00.fits"];
          heap := ∅ |}).
Proof. split; vm_compute; reflexivity. Qed.

(** ** Names with too few segments *)

Lemma split_from_length (sep : ascii) (s : string) :
  ∀ cur, length (PyStr.split_from sep cur s) = S (count_char sep s).
Proof.
  induction s as [|c s IH]; intros cur; [done |].
  cbn [PyStr.split_from count_char].
  destruct (Ascii.eqb c sep); cbn [length]; by rewrite IH.
Qed.

Lemma index_lt {A} (l : list A) (i : nat) :
  (i < length l)%nat → ∃ x, index l i = Ok x.
Proof.
  intros Hlt. unfold index.
  destruct (lookup_lt_is_Some_2 l i Hlt) as [x ->]. by exists x.
Qed.

Lemma index_ge {A} (l : list A) (i : nat) :
  (length l ≤ i)%nat → index l i = Err IndexError.
Proof. intros Hge. unfold index. by rewrite lookup_ge_None_2. Qed.

(** X1: [make_s3_prefix_from_filename] needs two hyphens and nothing else.
    A name with fewer than two hyphens raises [IndexError], at
    [split('-')[1]] or [split('-')[2]]; every name with at least two
    hyphens gets a key, whatever else it holds. *)
Theorem make_s3_prefix_from_filename_needs_two_hyphens (filename : string) :
  ((count_char "-" filename < 2)%nat →
   make_s3_prefix_from_filename filename = Err IndexError)
  ∧ ((2 ≤ count_char "-" filename)%nat →
     ∃ key, make_s3_prefix_from_filename filename = Ok key).
Proof.
  unfold make_s3_prefix_from_filename.
  pose proof (split_from_length "-" filename EmptyString) as Hlen.
  fold (PyStr.split "-" filename) in Hlen.
  split; intros Hcount.
  - destruct (decide (count_char "-" filename = 0)%nat) as [H0 | H0].
    + rewrite (index_ge _ 1) by lia. done.
    + destruct (index_lt (PyStr.split "-" filename) 1) as [x ->]; [lia |].
      cbn [mbind result_bind]. rewrite (index_ge _ 2) by lia. done.
  - destruct (index_lt (PyStr.split "-" filename) 1) as [x ->]; [lia |].
    destruct (index_lt (PyStr.split "-" filename) 2) as [y ->]; [lia |].
    by eexists.
Qed.

(** ** Keys of names with dots *)

Lemma take_drop_string (k : nat) (p : string) :
  PyStr.take k p +:+ PyStr.drop k p = p.
Proof.
  revert p. induction k as [|k IH]; intros [|a p]; try done.
  cbn [PyStr.take PyStr.drop]. by rewrite append_cons, IH.
Qed.

(** A text that begins with [p] when [s] follows [b]: either [b] alone
    begins with [p], or [b] is a proper prefix of [p] that [s] completes. *)
Lemma startswith_app_split (p b s : string) :
  PyStr.startswith p (b +:+ s) = true →
  PyStr.startswith p b = true
  ∨ ∃ k, (k < String.length p)%nat ∧ b = PyStr.take k p
         ∧ PyStr.startswith (PyStr.drop k p) s = true.
Proof.
  revert b. induction p as [|a p IH]; intros b H; [by left |].
  destruct b as [|c b].
  - right. exists 0%nat. cbn. split_and!; [lia | done | done].
  - rewrite append_cons in H. cbn [PyStr.startswith] in H |- *.
    destruct (Ascii.eqb_spec a c) as [-> | ?]; [| done].
    destruct (IH b H) as [? | (k & Hk & -> & Hs)]; [by left |].
    right. exists (S k). cbn. split_and!; [lia | done | done].
Qed.

Lemma straddles_false (old s : string) (k : nat) :
  straddles old s = false → (1 ≤ k < String.length old)%nat →
  PyStr.startswith (PyStr.drop k old) s = false.
Proof.
  unfold straddles. intros H Hk.
  destruct (PyStr.startswith (PyStr.drop k old) s) eqn:Hs; [| done].
  assert (existsb (λ k, PyStr.startswith (PyStr.drop k old) s)
            (seq 1 (String.length old - 1)) = true) as Hex; [| congruence].
  apply existsb_exists. exists k. split; [| done].
  apply in_seq. lia.
Qed.

(** When no occurrence of [old] can begin in [x] and end in [s], the scan
    of [x ++ s] is the scan of [x] followed by the scan of [s]. *)
Lemma replace_app (c : ascii) (r new x s : string) :
  straddles (String c r) s = false →
  PyStr.replace (String c r) new (x +:+ s)
  = PyStr.replace (String c r) new x +:+ PyStr.replace (String c r) new s.
Proof.
  intros Hno. remember (String.length x) as n eqn:Hn.
  revert x Hn. induction (lt_wf n) as [n _ IH]; intros x ->.
  destruct x as [|a x]; [done |].
  destruct (PyStr.startswith (String c r) (String a x)) eqn:Hs.
  - destruct (startswith_inv _ _ Hs) as [t Ht]. rewrite Ht.
    rewrite append_assoc, !replace_hit, append_assoc. f_equal.
    apply (IH (String.length t)); [| done].
    rewrite Ht, length_append. cbn. lia.
  - rewrite (replace_miss _ _ _ _ Hs), !append_cons, replace_miss.
    + f_equal. apply (IH (String.length x)); [cbn; lia | done].
    + rewrite <- append_cons.
      destruct (PyStr.startswith (String c r) (String a x +:+ s)) eqn:Hs';
        [| done].
      apply startswith_app_split in Hs' as [? | (k & Hk & Hb & Hrest)];
        [congruence |].
      destruct k as [|k]; [done |].
      rewrite (straddles_false _ _ (S k) Hno) in Hrest; [done | lia].
Qed.

(** The compressed filename of the two spellings of any name. *)
Lemma compressed_filename_fits (x : string) :
  PyStr.replace ".fits" ".fits.fz" (PyStr.replace ".fits.fz" ".fits" (x +:+ ".fits"))
  = PyStr.replace ".fits" ".fits.fz" (PyStr.replace ".fits.fz" ".fits" x)
    +:+ ".fits.fz".
Proof.
  rewrite (replace_app "." "fits.fz" ".fits" x ".fits" eq_refl).
  change (PyStr.replace ".fits.fz" ".fits" ".fits") with ".fits".
  by rewrite (replace_app "." "fits" ".fits.fz" _ ".fits" eq_refl).
Qed.

Lemma compressed_filename_fits_fz (x : string) :
  PyStr.replace ".fits" ".fits.fz" (PyStr.replace ".fits.fz" ".fits" (x +:+ ".fits.fz"))
  = PyStr.replace ".fits" ".fits.fz" (PyStr.replace ".fits.fz" ".fits" x)
    +:+ ".fits.fz".
Proof.
  rewrite (replace_app "." "fits.fz" ".fits" x ".fits.fz" eq_refl).
  change (PyStr.replace ".fits.fz" ".fits" ".fits.fz") with ".fits".
  by rewrite (replace_app "." "fits" ".fits.fz" _ ".fits" eq_refl).
Qed.

Lemma take_app_le (n : nat) (x y : string) :
  (n ≤ String.length x)%nat → PyStr.take n (x +:+ y) = PyStr.take n x.
Proof.
  revert x. induction n as [|n IH]; intros [|a x] Hle; cbn in Hle; try done; [lia |].
  rewrite append_cons. cbn [PyStr.take]. rewrite IH by lia. done.
Qed.

Lemma take_app_agree (n : nat) (x y z : string) :
  PyStr.take (n - String.length x) y = PyStr.take (n - String.length x) z →
  PyStr.take n (x +:+ y) = PyStr.take n (x +:+ z).
Proof.
  revert n. induction x as [|a x IH]; intros n H.
  - rewrite !append_nil_l. cbn in H. by rewrite Nat.sub_0_r in H.
  - rewrite !append_cons. destruct n as [|n]; [done |].
    cbn [PyStr.take]. f_equal. apply IH. exact H.
Qed.

Lemma hyphen_cons (y : string) : "-" +:+ y = String "-" y.
Proof. reflexivity. Qed.

(** The segments of a name whose first three segments are followed by
    more. *)
Lemma split_four_segments (s1 s2 s3 more : string) :
  PyStr.has_char "-" s1 = false → PyStr.has_char "-" s2 = false →
  PyStr.has_char "-" s3 = false →
  PyStr.split "-" (s1 +:+ "-" +:+ s2 +:+ "-" +:+ s3 +:+ "-" +:+ more)
  = s1 :: s2 :: s3 :: PyStr.split "-" more.
Proof.
  intros H1 H2 H3. rewrite !hyphen_cons. by rewrite !split_segment.
Qed.

Lemma split_from_clean (sep : ascii) (x : string) :
  PyStr.has_char sep x = false →
  ∀ cur, PyStr.split_from sep cur x = [cur +:+ x].
Proof.
  induction x as [|a x IH]; intros Hx cur.
  - by rewrite append_nil_r.
  - cbn in Hx. apply orb_false_iff in Hx as [Ha Hx].
    cbn [PyStr.split_from]. rewrite Ascii.eqb_sym, Ha, IH by done.
    by rewrite append_assoc.
Qed.

Lemma split_three_segments (s1 s2 s3 : string) :
  PyStr.has_char "-" s1 = false → PyStr.has_char "-" s2 = false →
  PyStr.has_char "-" s3 = false →
  PyStr.split "-" (s1 +:+ "-" +:+ s2 +:+ "-" +:+ s3) = [s1; s2; s3].
Proof.
  intros H1 H2 H3. rewrite !hyphen_cons, !split_segment by done.
  unfold PyStr.split. by rewrite split_from_clean.
Qed.

(** X2: for any name of at least four hyphen-separated segments, dots
    allowed anywhere, the two spellings [.fits] and [.fits.fz] of the name
    get the same key; the key is built from the first three characters, the
    second and third segments and the name with its extensions rewritten,
    and it ends in [.fits.fz]. *)
Theorem make_s3_prefix_from_filename_any_name (s1 s2 s3 rest : string) :
  PyStr.has_char "-" s1 = false →
  PyStr.has_char "-" s2 = false →
  PyStr.has_char "-" s3 = false →
  let x := s1 +:+ "-" +:+ s2 +:+ "-" +:+ s3 +:+ "-" +:+ rest in
  let key :=
    PyStr.take 3 x +:+ "/" +:+ s2 +:+ "/" +:+ s3 +:+ "/raw/" +:+
    PyStr.replace ".fits" ".fits.fz" (PyStr.replace ".fits.fz" ".fits" x)
    +:+ ".fits.fz" in
  make_s3_prefix_from_filename (x +:+ ".fits") = Ok key
  ∧ make_s3_prefix_from_filename (x +:+ ".fits.fz") = Ok key
  ∧ PyStr.endswith ".fits.fz" key = true.
Proof.
  intros H1 H2 H3 x key.
  assert (Hsplit : ∀ ext, ∃ more,
    PyStr.split "-" (x +:+ ext) = s1 :: s2 :: s3 :: more).
  { intros ext. eexists. subst x. rewrite !append_assoc.
    by apply split_four_segments. }
  assert (Htake : ∀ ext, PyStr.take 3 (x +:+ ext) = PyStr.take 3 x).
  { intros ext. apply take_app_le. subst x.
    rewrite !length_append. cbn. lia. }
  split_and!.
  - unfold make_s3_prefix_from_filename.
    destruct (Hsplit ".fits") as [more ->].
    by rewrite Htake, compressed_filename_fits.
  - unfold make_s3_prefix_from_filename.
    destruct (Hsplit ".fits.fz") as [more ->].
    by rewrite Htake, compressed_filename_fits_fz.
  - subst key. rewrite <- !append_assoc. apply endswith_append.
Qed.

Lemma make_s3_prefix_from_filename_any_name_witness :
  make_s3_prefix_from_filename "coj0m405-kb24-20200101-0001-e00.v2.fits"
  = Ok "coj/kb24/20200101/raw/coj0m405-kb24-20200101-0001-e00.v2.fits.fz"
  ∧ make_s3_prefix_from_filename "coj0m405-kb24-20200101-0001-e00.v2.fits.fz"
    = Ok "coj/kb24/20200101/raw/coj0m405-kb24-20200101-0001-e00.v2.fits.fz"
  ∧ PyStr.endswith ".fits.fz"
      "coj/kb24/20200101/raw/coj0m405-kb24-20200101-0001-e00.v2.fits.fz" = true.
Proof.
  exact (make_s3_prefix_from_filename_any_name "coj0m405" "kb24" "20200101"
           "0001-e00.v2" eq_refl eq_refl eq_refl).
Defined.

(** X3: a name of exactly three segments keeps its extension in the
    day-of-observation segment: the third path component of the key is the
    third segment with [.fits] or [.fits.fz] still attached, so the two
    spellings of the same name get different keys. *)
Theorem make_s3_prefix_from_filename_three_segments (s1 s2 s3 : string) :
  PyStr.has_char "-" s1 = false →
  PyStr.has_char "-" s2 = false →
  PyStr.has_char "-" s3 = false →
  let x := s1 +:+ "-" +:+ s2 +:+ "-" +:+ s3 in
  ∃ site compressed_filename,
    make_s3_prefix_from_filename (x +:+ ".fits")
    = Ok (site +:+ "/" +:+ s2 +:+ "/" +:+ (s3 +:+ ".fits") +:+ "/raw/" +:+
          compressed_filename)
    ∧ make_s3_prefix_from_filename (x +:+ ".fits.fz")
      = Ok (site +:+ "/" +:+ s2 +:+ "/" +:+ (s3 +:+ ".fits.fz") +:+ "/raw/" +:+
            compressed_filename)
    ∧ make_s3_prefix_from_filename (x +:+ ".fits")
      ≠ make_s3_prefix_from_filename (x +:+ ".fits.fz").
Proof.
  intros H1 H2 H3 x.
  assert (Hsplit : ∀ ext, PyStr.has_char "-" ext = false →
    PyStr.split "-" (x +:+ ext) = [s1; s2; s3 +:+ ext]).
  { intros ext Hext. subst x. rewrite !append_assoc.
    apply split_three_segments; try done.
    by rewrite has_char_append, H3, Hext. }
  assert (Htake : PyStr.take 3 (x +:+ ".fits") = PyStr.take 3 (x +:+ ".fits.fz")).
  { apply take_app_agree.
    assert (2 ≤ String.length x)%nat as Hlen
      by (subst x; rewrite !length_append; cbn; lia).
    destruct (3 - String.length x)%nat as [|[|n]] eqn:Hn; [done | done | lia]. }
  assert (Hfits : make_s3_prefix_from_filename (x +:+ ".fits")
    = Ok (PyStr.take 3 (x +:+ ".fits") +:+ "/" +:+ s2 +:+ "/" +:+ (s3 +:+ ".fits")
          +:+ "/raw/" +:+
          (PyStr.replace ".fits" ".fits.fz" (PyStr.replace ".fits.fz" ".fits" x)
           +:+ ".fits.fz"))).
  { unfold make_s3_prefix_from_filename.
    by rewrite (Hsplit ".fits" eq_refl), compressed_filename_fits. }
  assert (Hfz : make_s3_prefix_from_filename (x +:+ ".fits.fz")
    = Ok (PyStr.take 3 (x +:+ ".fits") +:+ "/" +:+ s2 +:+ "/" +:+ (s3 +:+ ".fits.fz")
          +:+ "/raw/" +:+
          (PyStr.replace ".fits" ".fits.fz" (PyStr.replace ".fits.fz" ".fits" x)
           +:+ ".fits.fz"))).
  { unfold make_s3_prefix_from_filename.
    by rewrite (Hsplit ".fits.fz" eq_refl), compressed_filename_fits_fz, Htake. }
  eexists _, _. split_and!; [exact Hfits | exact Hfz |].
  rewrite Hfits, Hfz. intros [= Heq].
  do 4 apply (inj _) in Heq. rewrite !append_assoc in Heq.
  apply (inj _) in Heq.
  repeat rewrite ?append_cons, ?append_nil_l in Heq. discriminate Heq.
Qed.

Lemma make_s3_prefix_from_filename_three_segments_witness :
  ∃ site compressed_filename,
    make_s3_prefix_from_filename ("coj" +:+ "-" +:+ "kb24" +:+ "-" +:+ "20200101"
                                  +:+ ".fits")
    = Ok (site +:+ "/" +:+ "kb24" +:+ "/" +:+ ("20200101" +:+ ".fits") +:+ "/raw/" +:+
          compressed_filename)
    ∧ make_s3_prefix_from_filename ("coj" +:+ "-" +:+ "kb24" +:+ "-" +:+ "20200101"
                                    +:+ ".fits.fz")
      = Ok (site +:+ "/" +:+ "kb24" +:+ "/" +:+ ("20200101" +:+ ".fits.fz") +:+ "/raw/"
            +:+ compressed_filename)
    ∧ make_s3_prefix_from_filename ("coj" +:+ "-" +:+ "kb24" +:+ "-" +:+ "20200101"
                                    +:+ ".fits")
      ≠ make_s3_prefix_from_filename ("coj" +:+ "-" +:+ "kb24" +:+ "-" +:+ "20200101"
                                      +:+ ".fits.fz").
Proof.
  exact (make_s3_prefix_from_filename_three_segments "coj" "kb24" "20200101"
           eq_refl eq_refl eq_refl).
Defined.

Lemma make_s3_prefix_from_filename_needs_two_hyphens_witness :
  make_s3_prefix_from_filename "coj0m405-kb24.fits" = Err IndexError
  ∧ ∃ key, make_s3_prefix_from_filename "coj0m405-kb24-20200101.fits" = Ok key.
Proof.
  split.
  - apply (make_s3_prefix_from_filename_needs_two_hyphens "coj0m405-kb24.fits").
    vm_compute. lia.
  - apply (make_s3_prefix_from_filename_needs_two_hyphens
             "coj0m405-kb24-20200101.fits").
    vm_compute. lia.
Defined.

(** ** The scan of the bucket listing *)

Lemma first_containing_Some (filename : string) (keys : list string) (key : string) :
  first_containing filename keys = Some key ↔
  ∃ before after,
    keys = before ++ key :: after
    ∧ PyStr.contains filename key = true
    ∧ ∀ k, k ∈ before → PyStr.contains filename k = false.
Proof.
  induction keys as [|k keys IH]; cbn [first_containing].
  - split; [done |]. intros (before & after & H & _). by destruct before.
  - destruct (PyStr.contains filename k) eqn:Hk.
    + split.
      * intros [= ->]. exists [], keys. split_and!; [done | done |].
        intros x Hx. by apply elem_of_nil in Hx.
      * intros ([|b before] & after & Heq & Hkey & Hbefore).
        -- by injection Heq as ->.
        -- injection Heq as -> _.
           rewrite (Hbefore b (list_elem_of_here _ _)) in Hk. done.
    + rewrite IH. split.
      * intros (before & after & -> & Hkey & Hbefore).
        exists (k :: before), after. split_and!; [done | done |].
        intros x [-> | Hx]%elem_of_cons; auto.
      * intros ([|b before] & after & Heq & Hkey & Hbefore).
        -- injection Heq as -> _. congruence.
        -- injection Heq as -> ->. exists before, after. split_and!; [done | done |].
           intros x Hx. apply Hbefore. by apply list_elem_of_further.
Qed.

Lemma first_containing_None (filename : string) (keys : list string) :
  first_containing filename keys = None ↔
  ∀ k, k ∈ keys → PyStr.contains filename k = false.
Proof.
  induction keys as [|k keys IH]; cbn [first_containing].
  - split; [| done]. intros _ x Hx. by apply elem_of_nil in Hx.
  - destruct (PyStr.contains filename k) eqn:Hk.
    + split; [done |]. intros H. rewrite (H k (list_elem_of_here _ _)) in Hk. done.
    + rewrite IH. split.
      * intros H x [-> | Hx]%elem_of_cons; auto.
      * intros H x Hx. apply H. by apply list_elem_of_further.
Qed.



Lemma page_keys_total (contents : list (gmap string string)) :
  (∀ obj, obj ∈ contents → is_Some (obj !! "Key")) →
  ∃ keys, page_keys contents = Ok keys.
Proof.
  induction contents as [|obj rest IH]; intros H; [by eexists |].
  cbn [page_keys]. unfold getitem.
  destruct (H obj (list_elem_of_here _ _)) as [key ->].
  destruct IH as [keys ->].
  { intros o Ho. apply H. by apply list_elem_of_further. }
  by eexists.
Qed.

(** X6: a page without [Contents] makes [get_s3_prefix_from_s3] raise
    [KeyError('Contents')], also when an earlier page lists a key that
    contains the filename: all pages are read before any key is
    compared. *)
Theorem get_s3_prefix_from_s3_page_without_contents
    (before after : list Page) (page : Page) (filename : string) :
  Contents page = None →
  (∀ p, p ∈ before →
     ∃ contents, Contents p = Some contents
                 ∧ ∀ obj, obj ∈ contents → is_Some (obj !! "Key")) →
  get_s3_prefix_from_s3 (before ++ page :: after) filename
  = Err (KeyError "Contents").
Proof.
  intros Hnone Hbefore. unfold get_s3_prefix_from_s3.
  assert (listed_keys (before ++ page :: after) = Err (KeyError "Contents")) as ->;
    [| done].
  induction before as [|p before IH]; cbn [app listed_keys].
  - by rewrite Hnone.
  - destruct (Hbefore p (list_elem_of_here _ _)) as (contents & -> & Hkeys).
    destruct (page_keys_total contents Hkeys) as [keys ->].
    cbn [mbind result_bind]. rewrite IH; [done |].
    intros q Hq. apply Hbefore. by apply list_elem_of_further.
Qed.

Lemma get_s3_prefix_from_s3_page_without_contents_witness :
  get_s3_prefix_from_s3
    ([ {| Contents := Some [ {[ "Key" := "coj/kb24/20200101/raw/a-00.fits.fz" ]} ] |} ]
     ++ {| Contents := None |} :: [])
    "a-00.fits"
  = Err (KeyError "Contents").
Proof.
  apply (get_s3_prefix_from_s3_page_without_contents
           [ {| Contents := Some [ {[ "Key" := "coj/kb24/20200101/raw/a-00.fits.fz" ]} ] |} ]
           [] {| Contents := None |} "a-00.fits" eq_refl).
  intros p ->%list_elem_of_singleton. eexists. split; [reflexivity |].
  intros obj ->%list_elem_of_singleton. vm_compute. eauto.
Defined.

(** ** Calibration frames: errors and order *)

Lemma lift_run {A} (r : result A) (st : state) : lift r st = (r, st).
Proof. reflexivity. Qed.

(** The reading of the target's fields, as far as the first missing one. *)
Lemma get_nearest_calibration_frames_fields (obstype : string) (n_frames : Z)
    (filename : string) (search_host : OpenSearch) (search_index : string)
    (st st1 : state) (meta : gmap string string) :
  get_frame_metadata filename search_host search_index st = (Ok (Some meta), st1) →
  get_nearest_calibration_frames obstype n_frames filename search_host search_index st
  = match meta !! "SITEID", meta !! "INSTRUME" with
    | None, _ => (Err (KeyError "SITEID"), st1)
    | Some _, None => (Err (KeyError "INSTRUME"), st1)
    | Some siteid, Some instrume =>
        let base := [("OBSTYPE", obstype); ("SITEID", siteid);
                     ("INSTRUME", instrume)] in
        match (if String.eqb obstype "SKYFLAT"
               then match meta !! "FILTER" with
                    | Some band => Ok (base ++ [("FILTER", band)])
                    | None => Err (KeyError "FILTER")
                    end
               else Ok base) with
        | Err e => (Err e, st1)
        | Ok must =>
            match meta !! "DATE-OBS" with
            | None => (Err (KeyError "DATE-OBS"), st1)
            | Some date_obs =>
                match parse_date_obs date_obs with
                | Err e => (Err e, st1)
                | Ok None => (Err AttributeError, st1)
                | Ok (Some dt) =>
                    let origin :=
                      drop_last3 (PyTime.strftime "%Y-%m-%dT%H:%M:%S.%f" dt)
                      +:+ "UTC" in
                    let q := FunctionScoreQuery must "DATE-OBS" origin "1h"
                               (999, 1000)%Z "multiply" n_frames in
                    let r := search search_host (trace st1) search_index q in
                    let st2 := logged st1 [EvSearch search_index q r] in
                    match r with
                    | Failed info => (Err (Raised info), st2)
                    | Returned None => (Err TypeError, st2)
                    | Returned (Some results) =>
                        (filenames ← final_filenames results; prefixes filenames,
                         st2)
                    end
                end
            end
        end
    end.
Proof.
  intros Hmeta. unfold get_nearest_calibration_frames.
  rewrite bind_run, Hmeta. unfold getitem.
  rewrite bind_run, lift_run.
  destruct (meta !! "SITEID") as [siteid|]; [| done].
  rewrite bind_run, lift_run.
  destruct (meta !! "INSTRUME") as [instrume|]; [| done].
  cbv zeta. rewrite bind_run.
  destruct (String.eqb obstype "SKYFLAT").
  - rewrite bind_run, lift_run.
    destruct (meta !! "FILTER") as [band|]; [| done].
    unfold mret at 1, M_ret at 1. rewrite bind_run, lift_run.
    destruct (meta !! "DATE-OBS") as [date_obs|]; [| done].
    rewrite bind_run, lift_run.
    destruct (parse_date_obs date_obs) as [[dt|]|e]; [| done | done].
    rewrite bind_run. unfold mret at 1, M_ret at 1.
    rewrite bind_run, call_search_run. cbv zeta.
    destruct (search search_host (trace st1) search_index _) as [[results|]|info];
      [| done | done].
    rewrite bind_run. unfold mret at 1, M_ret at 1.
    rewrite bind_run, lift_run.
    destruct (final_filenames results) as [filenames|e]; [| done].
    by rewrite lift_run.
  - unfold mret at 1, M_ret at 1. rewrite bind_run, lift_run.
    destruct (meta !! "DATE-OBS") as [date_obs|]; [| done].
    rewrite bind_run, lift_run.
    destruct (parse_date_obs date_obs) as [[dt|]|e]; [| done | done].
    rewrite bind_run. unfold mret at 1, M_ret at 1.
    rewrite bind_run, call_search_run. cbv zeta.
    destruct (search search_host (trace st1) search_index _) as [[results|]|info];
      [| done | done].
    rewrite bind_run. unfold mret at 1, M_ret at 1.
    rewrite bind_run, lift_run.
    destruct (final_filenames results) as [filenames|e]; [| done].
    by rewrite lift_run.
Qed.

(** X9: [get_nearest_calibration_frames] reads the record of the target
    by subscript, [SITEID], [INSTRUME], [FILTER] when the type is
    [SKYFLAT], then [DATE-OBS]; the first of these the record lacks raises
    [KeyError] of that field, and nothing is sent after the metadata
    lookup. *)
Theorem get_nearest_calibration_frames_missing_field (obstype : string) (n_frames : Z)
    (filename : string) (search_host : OpenSearch) (search_index : string)
    (st st1 : state) (meta : gmap string string)
    (pre post : list string) (field : string) :
  get_frame_metadata filename search_host search_index st = (Ok (Some meta), st1) →
  fields_read obstype = pre ++ field :: post →
  (∀ f, f ∈ pre → is_Some (meta !! f)) →
  meta !! field = None →
  get_nearest_calibration_frames obstype n_frames filename search_host search_index st
  = (Err (KeyError field), st1).
Proof.
  intros Hmeta Hfields Hpre Hnone.
  rewrite (get_nearest_calibration_frames_fields _ _ _ _ _ _ _ _ Hmeta).
  unfold fields_read in Hfields.
  assert (Hhave : ∀ f, f ∈ pre → ∃ w, meta !! f = Some w).
  { intros f Hf. destruct (Hpre f Hf) as [w ->]. by exists w. }
  destruct (String.eqb obstype "SKYFLAT"); cbn [app] in Hfields.
  all: destruct pre as [|p1 pre]; cbn [app] in Hfields;
    [injection Hfields as <- <-; by rewrite Hnone |].
  all: injection Hfields as <- Hfields;
    destruct (Hhave "SITEID") as [siteid ->]; [by constructor |].
  all: destruct pre as [|p2 pre]; cbn [app] in Hfields;
    [injection Hfields as <- <-; by rewrite Hnone |].
  all: injection Hfields as <- Hfields;
    destruct (Hhave "INSTRUME") as [instrume ->]; [by repeat constructor |].
  all: destruct pre as [|p3 pre]; cbn [app] in Hfields;
    [injection Hfields as <- <-; by rewrite Hnone |].
  - injection Hfields as <- Hfields.
    destruct (Hhave "FILTER") as [band ->]; [by repeat constructor |].
    destruct pre as [|p4 pre]; cbn [app] in Hfields;
      [injection Hfields as <- <-; by rewrite Hnone |].
    injection Hfields as _ Hfields. by destruct pre.
  - injection Hfields as _ Hfields. by destruct pre.
Qed.

Lemma get_nearest_calibration_frames_missing_field_witness :
  get_nearest_calibration_frames "SKYFLAT" 3 "coj0m405-kb24-20200101-0001-e00.fits"
    (index_of unfiltered_docs) "fitsheaders" start
  = (Err (KeyError "FILTER"),
     (get_frame_metadata "coj0m405-kb24-20200101-0001-e00.fits"
        (index_of unfiltered_docs) "fitsheaders" start).2).
Proof.
  apply (get_nearest_calibration_frames_missing_field "SKYFLAT" 3
           "coj0m405-kb24-20200101-0001-e00.fits" (index_of unfiltered_docs)
           "fitsheaders" start _
           (delete "FILTER"
              (frame_doc "coj0m405-kb24-20200101-0001-e00.fits.fz" "coj" "kb24" "rp"
                 "EXPOSE" "2020-01-01T10:30:00.5"))
           ["SITEID"; "INSTRUME"] ["DATE-OBS"] "FILTER").
  - vm_compute. reflexivity.
  - reflexivity.
  - intros f Hf.
    repeat (apply elem_of_cons in Hf as [-> | Hf]; [vm_compute; eauto |]).
    by apply elem_of_nil in Hf.
  - vm_compute. reflexivity.
Defined.

(** X10: when the record of the target has all the fields read and its
    [DATE-OBS] is [N/A], [get_nearest_calibration_frames] raises
    [AttributeError] for every type and every number of frames, and sends
    no second query. *)
Theorem get_nearest_calibration_frames_sentinel (obstype : string) (n_frames : Z)
    (filename : string) (search_host : OpenSearch) (search_index : string)
    (st st1 : state) (meta : gmap string string) :
  get_frame_metadata filename search_host search_index st = (Ok (Some meta), st1) →
  (∀ f, f ∈ fields_read obstype → is_Some (meta !! f)) →
  meta !! "DATE-OBS" = Some "N/A" →
  get_nearest_calibration_frames obstype n_frames filename search_host search_index st
  = (Err AttributeError, st1).
Proof.
  intros Hmeta Hfields Hdate.
  rewrite (get_nearest_calibration_frames_fields _ _ _ _ _ _ _ _ Hmeta).
  unfold fields_read in Hfields.
  destruct (Hfields "SITEID") as [siteid ->]; [by constructor |].
  destruct (Hfields "INSTRUME") as [instrume ->]; [by repeat constructor |].
  rewrite Hdate. cbv zeta.
  destruct (String.eqb obstype "SKYFLAT"); [| done].
  destruct (Hfields "FILTER") as [band ->]; [by repeat constructor |]. done.
Qed.

Lemma get_nearest_calibration_frames_sentinel_witness :
  get_nearest_calibration_frames "SKYFLAT" 3 "ogg0m406-kb27-20200101-0009-x00.fits"
    (index_of night_docs) "fitsheaders" start
  = (Err AttributeError,
     (get_frame_metadata "ogg0m406-kb27-20200101-0009-x00.fits"
        (index_of night_docs) "fitsheaders" start).2).
Proof.
  apply (get_nearest_calibration_frames_sentinel "SKYFLAT" 3
           "ogg0m406-kb27-20200101-0009-x00.fits" (index_of night_docs)
           "fitsheaders" start _
           (frame_doc "ogg0m406-kb27-20200101-0009-x00.fits.fz" "ogg" "kb27" "rp"
              "EXPOSE" "N/A")).
  - vm_compute. reflexivity.
  - intros f Hf.
    repeat (apply elem_of_cons in Hf as [-> | Hf]; [vm_compute; eauto |]).
    by apply elem_of_nil in Hf.
  - vm_compute. reflexivity.
Defined.

Lemma final_filenames_names (results : list (gmap string string)) (fs : list string) :
  final_filenames results = Ok fs →
  fs = final_names results ∧ ∀ hit, hit ∈ results → is_Some (hit !! "filename").
Proof.
  revert fs. induction results as [|r rest IH]; intros fs H.
  - injection H as <-. split; [done |]. intros hit Hhit. by apply elem_of_nil in Hhit.
  - cbn [final_filenames] in H. unfold getitem in H.
    destruct (r !! "filename") as [g|] eqn:Hg; [| done].
    cbn [mbind result_bind] in H.
    unfold final_names. cbn [omap list_omap]. rewrite Hg. cbn [List.filter].
    fold (final_names rest).
    destruct (PyStr.contains "00.fits" g).
    + destruct (final_filenames rest) as [fs'|]; [| done].
      injection H as <-. destruct (IH fs' eq_refl) as [-> Hall].
      split; [done |]. intros hit [-> | ?]%elem_of_cons; eauto.
    + destruct (IH fs H) as [-> Hall].
      split; [done |]. intros hit [-> | ?]%elem_of_cons; eauto.
Qed.

Lemma prefixes_Forall2 (filenames keys : list string) :
  prefixes filenames = Ok keys →
  Forall2 (λ f key, make_s3_prefix_from_filename f = Ok key) filenames keys.
Proof.
  revert keys. induction filenames as [|f rest IH]; intros keys H.
  - injection H as <-. constructor.
  - cbn [prefixes] in H.
    destruct (make_s3_prefix_from_filename f) as [p|] eqn:Hp; [| done].
    cbn [mbind result_bind] in H.
    destruct (prefixes rest) as [ps|]; [| done].
    injection H as <-. constructor; auto.
Qed.

Lemma make_s3_prefix_from_filename_Ok_hyphens (filename key : string) :
  make_s3_prefix_from_filename filename = Ok key →
  (2 ≤ count_char "-" filename)%nat.
Proof.
  unfold make_s3_prefix_from_filename. intros H.
  pose proof (split_from_length "-" filename EmptyString) as Hlen.
  fold (PyStr.split "-" filename) in Hlen.
  destruct (decide (2 ≤ count_char "-" filename)%nat) as [| Hlt]; [done |].
  destruct (index (PyStr.split "-" filename) 1) as [x|] eqn:H1; [| done].
  rewrite (index_ge _ 2) in H by lia. done.
Qed.

(** X11: [get_nearest_calibration_frames] returns keys or nothing at all.
    When it returns after a successful metadata lookup, its last request
    is the relevance search, every hit of that search has a filename, the
    keys are those of the hits whose filename contains [00.fits], in the
    order of the hits, each built by [make_s3_prefix_from_filename], every
    such filename has at least two hyphens, and there are no more keys
    than hits. *)
Theorem get_nearest_calibration_frames_all_or_nothing (obstype : string)
    (n_frames : Z) (filename : string) (search_host : OpenSearch)
    (search_index : string) (st st1 st' : state) (meta : gmap string string)
    (keys : list string) :
  get_frame_metadata filename search_host search_index st = (Ok (Some meta), st1) →
  get_nearest_calibration_frames obstype n_frames filename search_host search_index st
  = (Ok keys, st') →
  ∃ q results,
    trace st' = trace st1 ++ [EvSearch search_index q (Returned (Some results))]
    ∧ (∀ hit, hit ∈ results → is_Some (hit !! "filename"))
    ∧ Forall2 (λ f key, make_s3_prefix_from_filename f = Ok key)
        (final_names results) keys
    ∧ (∀ f, f ∈ final_names results → (2 ≤ count_char "-" f)%nat)
    ∧ (length keys ≤ length results)%nat.
Proof.
  intros Hmeta Hrun.
  apply get_nearest_calibration_frames_inv in Hrun
    as [[Hnone _] | (meta' & st1' & must & origin & results & filenames
                     & Hmeta' & _ & [_ ->] & Hff & Hpre)]; [congruence |].
  rewrite Hmeta in Hmeta'. injection Hmeta' as <- <-.
  apply final_filenames_names in Hff as [-> Hnames].
  apply prefixes_Forall2 in Hpre.
  eexists _, results. split_and!; try done.
  - intros f Hf. apply list_elem_of_lookup in Hf as [i Hi].
    destruct (Forall2_lookup_l _ _ _ _ _ Hpre Hi) as (key & _ & Hkey).
    by apply make_s3_prefix_from_filename_Ok_hyphens in Hkey.
  - rewrite <- (Forall2_length _ _ _ Hpre). unfold final_names.
    etrans; [apply filter_length_le |].
    clear. induction results as [|r rest IH]; [done |].
    cbn [omap list_omap length]. destruct (r !! "filename"); cbn [length]; lia.
Qed.

Lemma get_nearest_calibration_frames_all_or_nothing_witness :
  ∃ q results,
    trace skyflat_run.2
    = trace (get_frame_metadata "coj0m405-kb24-20200101-0001-e00.fits"
               (index_of night_docs) "fitsheaders" start).2
      ++ [EvSearch "fitsheaders" q (Returned (Some results))]
    ∧ (∀ hit, hit ∈ results → is_Some (hit !! "filename"))
    ∧ Forall2 (λ f key, make_s3_prefix_from_filename f = Ok key)
        (final_names results)
        ["coj/kb24/20200101/raw/coj0m405-kb24-20200101-0002-f00.fits.fz"]
    ∧ (∀ f, f ∈ final_names results → (2 ≤ count_char "-" f)%nat)
    ∧ (length ["coj/kb24/20200101/raw/coj0m405-kb24-20200101-0002-f00.fits.fz"]
       ≤ length results)%nat.
Proof.
  apply (get_nearest_calibration_frames_all_or_nothing "SKYFLAT" 3
           "coj0m405-kb24-20200101-0001-e00.fits" (index_of night_docs)
           "fitsheaders" start _ skyflat_run.2
           (frame_doc "coj0m405-kb24-20200101-0001-e00.fits.fz" "coj" "kb24" "rp"
              "EXPOSE" "2020-01-01T10:30:00.5")).
  - vm_compute. reflexivity.
  - vm_compute. reflexivity.
Defined.

(** ** Date parsing: dates alone, and the padding *)

(** A reading of a date alone leaves the time of day at midnight. *)
Lemma readings_date_midnight (s : string) (dt : datetime) (rest : string) :
  (dt, rest) ∈ PyTime.readings "%Y-%m-%d" PyTime.epoch s →
  hour dt = 0%Z ∧ minute dt = 0%Z ∧ second dt = 0%Z ∧ microsecond dt = 0%Z.
Proof.
  intros H. cbn in H.
  repeat match type of H with
         | _ ∈ [] => by apply elem_of_nil in H
         | _ ∈ [_] => apply list_elem_of_singleton in H; injection H as -> ->
         | _ ∈ _ ++ _ => apply elem_of_app in H as [H | H]
         | _ ∈ match ?x with _ => _ end => destruct x eqn:?
         | _ ∈ (if ?b then _ else _) => destruct b eqn:?
         end; try done.
Qed.

(** X7: a [DATE-OBS] without a [T] that [parse_date_obs] accepts is a
    date alone: the timestamp returned is midnight of that day. *)
Theorem parse_date_obs_date_only (date_obs_string : string) (dt : datetime) :
  PyStr.contains "T" date_obs_string = false →
  parse_date_obs date_obs_string = Ok (Some dt) →
  hour dt = 0%Z ∧ minute dt = 0%Z ∧ second dt = 0%Z ∧ microsecond dt = 0%Z.
Proof.
  intros HT H. unfold parse_date_obs in H.
  destruct (String.eqb date_obs_string "N/A"); [done |].
  rewrite HT in H. cbn [negb] in H. unfold PyTime.strptime in H.
  destruct (PyTime.readings "%Y-%m-%d" PyTime.epoch date_obs_string)
    as [|[dt0 [|c rest]] more] eqn:Hreadings; try done.
  destruct (PyTime.valid dt0); [| done].
  injection H as <-.
  apply (readings_date_midnight date_obs_string dt0 EmptyString).
  rewrite Hreadings. apply list_elem_of_here.
Qed.

Lemma parse_date_obs_date_only_witness :
  hour {| year := 2020; month := 2; day := 29;
          hour := 0; minute := 0; second := 0; microsecond := 0 |} = 0%Z
  ∧ minute {| year := 2020; month := 2; day := 29;
              hour := 0; minute := 0; second := 0; microsecond := 0 |} = 0%Z
  ∧ second {| year := 2020; month := 2; day := 29;
              hour := 0; minute := 0; second := 0; microsecond := 0 |} = 0%Z
  ∧ microsecond {| year := 2020; month := 2; day := 29;
                   hour := 0; minute := 0; second := 0; microsecond := 0 |} = 0%Z.
Proof.
  apply (parse_date_obs_date_only "2020-02-29").
  - vm_compute. reflexivity.
  - vm_compute. reflexivity.
Defined.

(** The segments of a text that holds the separator: the last one is the
    last segment of what follows the separator, and there are at least two. *)
Lemma split_from_last (sep : ascii) (x y : string) :
  ∀ cur, ∃ l, l ≠ []
    ∧ PyStr.split_from sep cur (x +:+ String sep y) = l ++ PyStr.split sep y.
Proof.
  induction x as [|a x IH]; intros cur.
  - exists [cur]. split; [done |]. rewrite append_nil_l. cbn [PyStr.split_from].
    by rewrite Ascii.eqb_refl.
  - rewrite append_cons. cbn [PyStr.split_from].
    destruct (Ascii.eqb a sep).
    + destruct (IH EmptyString) as (l & _ & ->). by exists (cur :: l).
    + apply IH.
Qed.

Lemma length_repeat_nat (c : ascii) (n : nat) :
  String.length (PyStr.repeat_nat (String c EmptyString) n) = n.
Proof.
  induction n as [|n IH]; [done |].
  cbn [PyStr.repeat_nat]. rewrite append_cons, append_nil_l. cbn. by rewrite IH.
Qed.

Lemma contains_T_append (body rest : string) :
  PyStr.contains "T" body = true → PyStr.contains "T" (body +:+ rest) = true.
Proof.
  induction body as [|a body IH]; [done |]. intros HT.
  rewrite append_cons. cbn [PyStr.contains] in HT |- *.
  apply orb_true_iff in HT as [HT | HT]; apply orb_true_iff.
  - left. cbn in HT |- *. by destruct (Ascii.eqb "T" a).
  - right. by apply IH.
Qed.

Lemma parse_date_obs_with_time (date_obs_string : string) :
  PyStr.contains "T" date_obs_string = true →
  parse_date_obs date_obs_string
  = (dt ← PyTime.strptime (padded_date_obs date_obs_string) "%Y-%m-%dT%H:%M:%S.%f";
     mret (Some dt)).
Proof.
  intros HT. unfold parse_date_obs. rewrite HT. cbn [negb].
  destruct (String.eqb_spec date_obs_string "N/A") as [Heq | _]; [| done].
  by rewrite Heq in HT.
Qed.

(** X8: for a [DATE-OBS] with a [T] and a fraction after its last dot,
    [parse_date_obs] appends as many zeros as the fraction has characters
    short of six, none when it has six or more, and parses the result with
    the microsecond format: the text after the dot then has six characters,
    or as many as the fraction had if that was more.  Without any dot,
    [.000000] is appended. *)
Theorem parse_date_obs_pads_fraction (body fraction : string) :
  PyStr.contains "T" body = true →
  PyStr.has_char "." fraction = false →
  let date_obs_string := body +:+ "." +:+ fraction in
  let zeros := PyStr.repeat_nat "0" (6 - String.length fraction) in
  parse_date_obs date_obs_string
  = (dt ← PyTime.strptime (date_obs_string +:+ zeros) "%Y-%m-%dT%H:%M:%S.%f";
     mret (Some dt))
  ∧ String.length (fraction +:+ zeros) = (6 `max` String.length fraction)%nat
  ∧ (PyStr.has_char "." body = false →
     parse_date_obs body
     = (dt ← PyTime.strptime (body +:+ ".000000") "%Y-%m-%dT%H:%M:%S.%f";
        mret (Some dt))).
Proof.
  intros HT Hdot date_obs_string zeros. split_and!.
  - rewrite parse_date_obs_with_time by by apply contains_T_append.
    do 2 f_equal. unfold padded_date_obs, PyStr.split. subst date_obs_string zeros.
    change ("." +:+ fraction) with (String "." fraction).
    destruct (split_from_last "." body fraction EmptyString) as (l & Hl & ->).
    unfold PyStr.split. rewrite (split_from_clean "." fraction Hdot), append_nil_l.
    rewrite length_app, List.last_last. cbn [length].
    destruct (Z.ltb_spec 1 (Z.of_nat (length l + 1))) as [_ | Hle].
    + f_equal. unfold PyStr.repeat, PyStr.len. f_equal. lia.
    + destruct l; [done | cbn in Hle; lia].
  - subst zeros. rewrite length_append, length_repeat_nat. lia.
  - intros Hbody. rewrite parse_date_obs_with_time by done.
    unfold padded_date_obs, PyStr.split.
    by rewrite (split_from_clean "." body Hbody).
Qed.

Lemma parse_date_obs_pads_fraction_witness :
  parse_date_obs ("2020-01-01T10:30:00" +:+ "." +:+ "25")
  = (dt ← PyTime.strptime
            (("2020-01-01T10:30:00" +:+ "." +:+ "25") +:+ PyStr.repeat_nat "0" (6 - 2))
            "%Y-%m-%dT%H:%M:%S.%f";
     mret (Some dt))
  ∧ String.length ("25" +:+ PyStr.repeat_nat "0" (6 - 2)) = (6 `max` 2)%nat
  ∧ (PyStr.has_char "." "2020-01-01T10:30:00" = false →
     parse_date_obs "2020-01-01T10:30:00"
     = (dt ← PyTime.strptime ("2020-01-01T10:30:00" +:+ ".000000")
               "%Y-%m-%dT%H:%M:%S.%f";
        mret (Some dt))).
Proof.
  exact (parse_date_obs_pads_fraction "2020-01-01T10:30:00" "25" eq_refl eq_refl).
Defined.

(** ** The waiter, pass by pass *)

Section WaiterFacts.

Variable host : Host.
Variable s3 : S3Client.
Variable bucket_name : string.

Lemma polled_app (a b : list event) : polled (a ++ b) = polled a ++ polled b.
Proof. induction a as [|[] a IH]; cbn [polled app]; try done. by rewrite IH. Qed.

Lemma thawed_polls_app (a b : list event) :
  thawed_polls (a ++ b) = thawed_polls a ++ thawed_polls b.
Proof.
  induction a as [|[| | |? ? [r|]| | |] a IH]; cbn [thawed_polls app]; try done.
  destruct (thawed r); cbn [app]; by rewrite IH.
Qed.

Lemma sleeps_app (a b : list event) : sleeps (a ++ b) = (sleeps a + sleeps b)%nat.
Proof. induction a as [|[] a IH]; cbn [sleeps app]; try done. by rewrite IH. Qed.

Lemma thawed_polls_polled (evs : list event) (k : string) :
  k ∈ thawed_polls evs → k ∈ polled evs.
Proof.
  induction evs as [|[| | |? key [r|]| | |] evs IH]; cbn [thawed_polls polled];
    try done.
  - destruct (thawed r); [| by right; auto].
    intros [-> | ?]%elem_of_cons; [by left | right; auto].
  - right; auto.
Qed.

Lemma polled_until_thawed_app (a b : list event) :
  polled_until_thawed a → polled_until_thawed b →
  (∀ k, k ∈ thawed_polls a → k ∉ polled b) →
  polled_until_thawed (a ++ b).
Proof.
  induction a as [|[| | |? key [r|]| | |] a IH]; cbn [polled_until_thawed app];
    try done; try (intros; by apply IH).
  intros [Hkey Ha] Hb Hdisj. cbn [thawed_polls] in Hdisj. split.
  - intros Hr. rewrite polled_app. intros [? | ?]%elem_of_app.
    + by apply Hkey.
    + apply (Hdisj key); [| done]. rewrite Hr. by left.
  - apply IH; [done | done |]. intros k Hk. apply Hdisj.
    destruct (thawed r); [by right | done].
Qed.

(** What one pass does: it polls only keys of the pass that are not yet in
    the list, adds the keys it sees restored, and stops at the first poll
    that fails. *)
Lemma poll_spec (keys : list string) :
  ∀ restored st, ∃ res evs,
    poll keys bucket_name s3 restored st = (res, logged st evs)
    ∧ Forall (λ ev, ∃ k r, ev = EvHead bucket_name k r ∧ k ∈ keys ∧ k ∉ restored) evs
    ∧ polled_until_thawed evs
    ∧ match res with
      | Ok restored' => restored' = restored ++ thawed_polls evs
      | Err e =>
          ∃ evs0 k info,
            evs = evs0 ++ [EvHead bucket_name k (Failed info)] ∧ e = Raised info
      end.
Proof.
  induction keys as [|key rest IH]; intros restored st.
  - exists (Ok restored), []. rewrite logged_nil. cbn. by rewrite app_nil_r.
  - cbn [poll]. unfold mem.
    assert (Hweaken : ∀ (restored' : list string) evs,
      Forall (λ ev, ∃ k r, ev = EvHead bucket_name k r ∧ k ∈ rest ∧ k ∉ restored') evs →
      (∀ k, k ∈ restored → k ∈ restored') →
      Forall (λ ev, ∃ k r, ev = EvHead bucket_name k r ∧ k ∈ key :: rest
                           ∧ k ∉ restored) evs).
    { intros restored' evs Hall Hsub. eapply Forall_impl; [exact Hall |].
      intros ev (k & r & -> & Hk & Hnot). exists k, r.
      split_and!; [done | by right | auto]. }
    destruct (bool_decide_reflect (key ∈ restored)) as [Hin | Hnotin]; cbn [negb].
    + destruct (IH restored st) as (res & evs & -> & Hall & Hput & Hres).
      exists res, evs. split_and!; try done. by apply (Hweaken restored).
    + rewrite bind_run, call_head_run. cbv zeta.
      destruct (head_object s3 (trace st) bucket_name key) as [response|info].
      * destruct (thawed response) eqn:Hthawed.
        -- destruct (IH (restored ++ [key])
                       (logged st [EvHead bucket_name key (Returned response)]))
             as (res & evs & -> & Hall & Hput & Hres).
           exists res, (EvHead bucket_name key (Returned response) :: evs).
           rewrite logged_logged. split_and!; try done.
           ++ constructor; [exists key, (Returned response); set_solver |].
              apply (Hweaken (restored ++ [key])); [done | set_solver].
           ++ cbn [polled_until_thawed]. split; [| done]. intros _ Hpolled.
              clear Hres Hput.
              induction Hall as [|ev evs (k & r & -> & _ & Hk) _ IHall];
                [by apply elem_of_nil in Hpolled |].
              cbn [polled] in Hpolled.
              apply elem_of_cons in Hpolled as [-> | ?]; [set_solver | auto].
           ++ destruct res as [restored'|e]; [| ].
              ** cbn [thawed_polls]. rewrite Hthawed, Hres.
                 by rewrite <- app_assoc.
              ** destruct Hres as (evs0 & k & info & -> & ->).
                 by exists (EvHead bucket_name key (Returned response) :: evs0), k, info.
        -- destruct (IH restored
                       (logged st [EvHead bucket_name key (Returned response)]))
             as (res & evs & -> & Hall & Hput & Hres).
           exists res, (EvHead bucket_name key (Returned response) :: evs).
           rewrite logged_logged. split_and!; try done.
           ++ constructor; [exists key, (Returned response); set_solver |].
              by apply (Hweaken restored).
           ++ cbn [polled_until_thawed]. split; [| done]. congruence.
           ++ destruct res as [restored'|e].
              ** cbn [thawed_polls]. by rewrite Hthawed.
              ** destruct Hres as (evs0 & k & info & -> & ->).
                 by exists (EvHead bucket_name key (Returned response) :: evs0), k, info.
      * exists (Err (Raised info)), [EvHead bucket_name key (Failed info)].
        split_and!; try done.
        -- constructor; [| done]. exists key, (Failed info). set_solver.
        -- by exists [], key, info.
Qed.

(** What the loop does, whatever its outcome. *)
Lemma wait_loop_spec (keys : list string) (fuel : nat) :
  ∀ restored st res st',
    wait_loop host fuel keys bucket_name s3 restored st = Some (res, st') →
    ∃ evs, st' = logged st evs
      ∧ Forall (wait_event bucket_name keys) evs
      ∧ (∀ k, k ∈ polled evs → k ∉ restored)
      ∧ polled_until_thawed evs
      ∧ match res with
        | Ok _ => (length keys ≤ length (restored ++ thawed_polls evs))%nat
        | Err e =>
            ∃ evs0 k info,
              evs = evs0 ++ [EvHead bucket_name k (Failed info)] ∧ e = Raised info
        end.
Proof.
  induction fuel as [|fuel IH]; intros restored st res st' Hrun.
  all: destruct (Nat.lt_ge_cases (length restored) (length keys)) as [Hlt | Hge].
  all: try (rewrite wait_loop_done in Hrun by done; injection Hrun as <- <-;
            exists []; rewrite logged_nil, app_nil_r;
            split_and!; [done | done | | done | done];
            intros k Hk; by apply elem_of_nil in Hk).
  - by rewrite wait_loop_stuck in Hrun.
  - rewrite (wait_loop_round host s3 bucket_name _ _ _ _ Hlt) in Hrun.
    destruct (poll_spec keys restored st) as (res1 & evs1 & Hpoll & Hall1 & Hput1 & Hres1).
    rewrite Hpoll in Hrun.
    assert (Hshape1 : Forall (wait_event bucket_name keys) evs1).
    { eapply Forall_impl; [exact Hall1 |]. by intros ev (k & r & -> & ? & _). }
    assert (Hpolled1 : ∀ k, k ∈ polled evs1 → k ∉ restored).
    { clear -Hall1. induction Hall1 as [|ev evs (k' & r & -> & _ & Hk') _ IHall];
        intros k Hk; [by apply elem_of_nil in Hk |].
      cbn [polled] in Hk. apply elem_of_cons in Hk as [-> | ?]; auto. }
    destruct res1 as [restored'|e].
    + subst restored'. rewrite logged_logged in Hrun.
      destruct (IH _ _ _ _ Hrun) as (evs2 & -> & Hall2 & Hpolled2 & Hput2 & Hres2).
      eexists. rewrite logged_logged. split; [done |]. split_and!.
      * apply Forall_app. split; [| done]. apply Forall_app. split; [done |].
        by repeat constructor.
      * intros k. rewrite !polled_app. cbn [polled app].
        intros [[? | ?]%elem_of_app | ?]%elem_of_app; auto.
        -- by apply elem_of_nil in H.
        -- intros Hk. apply (Hpolled2 k); [done |]. apply elem_of_app. by left.
      * rewrite <- app_assoc. apply polled_until_thawed_app; [done | done |].
        intros k Hk. cbn [polled app]. intros Hk2.
        apply (Hpolled2 k Hk2). apply elem_of_app. by right.
      * destruct res as [[]|e].
        -- rewrite !thawed_polls_app, !length_app. rewrite !length_app in Hres2.
           cbn [thawed_polls length]. lia.
        -- destruct Hres2 as (evs0 & k & info & -> & ->).
           eexists _, k, info. split; [| done]. by rewrite !app_assoc.
    + injection Hrun as <- <-. exists evs1. split_and!; done.
Qed.

Lemma polled_until_thawed_NoDup (evs : list event) :
  polled_until_thawed evs → NoDup (thawed_polls evs).
Proof.
  induction evs as [|ev evs IH]; [intros; apply NoDup_nil_2 |].
  destruct ev as [| | |? key [r|]| | |]; cbn [polled_until_thawed thawed_polls];
    try done.
  intros [Hkey Hput]. destruct (thawed r); [| auto].
  apply NoDup_cons. split; [| auto].
  intros Hin. apply Hkey; [done |]. by apply thawed_polls_polled.
Qed.

Lemma wait_event_polled (keys : list string) (evs : list event) :
  Forall (wait_event bucket_name keys) evs → ∀ k, k ∈ polled evs → k ∈ keys.
Proof.
  induction 1 as [|[] evs Hev _ IH]; intros k Hk; cbn [polled] in Hk;
    try (by apply IH); [by apply elem_of_nil in Hk |].
  destruct Hev as [_ ?]. apply elem_of_cons in Hk as [-> | ?]; auto.
Qed.

End WaiterFacts.

(** X13: a finished call of [wait_for_files_to_thaw] has only polled keys
    of its set in its bucket, printed, and slept 300 seconds at a time; it
    leaves the key sets as they are. *)
Theorem wait_for_files_to_thaw_events (host : Host) (s3 : S3Client)
    (bucket_name : string) (keys : list string) (fuel : nat) (st st' : state)
    (res : result unit) :
  wait_for_files_to_thaw host fuel keys bucket_name s3 st = Some (res, st') →
  ∃ evs, trace st' = trace st ++ evs
         ∧ heap st' = heap st
         ∧ Forall (wait_event bucket_name keys) evs.
Proof.
  intros Hrun. unfold wait_for_files_to_thaw in Hrun.
  destruct (wait_loop_spec host s3 bucket_name keys fuel _ _ _ _ Hrun)
    as (evs & -> & Hshape & _).
  by exists evs.
Qed.

Lemma wait_for_files_to_thaw_events_witness :
  ∃ res st' evs,
    slow_run = Some (res, st')
    ∧ trace st' = trace start ++ evs
    ∧ heap st' = heap start
    ∧ Forall (wait_event "test-bucket" [first_key]) evs.
Proof.
  destruct slow_run as [[res st']|] eqn:Hrun; [| by vm_compute in Hrun].
  destruct (wait_for_files_to_thaw_events quiet_host slow_store "test-bucket"
              [first_key] 3 start st' res Hrun) as (evs & ? & ? & ?).
  by exists res, st', evs.
Defined.

(** X14: [wait_for_files_to_thaw] catches nothing: when it raises, its
    last request is a failed [head_object] on one of its keys, and the
    exception is that failure. *)
Theorem wait_for_files_to_thaw_raises (host : Host) (s3 : S3Client)
    (bucket_name : string) (keys : list string) (fuel : nat) (st st' : state)
    (e : exn) :
  wait_for_files_to_thaw host fuel keys bucket_name s3 st = Some (Err e, st') →
  ∃ evs key info,
    trace st' = trace st ++ evs ++ [EvHead bucket_name key (Failed info)]
    ∧ key ∈ keys
    ∧ e = Raised info.
Proof.
  intros Hrun. unfold wait_for_files_to_thaw in Hrun.
  destruct (wait_loop_spec host s3 bucket_name keys fuel _ _ _ _ Hrun)
    as (evs & -> & Hshape & _ & _ & evs0 & key & info & -> & ->).
  exists evs0, key, info. split_and!; [done | | done].
  apply Forall_app in Hshape as [_ Hlast].
  apply Forall_cons in Hlast as [[_ ?] _]. done.
Qed.

Lemma wait_for_files_to_thaw_raises_witness :
  ∃ evs key info,
    trace (logged start [EvHead "test-bucket" first_key (Failed not_found_info)])
    = trace start ++ evs ++ [EvHead "test-bucket" key (Failed info)]
    ∧ key ∈ [first_key]
    ∧ Raised not_found_info = Raised info.
Proof.
  apply (wait_for_files_to_thaw_raises quiet_host empty_store "test-bucket"
           [first_key] 1 start).
  vm_compute. reflexivity.
Defined.

(** X15: within a call of [wait_for_files_to_thaw], a key whose poll has
    shown its restore complete is not polled again, and no key is seen
    restored twice. *)
Theorem wait_for_files_to_thaw_polls_until_thawed (host : Host) (s3 : S3Client)
    (bucket_name : string) (keys : list string) (fuel : nat) (st st' : state)
    (res : result unit) :
  wait_for_files_to_thaw host fuel keys bucket_name s3 st = Some (res, st') →
  ∃ evs, trace st' = trace st ++ evs
         ∧ polled_until_thawed evs
         ∧ NoDup (thawed_polls evs).
Proof.
  intros Hrun. unfold wait_for_files_to_thaw in Hrun.
  destruct (wait_loop_spec host s3 bucket_name keys fuel _ _ _ _ Hrun)
    as (evs & -> & _ & _ & Hput & _).
  exists evs. split_and!; [done | done |].
  by apply polled_until_thawed_NoDup.
Qed.

Lemma wait_for_files_to_thaw_polls_until_thawed_witness :
  ∃ res st' evs,
    slow_run = Some (res, st')
    ∧ trace st' = trace start ++ evs
    ∧ polled_until_thawed evs
    ∧ NoDup (thawed_polls evs).
Proof.
  destruct slow_run as [[res st']|] eqn:Hrun; [| by vm_compute in Hrun].
  destruct (wait_for_files_to_thaw_polls_until_thawed quiet_host slow_store
              "test-bucket" [first_key] 3 start st' res Hrun) as (evs & ? & ? & ?).
  by exists res, st', evs.
Defined.

(** X16: given a list in which a key occurs twice,
    [wait_for_files_to_thaw] never returns normally: a key enters
    [restored_objects] at most once, so its length stays below that of the
    list. *)
Theorem wait_for_files_to_thaw_duplicate_key (host : Host) (s3 : S3Client)
    (bucket_name : string) (keys : list string) (fuel : nat) (st st' : state) :
  ¬ NoDup keys →
  wait_for_files_to_thaw host fuel keys bucket_name s3 st ≠ Some (Ok tt, st').
Proof.
  intros Hdup Hrun. unfold wait_for_files_to_thaw in Hrun.
  destruct (wait_loop_spec host s3 bucket_name keys fuel _ _ _ _ Hrun)
    as (evs & -> & Hshape & _ & Hput & Hlen).
  cbn [app] in Hlen. apply Hdup.
  assert (Hperm : thawed_polls evs ≡ₚ keys).
  { apply submseteq_length_Permutation; [| done].
    apply NoDup_submseteq; [by apply polled_until_thawed_NoDup |].
    intros k Hk. apply (wait_event_polled bucket_name keys evs Hshape).
    by apply thawed_polls_polled. }
  rewrite <- Hperm. by apply polled_until_thawed_NoDup.
Qed.

Lemma wait_for_files_to_thaw_duplicate_key_witness :
  ¬ NoDup [first_key; first_key]
  ∧ wait_for_files_to_thaw quiet_host 4 [first_key; first_key] "test-bucket"
      restored_store start
    ≠ Some (Ok tt, start).
Proof.
  assert (H : ¬ NoDup [first_key; first_key]).
  { intros [Hnot _]%NoDup_cons. apply Hnot, list_elem_of_here. }
  split; [exact H |].
  exact (wait_for_files_to_thaw_duplicate_key quiet_host restored_store
           "test-bucket" [first_key; first_key] 4 start start H).
Defined.

Section Convergence.

Variable host : Host.
Variable s3 : S3Client.
Variable bucket_name : string.
Variable keys : list string.
Variable n : nat.

(** No poll fails, and once the caller has slept [n] times every poll
    shows the restore complete. *)
Hypothesis restored_after_n : ∀ h k, k ∈ keys →
  ∃ response, head_object s3 h bucket_name k = Returned response
              ∧ ((n ≤ sleeps h)%nat → thawed response = true).

Lemma poll_total (ks : list string) :
  (∀ k, k ∈ ks → k ∈ keys) →
  ∀ restored st, ∃ restored' evs,
    poll ks bucket_name s3 restored st = (Ok restored', logged st evs)
    ∧ sleeps evs = 0%nat
    ∧ (∀ k, k ∈ restored → k ∈ restored')
    ∧ ((n ≤ sleeps (trace st))%nat → ∀ k, k ∈ ks → k ∈ restored').
Proof.
  induction ks as [|key rest IH]; intros Hsub restored st.
  - exists restored, []. rewrite logged_nil. split_and!; try done.
    intros _ k Hk. by apply elem_of_nil in Hk.
  - assert (Hrest : ∀ k, k ∈ rest → k ∈ keys) by (intros; apply Hsub; by right).
    cbn [poll]. unfold mem.
    destruct (bool_decide_reflect (key ∈ restored)) as [Hin | Hnotin]; cbn [negb].
    + destruct (IH Hrest restored st) as (restored' & evs & -> & Hs & Hmono & Hall).
      exists restored', evs. split_and!; try done.
      intros Hn k [-> | Hk]%elem_of_cons; auto.
    + rewrite bind_run, call_head_run. cbv zeta.
      destruct (restored_after_n (trace st) key) as (response & -> & Hthawed);
        [apply Hsub; by left |].
      destruct (thawed response) eqn:Hresp.
      * destruct (IH Hrest (restored ++ [key])
                    (logged st [EvHead bucket_name key (Returned response)]))
          as (restored' & evs & -> & Hs & Hmono & Hall).
        exists restored', (EvHead bucket_name key (Returned response) :: evs).
        rewrite logged_logged. split_and!; try done.
        -- intros k Hk. apply Hmono. apply elem_of_app. by left.
        -- intros Hn k [-> | Hk]%elem_of_cons.
           ++ apply Hmono. apply elem_of_app. right. by left.
           ++ apply Hall; [| done]. cbn [logged trace].
              rewrite sleeps_app. cbn [sleeps]. lia.
      * destruct (IH Hrest restored
                    (logged st [EvHead bucket_name key (Returned response)]))
          as (restored' & evs & -> & Hs & Hmono & Hall).
        exists restored', (EvHead bucket_name key (Returned response) :: evs).
        rewrite logged_logged. split_and!; try done.
        intros Hn. specialize (Hthawed Hn). congruence.
Qed.

Lemma wait_loop_converges (d : nat) :
  NoDup keys →
  ∀ restored st,
    (n - sleeps (trace st) ≤ d)%nat →
    ∃ evs,
      wait_loop host (S d) keys bucket_name s3 restored st
      = Some (Ok tt, logged st evs)
      ∧ (sleeps evs ≤ S d)%nat.
Proof.
  intros Hnd. induction d as [|d IH]; intros restored st Hd.
  all: destruct (Nat.lt_ge_cases (length restored) (length keys)) as [Hlt | Hge];
    [| exists []; rewrite logged_nil; split; [by apply wait_loop_done | cbn; lia]].
  all: rewrite (wait_loop_round host s3 bucket_name _ _ _ _ Hlt).
  all: destruct (poll_total keys (λ k Hk, Hk) restored st)
         as (restored' & evs1 & -> & Hs1 & _ & Hall).
  all: rewrite logged_logged.
  all: assert (Hdone : (n ≤ sleeps (trace st))%nat →
         (length keys ≤ length restored')%nat)
         by (intros Hn; apply submseteq_length, NoDup_submseteq; auto).
  - eexists. split; [apply wait_loop_done; apply Hdone; lia |].
    rewrite sleeps_app, Hs1. cbn. lia.
  - destruct (decide (n ≤ sleeps (trace st))%nat) as [Hn | Hn].
    + eexists. split; [apply wait_loop_done; by apply Hdone |].
      rewrite sleeps_app, Hs1. cbn. lia.
    + edestruct (IH restored') as (evs2 & -> & Hs2).
      { cbn [logged trace]. rewrite !sleeps_app, Hs1. cbn [sleeps]. lia. }
      rewrite logged_logged. eexists. split; [done |].
      rewrite !sleeps_app, Hs1. cbn [sleeps]. lia.
Qed.

End Convergence.

(** X17: when the keys are distinct, no poll fails, and every key shows
    its restore complete once the process has slept [n] times,
    [wait_for_files_to_thaw] returns, after at most as many passes as
    sleeps are still missing plus one. *)
Theorem wait_for_files_to_thaw_converges (host : Host) (s3 : S3Client)
    (bucket_name : string) (keys : list string) (n : nat) (st : state) :
  NoDup keys →
  (∀ h k, k ∈ keys →
     ∃ response, head_object s3 h bucket_name k = Returned response
                 ∧ ((n ≤ sleeps h)%nat → thawed response = true)) →
  ∃ st' evs,
    wait_for_files_to_thaw host (S (n - sleeps (trace st))) keys bucket_name s3 st
    = Some (Ok tt, st')
    ∧ trace st' = trace st ++ evs
    ∧ (sleeps evs ≤ S (n - sleeps (trace st)))%nat.
Proof.
  intros Hnd Hstore. unfold wait_for_files_to_thaw.
  destruct (wait_loop_converges host s3 bucket_name keys n Hstore
              (n - sleeps (trace st)) Hnd [] st) as (evs & -> & Hs); [lia |].
  by eexists _, evs.
Qed.

Lemma wait_for_files_to_thaw_converges_witness :
  ∃ st' evs,
    wait_for_files_to_thaw quiet_host 3 [first_key] "test-bucket" slow_store start
    = Some (Ok tt, st')
    ∧ trace st' = trace start ++ evs
    ∧ (sleeps evs ≤ 3)%nat.
Proof.
  apply (wait_for_files_to_thaw_converges quiet_host slow_store "test-bucket"
           [first_key] 2 start).
  - apply NoDup_singleton.
  - intros h k _.
    exists (if (2 <=? sleeps h)%nat
            then {[ "Restore" := ongoing_request_false ]} else ∅).
    split; [reflexivity |].
    intros Hn. apply Nat.leb_le in Hn. rewrite Hn. vm_compute. reflexivity.
Defined.

(** ** Restore requests on a healthy set *)

Lemma list_difference_nil (l : list string) : list_difference l [] = l.
Proof.
  induction l as [|x l IH]; [done |]. cbn [list_difference].
  rewrite IH. destruct (decide_rel _ _ _) as [Hx|]; [| done].
  by apply elem_of_nil in Hx.
Qed.

Lemma thaw_sweep_healthy (bucket_name : string) (s3 : S3Client) (thaw_mode : string)
    (keys : list string) :
  (∀ h k, k ∈ keys →
     no_such_key (restore_object s3 h bucket_name k 1 thaw_mode) = false
     ∧ fatal (restore_object s3 h bucket_name k 1 thaw_mode) = false) →
  ∀ dead st, ∃ outcomes,
    thaw_sweep keys bucket_name s3 thaw_mode dead st
    = (Ok dead,
       logged st (zip_with (λ k o, EvRestore bucket_name k 1 thaw_mode o)
                    keys outcomes))
    ∧ length outcomes = length keys.
Proof.
  induction keys as [|key rest IH]; intros Hstore dead st.
  - exists []. by rewrite logged_nil.
  - cbn [thaw_sweep]. rewrite bind_run, try_call_run.
    destruct (Hstore (trace st) key (list_elem_of_here _ _)) as [Hdead Hfatal].
    destruct (IH (λ h k Hk, Hstore h k (list_elem_of_further _ _ _ Hk)) dead
                (logged st [EvRestore bucket_name key 1 thaw_mode
                              (restore_object s3 (trace st) bucket_name key 1
                                 thaw_mode)]))
      as (outcomes & Hrun & Hlen).
    exists (restore_object s3 (trace st) bucket_name key 1 thaw_mode :: outcomes).
    cbn [zip_with length]. rewrite Hlen. split; [| done].
    destruct (restore_object s3 (trace st) bucket_name key 1 thaw_mode)
      as [[]|info].
    + by rewrite Hrun, logged_logged.
    + cbn [no_such_key fatal already_in_progress] in Hdead, Hfatal.
      rewrite Hdead in Hfatal |- *. cbn [negb andb] in Hfatal.
      apply negb_false_iff in Hfatal. rewrite Hfatal. cbn [negb].
      by rewrite Hrun, logged_logged.
Qed.

(** X12: when no restore request fails with [NoSuchKey] or with a fatal
    error (so each is accepted or already in progress), [thaw_files]
    returns, has sent exactly one request per key, in order, and nothing
    else, prints nothing, and leaves the key sets as they are. *)
Theorem thaw_files_healthy_set (object_keys : nat) (bucket_name : string)
    (s3 : S3Client) (thaw_mode : string) (st : state) (keys : list string) :
  heap st !! object_keys = Some keys →
  (∀ h k, k ∈ keys →
     no_such_key (restore_object s3 h bucket_name k 1 thaw_mode) = false
     ∧ fatal (restore_object s3 h bucket_name k 1 thaw_mode) = false) →
  ∃ outcomes,
    thaw_files object_keys bucket_name s3 thaw_mode st
    = (Ok tt,
       logged st (zip_with (λ k o, EvRestore bucket_name k 1 thaw_mode o)
                    keys outcomes))
    ∧ length outcomes = length keys.
Proof.
  intros Hkeys Hstore.
  destruct (thaw_sweep_healthy bucket_name s3 thaw_mode keys Hstore [] st)
    as (outcomes & Hrun & Hlen).
  exists outcomes. split; [| done].
  unfold thaw_files. rewrite bind_run. unfold deref at 1. rewrite Hkeys.
  rewrite bind_run, Hrun. unfold difference_update, logged. cbn [heap trace].
  rewrite Hkeys, list_difference_nil. by rewrite insert_id.
Qed.

Lemma thaw_files_healthy_set_witness :
  ∃ outcomes,
    thaw_files 0 "test-bucket" busy_store "Standard" (holding three_keys)
    = (Ok tt,
       logged (holding three_keys)
         (zip_with (λ k o, EvRestore "test-bucket" k 1 "Standard" o)
            three_keys outcomes))
    ∧ length outcomes = length three_keys.
Proof.
  apply (thaw_files_healthy_set 0 "test-bucket" busy_store "Standard"
           (holding three_keys) three_keys).
  - vm_compute. reflexivity.
  - intros h k _. split; vm_compute; reflexivity.
Defined.

(** X18: [thaw_files] followed by [wait_for_files_to_thaw] on the set it
    has tidied: a key whose restore request failed with [NoSuchKey] is
    never polled. *)
Theorem dead_keys_are_never_polled (host : Host) (object_keys : nat)
    (bucket_name : string) (s3 waited : S3Client) (thaw_mode : string)
    (st st1 st2 : state) (keys' : list string) (fuel : nat) (res : result unit)
    (evs1 evs2 : list event) :
  thaw_files object_keys bucket_name s3 thaw_mode st = (Ok tt, st1) →
  trace st1 = trace st ++ evs1 →
  heap st1 !! object_keys = Some keys' →
  wait_for_files_to_thaw host fuel keys' bucket_name waited st1 = Some (res, st2) →
  trace st2 = trace st1 ++ evs2 →
  ∀ k, k ∈ dead_keys evs1 → k ∉ polled evs2.
Proof.
  intros Hthaw Htrace1 Hkeys' Hwait Htrace2 k Hdead Hpolled.
  destruct (heap st !! object_keys) as [keys|] eqn:Hkeys.
  2: { unfold thaw_files in Hthaw. rewrite bind_run in Hthaw.
       unfold deref at 1 in Hthaw. by rewrite Hkeys in Hthaw. }
  destruct (thaw_files_run object_keys bucket_name s3 thaw_mode st keys Hkeys)
    as (res0 & evs & (_ & _ & _ & Hres) & Hrun).
  rewrite Hthaw in Hrun. destruct res0 as [dead|e]; [| done].
  injection Hrun as ->. destruct Hres as (_ & _ & ->).
  cbn [trace heap app] in Htrace1, Hkeys'.
  apply app_inv_head in Htrace1 as <-.
  rewrite lookup_insert_eq in Hkeys'. injection Hkeys' as <-.
  unfold wait_for_files_to_thaw in Hwait.
  destruct (wait_loop_spec host waited bucket_name _ fuel _ _ _ _ Hwait)
    as (evs' & -> & Hshape & _).
  cbn [logged trace] in Htrace2. apply app_inv_head in Htrace2 as <-.
  apply (wait_event_polled _ _ _ Hshape) in Hpolled.
  apply list_elem_of_difference in Hpolled as [_ Hnot]. by apply Hnot.
Qed.

Lemma dead_keys_are_never_polled_witness :
  thaw_then_wait_2 = Some (Ok tt, thaw_then_wait_end)
  ∧ "coj/kb24/20200101/raw/coj0m405-kb24-20200101-0002-e00.fits.fz"
    ∈ dead_keys (trace thaw_then_wait_1.2)
  ∧ "coj/kb24/20200101/raw/coj0m405-kb24-20200101-0002-e00.fits.fz"
    ∉ polled (drop (length (trace thaw_then_wait_1.2)) (trace thaw_then_wait_end)).
Proof.
  assert (Hwait : thaw_then_wait_2 = Some (Ok tt, thaw_then_wait_end))
    by (vm_compute; reflexivity).
  assert (Hdead : "coj/kb24/20200101/raw/coj0m405-kb24-20200101-0002-e00.fits.fz"
                  ∈ dead_keys (trace thaw_then_wait_1.2)).
  { vm_compute. apply list_elem_of_here. }
  split_and!; [exact Hwait | exact Hdead |].
  apply (dead_keys_are_never_polled quiet_host 0 "test-bucket"
           two_of_three_restored two_of_three_restored "Standard"
           (holding three_keys) thaw_then_wait_1.2 thaw_then_wait_end
           ["coj/kb24/20200101/raw/coj0m405-kb24-20200101-0001-e00.fits.fz";
            "coj/kb24/20200101/raw/coj0m405-kb24-20200101-0003-e00.fits.fz"]
           1 (Ok tt)
           (trace thaw_then_wait_1.2)
           (drop (length (trace thaw_then_wait_1.2)) (trace thaw_then_wait_end))).
  - vm_compute. reflexivity.
  - reflexivity.
  - vm_compute. reflexivity.
  - exact Hwait.
  - vm_compute. reflexivity.
  - exact Hdead.
Defined.

(** ** The downloader *)

Lemma call_makedirs_run (host : Host) (dir : string) (st : state) :
  call (λ h, makedirs host h dir) (EvMakedirs dir) st =
  let r := makedirs host (trace st) dir in
  (match r with Returned a => Ok a | Failed info => Err (Raised info) end,
   logged st [EvMakedirs dir r]).
Proof.
  unfold call. rewrite bind_run, try_call_run.
  by destruct (makedirs host (trace st) dir).
Qed.

(** The steps for one key, once its directory exists, before the rest of
    the loop. *)
Lemma download_one_key (s3 : S3Client) (base_dir bucket_name key : string)
    (rest : M unit) (st : state) :
  let dir := PyPath.join base_dir (PyPath.dirname key) in
  let st1 := logged st [EvMakedirs dir (Returned tt)] in
  let o := download_file s3 (trace st1) bucket_name key (PyPath.join base_dir key) in
  (r ← try_call (λ h, download_file s3 h bucket_name key (PyPath.join base_dir key))
                (EvDownload bucket_name key (PyPath.join base_dir key));
   match r with
   | Returned _ => print ("Downloaded " +:+ PyPath.basename key)
   | Failed _ => print ("Skipped " +:+ PyPath.basename key)
   end;;
   rest) st1
  = rest (logged st (download_steps base_dir bucket_name key o)).
Proof.
  intros dir st1 o. rewrite bind_run, try_call_run. fold o.
  unfold download_steps. fold dir. subst st1. rewrite bind_run.
  destruct o; by rewrite print_run, !logged_logged.
Qed.

(** X19: when the directories can be created, [download_thawed_files]
    returns whatever the downloads do: for every key, in order, it creates
    the directory, attempts the download once and prints [Downloaded] or
    [Skipped] with the base name. *)
Theorem download_thawed_files_attempts_every_key (host : Host) (s3 : S3Client)
    (base_dir bucket_name : string) (object_keys : list string) (st : state) :
  (∀ h dir, makedirs host h dir = Returned tt) →
  ∃ outcomes,
    download_thawed_files host object_keys base_dir bucket_name s3 st
    = (Ok tt,
       logged st (concat (zip_with (download_steps base_dir bucket_name)
                            object_keys outcomes)))
    ∧ length outcomes = length object_keys.
Proof.
  intros Hdirs. revert st. induction object_keys as [|key rest IH]; intros st.
  - exists []. by rewrite logged_nil.
  - cbn [download_thawed_files]. cbv zeta.
    rewrite bind_run, call_makedirs_run. cbv zeta. rewrite Hdirs.
    pose proof (download_one_key s3 base_dir bucket_name key
                  (download_thawed_files host rest base_dir bucket_name s3) st)
      as Hone.
    cbv zeta in Hone. rewrite Hone.
    destruct (IH (logged st (download_steps base_dir bucket_name key
                     (download_file s3
                        (trace (logged st
                           [EvMakedirs (PyPath.join base_dir (PyPath.dirname key))
                              (Returned tt)]))
                        bucket_name key (PyPath.join base_dir key)))))
      as (outcomes & -> & Hlen).
    eexists (_ :: outcomes). cbn [zip_with concat length].
    rewrite logged_logged, Hlen. done.
Qed.

Lemma download_thawed_files_attempts_every_key_witness :
  ∃ outcomes,
    download_thawed_files quiet_host two_frames "/data" "test-bucket" cold_archive
      start
    = (Ok tt,
       logged start (concat (zip_with (download_steps "/data" "test-bucket")
                               two_frames outcomes)))
    ∧ length outcomes = length two_frames.
Proof.
  apply (download_thawed_files_attempts_every_key quiet_host cold_archive "/data"
           "test-bucket" two_frames start).
  reflexivity.
Defined.

(** Every run of the downloader: it goes through the keys in order, and
    stops only where a directory cannot be created. *)
Lemma download_thawed_files_run (host : Host) (s3 : S3Client)
    (base_dir bucket_name : string) (object_keys : list string) :
  ∀ st, ∃ res evs,
    download_thawed_files host object_keys base_dir bucket_name s3 st
    = (res, logged st evs)
    ∧ match res with
      | Ok _ =>
          ∃ outcomes,
            evs = concat (zip_with (download_steps base_dir bucket_name)
                            object_keys outcomes)
            ∧ length outcomes = length object_keys
      | Err e =>
          ∃ served key todo outcomes info,
            object_keys = served ++ key :: todo
            ∧ length outcomes = length served
            ∧ evs = concat (zip_with (download_steps base_dir bucket_name)
                              served outcomes)
                    ++ [EvMakedirs (PyPath.join base_dir (PyPath.dirname key))
                          (Failed info)]
            ∧ e = Raised info
      end.
Proof.
  induction object_keys as [|key rest IH]; intros st.
  - exists (Ok tt), []. rewrite logged_nil. split; [done |]. by exists [].
  - cbn [download_thawed_files]. cbv zeta.
    rewrite bind_run, call_makedirs_run. cbv zeta.
    destruct (makedirs host (trace st) _) as [[]|info].
    + pose proof (download_one_key s3 base_dir bucket_name key
                    (download_thawed_files host rest base_dir bucket_name s3) st)
        as Hone.
      cbv zeta in Hone. rewrite Hone.
      set (o := download_file s3 _ bucket_name key (PyPath.join base_dir key)).
      destruct (IH (logged st (download_steps base_dir bucket_name key o)))
        as (res & evs & -> & Hres).
      exists res, (download_steps base_dir bucket_name key o ++ evs).
      rewrite logged_logged. split; [done |].
      destruct res as [[]|e].
      * destruct Hres as (outcomes & -> & Hlen).
        exists (o :: outcomes). cbn [zip_with concat length]. by rewrite Hlen.
      * destruct Hres as (served & k & todo & outcomes & info & -> & Hlen & -> & ->).
        exists (key :: served), k, todo, (o :: outcomes), info.
        cbn [zip_with concat length]. rewrite Hlen, <- app_assoc. done.
    + exists (Err (Raised info)),
        [EvMakedirs (PyPath.join base_dir (PyPath.dirname key)) (Failed info)].
      split; [done |]. by exists [], key, rest, [], info.
Qed.

(** X20: [download_thawed_files] raises only when a directory cannot be
    created: the keys before that one have been served in full, the failed
    [makedirs] is the last event and its failure is the exception; the
    remaining keys are not attempted. *)
Theorem download_thawed_files_raises (host : Host) (s3 : S3Client)
    (base_dir bucket_name : string) (object_keys : list string) (st st' : state)
    (e : exn) :
  download_thawed_files host object_keys base_dir bucket_name s3 st = (Err e, st') →
  ∃ served key todo outcomes info,
    object_keys = served ++ key :: todo
    ∧ length outcomes = length served
    ∧ trace st' = trace st
        ++ concat (zip_with (download_steps base_dir bucket_name) served outcomes)
        ++ [EvMakedirs (PyPath.join base_dir (PyPath.dirname key)) (Failed info)]
    ∧ e = Raised info.
Proof.
  intros Hrun.
  destruct (download_thawed_files_run host s3 base_dir bucket_name object_keys st)
    as (res & evs & Hrun' & Hres).
  rewrite Hrun in Hrun'. injection Hrun' as <- ->.
  destruct Hres as (served & key & todo & outcomes & info & -> & Hlen & -> & ->).
  by exists served, key, todo, outcomes, info.
Qed.

Lemma download_thawed_files_raises_witness :
  ∃ served key todo outcomes info,
    two_frames = served ++ key :: todo
    ∧ length outcomes = length served
    ∧ trace (logged start [EvMakedirs "/data/" (Failed permission_info)])
      = trace start
        ++ concat (zip_with (download_steps "/data" "test-bucket") served outcomes)
        ++ [EvMakedirs (PyPath.join "/data" (PyPath.dirname key)) (Failed info)]
    ∧ Raised permission_info = Raised info.
Proof.
  apply (download_thawed_files_raises readonly_host cold_archive "/data"
           "test-bucket" two_frames start).
  vm_compute. reflexivity.
Defined.

(** ** The script, on any frame list *)

(** X21: the script's main block, on any frame list and any services,
    only creates directories, attempts downloads of the listed names and
    prints: it sends no search, no restore request and no poll, and does
    not sleep. *)
Theorem main_only_downloads (host : Host) (args : Args)
    (files_to_restore : list string) (search_host : OpenSearch) (s3 : S3Client)
    (st : state) :
  ∃ res evs,
    main host args files_to_restore search_host s3 st = (res, logged st evs)
    ∧ Forall (download_event files_to_restore) evs.
Proof.
  unfold main. apply download_thawed_files_events.
Qed.
